(** * ZoneValidator: the fabric validation engine

    A shallow embedding of [src/utils/fabricValidator.ts] (class
    [FabricValidator]) and of the types of [src/types/index.ts], followed
    by the properties of the engine.

    Conventions of the embedding.
    - A JavaScript string is a [string]; the engine only inspects the ASCII
      characters [_], [|] and the letters of ["yes"], so a character is an
      8-bit [ascii] here.
    - A property of a row object is an [option string]: [None] is the value
      [undefined] that reading an absent property yields.
    - A JavaScript number that holds a count is a [Z]; the one place where
      the engine leaves the integers, the percentage of [getSummary], is
      computed on IEEE 754 binary64 values ([spec_float], precision 53).
    - A call that can throw returns a [completion].
    - [Map] keeps its keys in insertion order: it is an association list.
    - [localeCompare] is supplied by the host environment; it is a
      parameter of [validate]. *)

From Stdlib Require Import List String Ascii Bool ZArith Lia Sorting Permutation.
From Stdlib Require Import SpecFloat.
Import ListNotations.

Local Open Scope string_scope.
Local Open Scope Z_scope.
Local Open Scope list_scope.

(** ** JavaScript values and completions *)

Inductive JSError : Type :=
| TypeError (message : string).

Inductive completion (A : Type) : Type :=
| Normal (value : A)
| Throw (error : JSError).

Arguments Normal {A} value.
Arguments Throw {A} error.

Definition bind {A B : Type} (c : completion A) (k : A -> completion B)
  : completion B :=
  match c with
  | Normal a => k a
  | Throw e => Throw e
  end.

Notation "x <- c ;; k" := (bind c (fun x => k))
  (at level 61, c at next level, right associativity).

(** [ToString] as a template literal applies it to a property value. *)
Definition ToString (v : option string) : string :=
  match v with
  | Some s => s
  | None => "undefined"
  end.

(** Reading a method off a property value: [undefined] has no properties. *)
Definition receiver (method : string) (v : option string) : completion string :=
  match v with
  | Some s => Normal s
  | None =>
      Throw (TypeError
        ("Cannot read properties of undefined (reading '" ++ method ++ "')")%string)
  end.

(** Strict equality [===] on property values. *)
Definition strict_eq (a b : option string) : bool :=
  match a, b with
  | Some x, Some y => String.eqb x y
  | None, None => true
  | _, _ => false
  end.

(** [String.prototype.toLowerCase] on the ASCII letters. *)
Definition lower_ascii (c : ascii) : ascii :=
  let n := N_of_ascii c in
  if ((65 <=? n) && (n <=? 90))%N then ascii_of_N (n + 32) else c.

Fixpoint toLowerCase (s : string) : string :=
  match s with
  | EmptyString => EmptyString
  | String c r => String (lower_ascii c) (toLowerCase r)
  end.

(** ** Types ([src/types/index.ts]) *)

Record FabricData : Type := {
  Fabric : option string;
  Zone_Configuration : option string;
  Zone_Configuration_Status : option string;
  Zone : option string;
  Zone_Type : option string;
  Alias : option string;
  Alias_Type : option string;
  Member_WWN : option string;          (* 'Member WWN / D,P' *)
  Peer_Zone_Member_Type : option string;
  Port_Role : option string;
  Logged_In : option string;           (* 'Logged In' *)
  Vendor : option string;
  Slot_Port : option string            (* 'Slot/Port #' *)
}.

Record WWNInfo : Type := {
  wwn : option string;
  isLoggedIn : bool;
  fabric : option string
}.

Record Counters : Type := {
  loggedIn : Z;
  notLoggedIn : Z
}.

Record HostData : Type := {
  hostName : string;
  fabA : Counters;
  fabB : Counters;
  wwns : list WWNInfo
}.

Inductive Validation : Type := OK | Error.

Inductive FinalValidation : Type :=
| Good            (* 'Good' *)
| FAB_A_Is_BAD    (* 'FAB-A Is BAD' *)
| FAB_B_Is_BAD    (* 'FAB-B Is BAD' *)
| Both_FABs_Are_BAD. (* 'Both FABs Are BAD' *)

Record ValidationResult : Type := {
  host : string;
  result_wwns : list WWNInfo;
  fabA_LoggedInYes : Z;
  fabA_LoggedInNo : Z;
  validationA : Validation;
  fabB_LoggedInYes : Z;
  fabB_LoggedInNo : Z;
  validationB : Validation;
  finalValidation : FinalValidation
}.

Definition Validation_eqb (a b : Validation) : bool :=
  match a, b with
  | OK, OK | Error, Error => true
  | _, _ => false
  end.

Definition FinalValidation_eqb (a b : FinalValidation) : bool :=
  match a, b with
  | Good, Good
  | FAB_A_Is_BAD, FAB_A_Is_BAD
  | FAB_B_Is_BAD, FAB_B_Is_BAD
  | Both_FABs_Are_BAD, Both_FABs_Are_BAD => true
  | _, _ => false
  end.

(** ** [removeDuplicates] *)

(** The template literal
    [`${entry.Fabric}|${entry.Alias}|${entry['Member WWN / D,P']}`]. *)
Definition entry_key (entry : FabricData) : string :=
  (ToString (Fabric entry) ++ "|" ++ ToString (Alias entry) ++ "|"
     ++ ToString (Member_WWN entry))%string.

(** [Set<string>]: [has] and [add]. *)
Definition set_has (seen : list string) (key : string) : bool :=
  existsb (String.eqb key) seen.

Definition set_add (seen : list string) (key : string) : list string :=
  if set_has seen key then seen else seen ++ [key].

(** The body of the [forEach] callback, on the pair [(seen, uniqueData)]. *)
Definition removeDuplicates_step
  (st : list string * list FabricData) (entry : FabricData)
  : list string * list FabricData :=
  let '(seen, uniqueData) := st in
  let key := entry_key entry in
  if negb (set_has seen key)
  then (set_add seen key, uniqueData ++ [entry])
  else (seen, uniqueData).

Definition removeDuplicates (data : list FabricData) : list FabricData :=
  snd (fold_left removeDuplicates_step data ([], [])).

(** ** [extractHostName] *)

Definition is_underscore (c : ascii) : bool := Ascii.eqb c "_"%char.

(** [[^_]*$] tried at the head of [s]: the star takes every character that
    is not an underscore, and [$] then asks for the end of the input; giving
    characters back cannot help, the end is only reached with all of them. *)
Fixpoint match_rest (s : string) : bool :=
  match s with
  | EmptyString => true
  | String c r => negb (is_underscore c) && match_rest r
  end.

(** [alias.replace(/_[^_]*$/, '')]: the pattern is tried at each position
    from the left; the first match runs to the end of the input and is
    replaced by the empty string. *)
Fixpoint replace_port_suffix (s : string) : string :=
  match s with
  | EmptyString => EmptyString
  | String c r =>
      if is_underscore c && match_rest r then EmptyString
      else String c (replace_port_suffix r)
  end.

Definition extractHostName (alias : string) : string :=
  replace_port_suffix alias.

(** ** [validateFabric] and [getFinalValidation] *)

Definition validateFabric (loggedIn notLoggedIn : Z) : Validation :=
  if ((loggedIn =? 2) && (notLoggedIn =? 2)
      || (loggedIn =? 1) && (notLoggedIn =? 0))%Z
  then OK
  else Error.

Definition getFinalValidation (validationA validationB : Validation)
  : FinalValidation :=
  if Validation_eqb validationA OK && Validation_eqb validationB OK then Good
  else if Validation_eqb validationA Error && Validation_eqb validationB Error
       then Both_FABs_Are_BAD
  else if Validation_eqb validationA Error then FAB_A_Is_BAD
  else FAB_B_Is_BAD.

(** ** [groupByHost] *)

(** [Map<string, HostData & { wwns: WWNInfo[] }>], keys in insertion order. *)
Definition HostMap : Type := list (string * HostData).

Fixpoint map_get (m : HostMap) (key : string) : option HostData :=
  match m with
  | [] => None
  | (k, v) :: rest => if String.eqb k key then Some v else map_get rest key
  end.

Definition map_has (m : HostMap) (key : string) : bool :=
  match map_get m key with
  | Some _ => true
  | None => false
  end.

(** [set] on a key of the map keeps the place of the key; a new key goes last. *)
Fixpoint map_set (m : HostMap) (key : string) (value : HostData) : HostMap :=
  match m with
  | [] => [(key, value)]
  | (k, v) :: rest =>
      if String.eqb k key then (key, value) :: rest
      else (k, v) :: map_set rest key value
  end.

Definition newHostData (name : string) : HostData :=
  {| hostName := name;
     fabA := {| loggedIn := 0; notLoggedIn := 0 |};
     fabB := {| loggedIn := 0; notLoggedIn := 0 |};
     wwns := [] |}.

Definition incr_loggedIn (c : Counters) : Counters :=
  {| loggedIn := loggedIn c + 1; notLoggedIn := notLoggedIn c |}.

Definition incr_notLoggedIn (c : Counters) : Counters :=
  {| loggedIn := loggedIn c; notLoggedIn := notLoggedIn c + 1 |}.

Definition with_fabA (h : HostData) (c : Counters) : HostData :=
  {| hostName := hostName h; fabA := c; fabB := fabB h; wwns := wwns h |}.

Definition with_fabB (h : HostData) (c : Counters) : HostData :=
  {| hostName := hostName h; fabA := fabA h; fabB := c; wwns := wwns h |}.

Definition push_wwn (h : HostData) (w : WWNInfo) : HostData :=
  {| hostName := hostName h; fabA := fabA h; fabB := fabB h;
     wwns := wwns h ++ [w] |}.

(** The statements of the callback after [hostMap.get(hostName)!], on the
    object that the map holds for the host. *)
Definition update_host (hostData : HostData)
  (entryWwn : option string) (entryLoggedIn : bool) (entryFabric : option string)
  : HostData :=
  let existingWWN :=
    find (fun w => strict_eq (wwn w) entryWwn && strict_eq (fabric w) entryFabric)
         (wwns hostData) in
  let hostData :=
    match existingWWN with
    | None =>
        push_wwn hostData
          {| wwn := entryWwn; isLoggedIn := entryLoggedIn; fabric := entryFabric |}
    | Some _ => hostData
    end in
  if strict_eq entryFabric (Some "FAB-A") then
    if entryLoggedIn then with_fabA hostData (incr_loggedIn (fabA hostData))
    else with_fabA hostData (incr_notLoggedIn (fabA hostData))
  else if strict_eq entryFabric (Some "FAB-B") then
    if entryLoggedIn then with_fabB hostData (incr_loggedIn (fabB hostData))
    else with_fabB hostData (incr_notLoggedIn (fabB hostData))
  else hostData.

(** The body of the [forEach] callback of [groupByHost].  The object got
    from the map is updated in place in the source; here the updated object
    is put back under its key, which keeps the key's place. *)
Definition groupByHost_step (hostMap : HostMap) (entry : FabricData)
  : completion HostMap :=
  alias <- receiver "replace" (Alias entry) ;;
  let name := extractHostName alias in
  flag <- receiver "toLowerCase" (Logged_In entry) ;;
  let entryLoggedIn := String.eqb (toLowerCase flag) "yes" in
  let entryFabric := Fabric entry in
  let entryWwn := Member_WWN entry in
  let hostMap :=
    if negb (map_has hostMap name)
    then map_set hostMap name (newHostData name)
    else hostMap in
  match map_get hostMap name with
  | None => Throw (TypeError "Cannot read properties of undefined (reading 'wwns')")
  | Some hostData =>
      Normal (map_set hostMap name
                (update_host hostData entryWwn entryLoggedIn entryFabric))
  end.

Fixpoint forEach_rows (hostMap : HostMap) (rows : list FabricData)
  : completion HostMap :=
  match rows with
  | [] => Normal hostMap
  | entry :: rest =>
      hostMap' <- groupByHost_step hostMap entry ;;
      forEach_rows hostMap' rest
  end.

(** ** The class, its constructor, [validate] and [getSummary] *)

Record FabricValidator : Type := {
  data : list FabricData;
  originalDataCount : Z;
  duplicatesRemoved : Z
}.

Definition length_of {A : Type} (l : list A) : Z := Z.of_nat (List.length l).

Definition new_FabricValidator (input : list FabricData) : FabricValidator :=
  let originalDataCount := length_of input in
  let data := removeDuplicates input in
  {| data := data;
     originalDataCount := originalDataCount;
     duplicatesRemoved := originalDataCount - length_of data |}.

Definition groupByHost (this : FabricValidator) : completion HostMap :=
  forEach_rows [] (data this).

(** [Array.prototype.sort] with a comparison function: the sort is stable,
    an element [a] stays before [b] unless [compareFn a b > 0]. *)
Section Sort.
Variable A : Type.
Variable compareFn : A -> A -> Z.

Fixpoint sort_insert (x : A) (l : list A) : list A :=
  match l with
  | [] => [x]
  | y :: rest =>
      if compareFn x y <=? 0 then x :: y :: rest
      else y :: sort_insert x rest
  end.

Definition sort (l : list A) : list A := fold_right sort_insert [] l.
End Sort.

Arguments sort_insert {A} compareFn x l.
Arguments sort {A} compareFn l.

Definition result_of (entry : string * HostData) : ValidationResult :=
  let '(name, hostData) := entry in
  let validationA :=
    validateFabric (loggedIn (fabA hostData)) (notLoggedIn (fabA hostData)) in
  let validationB :=
    validateFabric (loggedIn (fabB hostData)) (notLoggedIn (fabB hostData)) in
  let finalValidation := getFinalValidation validationA validationB in
  {| host := name;
     result_wwns := wwns hostData;
     fabA_LoggedInYes := loggedIn (fabA hostData);
     fabA_LoggedInNo := notLoggedIn (fabA hostData);
     validationA := validationA;
     fabB_LoggedInYes := loggedIn (fabB hostData);
     fabB_LoggedInNo := notLoggedIn (fabB hostData);
     validationB := validationB;
     finalValidation := finalValidation |}.

Definition validate (localeCompare : string -> string -> Z)
  (this : FabricValidator) : completion (list ValidationResult) :=
  hostMap <- groupByHost this ;;
  let results := map result_of hostMap in
  Normal (sort (fun a b => localeCompare (host a) (host b)) results).

(** Numbers outside the integers: binary64. *)
Definition prec : Z := 53.
Definition emax : Z := 1024.

Definition Number_of_Z (z : Z) : spec_float := binary_normalize prec emax z 0 false.
Definition Number_div : spec_float -> spec_float -> spec_float := SFdiv prec emax.
Definition Number_mul : spec_float -> spec_float -> spec_float := SFmul prec emax.

(** [Math.round]: the nearest integer, a tie going up.  The argument is a
    finite number wherever [getSummary] calls it. *)
Definition Math_round (x : spec_float) : Z :=
  match x with
  | S754_finite s m e =>
      let v := if s then Z.neg m else Z.pos m in
      if 0 <=? e then v * 2 ^ e
      else (2 * v + 2 ^ (- e)) / 2 ^ (1 - e)
  | _ => 0
  end.

Record Summary : Type := {
  total : Z;
  good : Z;
  fabABad : Z;
  fabBBad : Z;
  bothBad : Z;
  percentageGood : Z;
  originalEntries : Z;
  summary_duplicatesRemoved : Z;      (* duplicatesRemoved *)
  uniqueEntries : Z
}.

Definition count_final (f : FinalValidation) (results : list ValidationResult) : Z :=
  length_of (filter (fun r => FinalValidation_eqb (finalValidation r) f) results).

Definition getSummary (this : FabricValidator) (results : list ValidationResult)
  : Summary :=
  let total := length_of results in
  let good := count_final Good results in
  let fabABad := count_final FAB_A_Is_BAD results in
  let fabBBad := count_final FAB_B_Is_BAD results in
  let bothBad := count_final Both_FABs_Are_BAD results in
  {| total := total;
     good := good;
     fabABad := fabABad;
     fabBBad := fabBBad;
     bothBad := bothBad;
     percentageGood :=
       if total >? 0
       then Math_round
              (Number_mul (Number_div (Number_of_Z good) (Number_of_Z total))
                          (Number_of_Z 100))
       else 0;
     originalEntries := originalDataCount this;
     summary_duplicatesRemoved := duplicatesRemoved this;
     uniqueEntries := length_of (data this) |}.

(** ** Vocabulary of the statements *)

(** A row that the callback of [groupByHost] can process: [Alias] and
    ['Logged In'] are strings, as the type [FabricData] declares them. *)
Definition has_receivers (entry : FabricData) : bool :=
  match Alias entry, Logged_In entry with
  | Some _, Some _ => true
  | _, _ => false
  end.

(** The (fabric, alias, memberAddress) triple of a row. *)
Definition triple (entry : FabricData)
  : option string * option string * option string :=
  (Fabric entry, Alias entry, Member_WWN entry).

(** The row's alias derives the host identity [h]. *)
Definition of_host (h : string) (entry : FabricData) : bool :=
  match Alias entry with
  | Some alias => String.eqb (extractHostName alias) h
  | None => false
  end.

Definition on_fabric (name : string) (entry : FabricData) : bool :=
  strict_eq (Fabric entry) (Some name).

(** The spellings of "yes" when the case of a letter does not count. *)
Definition yes_spellings : list string :=
  ["yes"; "yeS"; "yEs"; "yES"; "Yes"; "YeS"; "YEs"; "YES"].

Definition says_yes (entry : FabricData) : bool :=
  match Logged_In entry with
  | Some flag => existsb (String.eqb flag) yes_spellings
  | None => false
  end.

Definition count_rows (p : FabricData -> bool) (rows : list FabricData) : Z :=
  length_of (filter p rows).

Fixpoint no_underscore (s : string) : Prop :=
  match s with
  | EmptyString => True
  | String c r => c <> "_"%char /\ no_underscore r
  end.

(** [round(100 * good / total)] on the rationals, a tie going up. *)
Definition round_percentage (good total : Z) : Z :=
  (200 * good + total) / (2 * total).

(** Ordinary lexicographic comparison of strings, character by character. *)
Definition lex_le (a b : string) : Prop := String.leb a b = true.

(** A comparison function orders a list when no element has to move. *)
Definition ascending {A : Type} (compareFn : A -> A -> Z) (l : list A) : Prop :=
  StronglySorted (fun a b => compareFn a b <= 0) l.

Definition comparison_to_Z (c : comparison) : Z :=
  match c with
  | Lt => -1
  | Eq => 0
  | Gt => 1
  end.

(** A collation for the examples.  [localeCompare] compares by the collation
    of the host's locale; on strings of ASCII letters the root collation of
    the Unicode Collation Algorithm, and the English one, compare the letters
    without regard to case first and, on a tie, put the lower-case letter
    first: "a" sorts before "B", unlike the order of the character codes. *)
Definition localeCompare_root (a b : string) : Z :=
  match String.compare (toLowerCase a) (toLowerCase b) with
  | Eq => comparison_to_Z (String.compare b a)
  | c => comparison_to_Z c
  end.

(** A row of the sheet with the four columns the engine reads. *)
Definition row (fab alias member flag : string) : FabricData :=
  {| Fabric := Some fab;
     Zone_Configuration := None;
     Zone_Configuration_Status := Some "";
     Zone := None;
     Zone_Type := None;
     Alias := Some alias;
     Alias_Type := Some "";
     Member_WWN := Some member;
     Peer_Zone_Member_Type := None;
     Port_Role := None;
     Logged_In := Some flag;
     Vendor := Some "";
     Slot_Port := None |}.

Definition without_Logged_In (entry : FabricData) : FabricData :=
  {| Fabric := Fabric entry;
     Zone_Configuration := Zone_Configuration entry;
     Zone_Configuration_Status := Zone_Configuration_Status entry;
     Zone := Zone entry;
     Zone_Type := Zone_Type entry;
     Alias := Alias entry;
     Alias_Type := Alias_Type entry;
     Member_WWN := Member_WWN entry;
     Peer_Zone_Member_Type := Peer_Zone_Member_Type entry;
     Port_Role := Port_Role entry;
     Logged_In := None;
     Vendor := Vendor entry;
     Slot_Port := Slot_Port entry |}.

Definition without_Member_WWN (entry : FabricData) : FabricData :=
  {| Fabric := Fabric entry;
     Zone_Configuration := Zone_Configuration entry;
     Zone_Configuration_Status := Zone_Configuration_Status entry;
     Zone := Zone entry;
     Zone_Type := Zone_Type entry;
     Alias := Alias entry;
     Alias_Type := Alias_Type entry;
     Member_WWN := None;
     Peer_Zone_Member_Type := Peer_Zone_Member_Type entry;
     Port_Role := Port_Role entry;
     Logged_In := Logged_In entry;
     Vendor := Vendor entry;
     Slot_Port := Slot_Port entry |}.

(** The rows that [removeDuplicates_step] keeps, given the keys seen so far. *)
Fixpoint keep_new (seen : list string) (rows : list FabricData)
  : list FabricData :=
  match rows with
  | [] => []
  | entry :: rest =>
      if set_has seen (entry_key entry) then keep_new seen rest
      else entry :: keep_new (set_add seen (entry_key entry)) rest
  end.

(** The host and the login flag that the callback of [groupByHost] reads off
    a row that has them. *)
Definition entry_host (entry : FabricData) : string :=
  match Alias entry with
  | Some alias => extractHostName alias
  | None => ""
  end.

Definition entry_loggedIn (entry : FabricData) : bool :=
  match Logged_In entry with
  | Some flag => String.eqb (toLowerCase flag) "yes"
  | None => false
  end.

(** The object a map holds for a host, or the one a first row creates. *)
Definition host_or_new (o : option HostData) (name : string) : HostData :=
  match o with
  | Some hostData => hostData
  | None => newHostData name
  end.

(** The callback of [groupByHost] on a row that has its receivers, as a
    function on maps. *)
Definition apply_entry (hostMap : HostMap) (entry : FabricData) : HostMap :=
  let name := entry_host entry in
  map_set hostMap name
    (update_host (host_or_new (map_get hostMap name) name)
       (Member_WWN entry) (entry_loggedIn entry) (Fabric entry)).

(** What one row does to the object of the host [name]. *)
Definition observe (name : string) (hostData : HostData) (entry : FabricData)
  : HostData :=
  if String.eqb (entry_host entry) name
  then update_host hostData (Member_WWN entry) (entry_loggedIn entry) (Fabric entry)
  else hostData.

Definition same_port (entryWwn entryFabric : option string) (w : WWNInfo) : bool :=
  strict_eq (wwn w) entryWwn && strict_eq (fabric w) entryFabric.

(** The object of the host [name] once the rows are processed. *)
Definition hostData_of (name : string) (rows : list FabricData) : HostData :=
  fold_left (observe name) rows (newHostData name).

(** The rows a counter of the host [name] counts: those of the host, on the
    fabric [fab], whose flag is "yes" up to case ([yes = true]) or is not. *)
Definition counted (name fab : string) (yes : bool) (entry : FabricData) : bool :=
  of_host name entry && on_fabric fab entry && Bool.eqb (says_yes entry) yes.

(** A sheet of forty hosts: the first twenty-three have one logged-in path
    on each fabric, the other seventeen one path on 'FAB-A' that is not
    logged in. *)
Fixpoint host_alias (n : nat) : string :=
  match n with
  | O => "h_1"
  | S k => String "h" (host_alias k)
  end.

Definition sound_host (n : nat) : list FabricData :=
  [ row "FAB-A" (host_alias n) "10:00:00:00:c9:00:00:0a" "Yes";
    row "FAB-B" (host_alias n) "10:00:00:00:c9:00:00:0b" "Yes" ].

Definition broken_host (n : nat) : list FabricData :=
  [ row "FAB-A" (host_alias n) "10:00:00:00:c9:00:00:0a" "No" ].

Definition forty_hosts : list FabricData :=
  flat_map sound_host (seq 0 23) ++ flat_map broken_host (seq 23 17).

(** ** [getDuplicateInfo] *)

Record DuplicateInfo : Type := {
  info_originalEntries : Z;        (* originalEntries *)
  info_duplicatesRemoved : Z;      (* duplicatesRemoved *)
  info_uniqueEntries : Z           (* uniqueEntries *)
}.

Definition getDuplicateInfo (this : FabricValidator) : DuplicateInfo :=
  {| info_originalEntries := originalDataCount this;
     info_duplicatesRemoved := duplicatesRemoved this;
     info_uniqueEntries := length_of (data this) |}.

(** The sum of a list of numbers. *)
Definition sum_Z (l : list Z) : Z := fold_right Z.add 0 l.

(** The rows of a result: the four counters together. *)
Definition paths_counted (r : ValidationResult) : Z :=
  fabA_LoggedInYes r + fabA_LoggedInNo r + fabB_LoggedInYes r + fabB_LoggedInNo r.

(** The (wwn, fabric) pair of an entry of [wwns]. *)
Definition port_pair (w : WWNInfo) : option string * option string :=
  (wwn w, fabric w).

(** The two shapes of counters that [validateFabric] accepts. *)
Definition accepted (yes no : Z) : Prop :=
  (yes = 2 /\ no = 2) \/ (yes = 1 /\ no = 0).

(** ** [ConnectionMatrix]: [matrixData] *)

(** A value that an [if] or a [filter(Boolean)] takes for true: a string
    that is not empty. *)
Definition truthy (v : option string) : bool :=
  match v with
  | Some s => negb (String.eqb s "")
  | None => false
  end.

Inductive ConnectionStatus : Type :=
| connected       (* 'connected' *)
| disconnected.   (* 'disconnected' *)

Record FabricCell : Type := {
  cell_loggedIn : Z;                 (* loggedIn *)
  cell_total : Z;                    (* total *)
  cell_status : ConnectionStatus;    (* status *)
  cell_wwns : list WWNInfo           (* wwns *)
}.

Record MatrixRow : Type := {
  matrix_host : string;                          (* host *)
  matrix_finalValidation : FinalValidation;      (* finalValidation *)
  matrix_fabrics : list (string * FabricCell)    (* fabrics, an object *)
}.

(** The body of [fabricArray.forEach] for one result and one fabric. *)
Definition fabric_cell (result : ValidationResult) (name : string) : FabricCell :=
  let fabricWwns :=
    filter (fun w => strict_eq (fabric w) (Some name)) (result_wwns result) in
  let loggedInCount := length_of (filter isLoggedIn fabricWwns) in
  let totalCount := length_of fabricWwns in
  {| cell_loggedIn := loggedInCount;
     cell_total := totalCount;
     cell_status := if loggedInCount >? 0 then connected else disconnected;
     cell_wwns := fabricWwns |}.

(** The set of the fabrics of the entries of the results. *)
Definition add_fabric (fabrics : list string) (w : WWNInfo) : list string :=
  match fabric w with
  | Some name => if truthy (Some name) then set_add fabrics name else fabrics
  | None => fabrics
  end.

Definition collect_fabrics (results : list ValidationResult) : list string :=
  fold_left (fun fabrics result => fold_left add_fabric (result_wwns result) fabrics)
    results [].

(** [Array.prototype.sort] without a comparison function, on strings: the
    order of the character codes. *)
Definition default_sort (l : list string) : list string :=
  sort (fun a b => comparison_to_Z (String.compare a b)) l.

Definition matrix_row (fabricArray : list string) (result : ValidationResult)
  : MatrixRow :=
  {| matrix_host := host result;
     matrix_finalValidation := finalValidation result;
     matrix_fabrics := map (fun name => (name, fabric_cell result name)) fabricArray |}.

Definition matrixData (results : list ValidationResult)
  : option (list MatrixRow * list string) :=
  if length_of results =? 0 then None
  else
    let fabricArray := default_sort (collect_fabrics results) in
    Some (map (matrix_row fabricArray) results, fabricArray).

(** The entries of a list of WWNs on the fabric [name] with the flag [flag]. *)
Definition entries_on (name : string) (flag : bool) (l : list WWNInfo) : Z :=
  length_of
    (filter (fun w => strict_eq (fabric w) (Some name) && Bool.eqb (isLoggedIn w) flag) l).

(** ** [ValidationResults]: the filters and the selection *)

(** The strings of the two union types. *)
Definition Validation_text (v : Validation) : string :=
  match v with
  | OK => "OK"
  | Error => "Error"
  end.

Definition FinalValidation_text (f : FinalValidation) : string :=
  match f with
  | Good => "Good"
  | FAB_A_Is_BAD => "FAB-A Is BAD"
  | FAB_B_Is_BAD => "FAB-B Is BAD"
  | Both_FABs_Are_BAD => "Both FABs Are BAD"
  end.

(** [String.prototype.includes]: [t] occurs in [s] at some position. *)
Fixpoint includes (s t : string) : bool :=
  String.prefix t s
  || match s with
     | EmptyString => false
     | String _ r => includes r t
     end.

(** The callback of [results.filter] in [filteredResults]. *)
Definition matches_filters (searchTerm statusFilter fabAFilter fabBFilter : string)
  (result : ValidationResult) : bool :=
  let matchesSearch :=
    includes (toLowerCase (host result)) (toLowerCase searchTerm) in
  let matchesStatus :=
    if String.eqb statusFilter "errors"
    then negb (String.eqb (FinalValidation_text (finalValidation result)) "Good")
    else if negb (String.eqb statusFilter "all")
         then String.eqb (FinalValidation_text (finalValidation result)) statusFilter
         else true in
  let matchesFabA :=
    String.eqb fabAFilter "all"
    || String.eqb (Validation_text (validationA result)) fabAFilter in
  let matchesFabB :=
    String.eqb fabBFilter "all"
    || String.eqb (Validation_text (validationB result)) fabBFilter in
  matchesSearch && matchesStatus && matchesFabA && matchesFabB.

Definition filteredResults (results : list ValidationResult)
  (searchTerm statusFilter fabAFilter fabBFilter : string)
  : list ValidationResult :=
  filter (matches_filters searchTerm statusFilter fabAFilter fabBFilter) results.

(** [Set<number>]: the selected row indices. *)
Definition index_has (selected : list nat) (index : nat) : bool :=
  existsb (Nat.eqb index) selected.

Definition index_add (selected : list nat) (index : nat) : list nat :=
  if index_has selected index then selected else selected ++ [index].

Definition index_delete (selected : list nat) (index : nat) : list nat :=
  filter (fun i => negb (Nat.eqb index i)) selected.

(** [new Set(array)]. *)
Definition index_set_of (indices : list nat) : list nat :=
  fold_left index_add indices [].

(** [array.filter((_, index) => p(index))]. *)
Definition filter_by_index {A : Type} (p : nat -> bool) (l : list A) : list A :=
  map snd (filter (fun ix => p (fst ix)) (combine (seq 0 (List.length l)) l)).

(** The next value of [selectedRows] after [handleSelectAll]. *)
Definition handleSelectAll (selectedRows : list nat)
  (filtered : list ValidationResult) : list nat :=
  if Nat.eqb (List.length selectedRows) (List.length filtered)
  then []
  else index_set_of (seq 0 (List.length filtered)).

(** The next value of [selectedRows] after [handleRowSelect(index)]. *)
Definition handleRowSelect (selectedRows : list nat) (index : nat) : list nat :=
  if index_has selectedRows index
  then index_delete selectedRows index
  else index_add selectedRows index.

(** [dataToExport] of [handleExport]. *)
Definition dataToExport (selectedRows : list nat)
  (filtered : list ValidationResult) : list ValidationResult :=
  if (0 <? List.length selectedRows)%nat
  then filter_by_index (index_has selectedRows) filtered
  else filtered.

(** ** [ValidationFlowchart]: [getValidationStats] *)

Record FlowStats : Type := {
  stats_passed : Z;      (* passed *)
  stats_failed : Z;      (* failed *)
  stats_fabABad : Z;     (* fabABad *)
  stats_fabBBad : Z;     (* fabBBad *)
  stats_bothBad : Z;     (* bothBad *)
  stats_total : Z        (* total *)
}.

Definition getValidationStats (results : list ValidationResult) : option FlowStats :=
  if length_of results =? 0 then None
  else
    Some
      {| stats_passed := count_final Good results;
         stats_failed :=
           length_of
             (filter (fun r => negb (FinalValidation_eqb (finalValidation r) Good))
                results);
         stats_fabABad := count_final FAB_A_Is_BAD results;
         stats_fabBBad := count_final FAB_B_Is_BAD results;
         stats_bothBad := count_final Both_FABs_Are_BAD results;
         stats_total := length_of results |}.

(** ** [ExcelUtils]: reading a sheet and checking its structure *)

(** A sheet of texts as [sheet_to_json] with [header: 1] gives it: an array
    of rows, each an array of cells; a text cell is its string, a blank cell
    is a hole of the array.  Cells that are numbers or booleans are not
    part of this model. *)
Definition cell : Type := option string.

(** An object built by assignments, its own properties in insertion order. *)
Definition JSObject : Type := list (string * string).

Fixpoint object_get (obj : JSObject) (key : string) : option string :=
  match obj with
  | [] => None
  | (k, v) :: rest => if String.eqb k key then Some v else object_get rest key
  end.

Fixpoint object_set (obj : JSObject) (key value : string) : JSObject :=
  match obj with
  | [] => [(key, value)]
  | (k, v) :: rest =>
      if String.eqb k key then (key, value) :: rest
      else (k, v) :: object_set rest key value
  end.

(** [row[index] || '']. *)
Definition cell_or_empty (row : list cell) (index : nat) : string :=
  match nth index row None with
  | Some s => if String.eqb s "" then "" else s
  | None => ""
  end.

(** [headers.forEach((header, index) => { obj[header] = row[index] || ''; })];
    [forEach] passes over the holes of [headers]. *)
Definition row_object (headers row : list cell) : JSObject :=
  fold_left
    (fun obj ih =>
       match snd ih with
       | Some header => object_set obj header (cell_or_empty row (fst ih))
       | None => obj
       end)
    (combine (seq 0 (List.length headers)) headers) [].

(** [obj as FabricData]: the fields are the properties of those names. *)
Definition as_FabricData (obj : JSObject) : FabricData :=
  {| Fabric := object_get obj "Fabric";
     Zone_Configuration := object_get obj "Zone Configuration";
     Zone_Configuration_Status := object_get obj "Zone Configuration Status";
     Zone := object_get obj "Zone";
     Zone_Type := object_get obj "Zone Type";
     Alias := object_get obj "Alias";
     Alias_Type := object_get obj "Alias Type";
     Member_WWN := object_get obj "Member WWN / D,P";
     Peer_Zone_Member_Type := object_get obj "Peer Zone Member Type";
     Port_Role := object_get obj "Port Role";
     Logged_In := object_get obj "Logged In";
     Vendor := object_get obj "Vendor";
     Slot_Port := object_get obj "Slot/Port #" |}.

(** How a promise settles. *)
Inductive settled (A : Type) : Type :=
| Resolved (value : A)
| Rejected (message : string).

Arguments Resolved {A} value.
Arguments Rejected {A} message.

(** [readExcelFile] from the point where [jsonData] is there: the body of
    the [try] after [sheet_to_json], and the [catch] that rejects. *)
Definition readExcelFile (jsonData : list (list cell)) : settled (list FabricData) :=
  if (List.length jsonData <? 2)%nat
  then Rejected
         ("Failed to parse Excel file: "
            ++ "Excel file must contain headers and at least one data row")%string
  else
    let headers := nth 0 jsonData [] in
    let rows := skipn 1 jsonData in
    Resolved
      (filter (fun item => truthy (Fabric item) && truthy (Alias item))
         (map (fun row => as_FabricData (row_object headers row)) rows)).

(** [row.hasOwnProperty(column)] on a row of the sheet. *)
Definition get_column (row : FabricData) (column : string) : option string :=
  if String.eqb column "Fabric" then Fabric row
  else if String.eqb column "Zone Configuration" then Zone_Configuration row
  else if String.eqb column "Zone Configuration Status"
       then Zone_Configuration_Status row
  else if String.eqb column "Zone" then Zone row
  else if String.eqb column "Zone Type" then Zone_Type row
  else if String.eqb column "Alias" then Alias row
  else if String.eqb column "Alias Type" then Alias_Type row
  else if String.eqb column "Member WWN / D,P" then Member_WWN row
  else if String.eqb column "Peer Zone Member Type" then Peer_Zone_Member_Type row
  else if String.eqb column "Port Role" then Port_Role row
  else if String.eqb column "Logged In" then Logged_In row
  else if String.eqb column "Vendor" then Vendor row
  else if String.eqb column "Slot/Port #" then Slot_Port row
  else None.

Definition hasOwnProperty (row : FabricData) (column : string) : bool :=
  match get_column row column with
  | Some _ => true
  | None => false
  end.

Definition requiredColumns : list string := ["Fabric"; "Alias"; "Logged In"].

Definition validFabrics : list string := ["FAB-A"; "FAB-B"].

(** [self.indexOf(value)]: the first index of the value, if it occurs. *)
Fixpoint indexOf (self : list string) (value : string) : option nat :=
  match self with
  | [] => None
  | x :: rest =>
      if String.eqb x value then Some 0%nat
      else option_map S (indexOf rest value)
  end.

(** [array.filter((value, index, self) => self.indexOf(value) === index)]. *)
Definition first_occurrences_only (self : list string) : list string :=
  map snd
    (filter
       (fun iv =>
          match indexOf self (snd iv) with
          | Some i => Nat.eqb i (fst iv)
          | None => false
          end)
       (combine (seq 0 (List.length self)) self)).

(** The constant [invalidFabrics] of [validateExcelStructure]. *)
Definition invalidFabrics (data : list FabricData) : list string :=
  first_occurrences_only
    (map ToString
       (filter
          (fun fab =>
             truthy fab
             && negb (existsb (fun valid => strict_eq (Some valid) fab) validFabrics))
          (map Fabric data))).

Record StructureCheck : Type := {
  isValid : bool;
  errors : list string
}.

Definition validateExcelStructure (data : list FabricData) : StructureCheck :=
  match data with
  | [] => {| isValid := false; errors := ["Excel file is empty or invalid"] |}
  | sampleRow :: _ =>
      let errors :=
        fold_left
          (fun errors column =>
             if negb (hasOwnProperty sampleRow column)
             then errors ++ [("Missing required column: " ++ column)%string]
             else errors)
          requiredColumns [] in
      let errors :=
        if (0 <? List.length (invalidFabrics data))%nat
        then errors
             ++ [("Invalid fabric values found: "
                    ++ String.concat ", " (invalidFabrics data)
                    ++ ". Expected: " ++ String.concat ", " validFabrics)%string]
        else errors in
      {| isValid := Nat.eqb (List.length errors) 0; errors := errors |}
  end.

(** ** [HomePage]: [handleFileUpload] *)

(** What [handleFileUpload] leaves in the state of the page: the message of
    [setError], or the results and the summary. *)
Inductive UploadState : Type :=
| UploadError (message : string)
| UploadDone (results : list ValidationResult) (summary : Summary)
    (fabricData : list FabricData).

Definition handleFileUpload (localeCompare : string -> string -> Z)
  (jsonData : list (list cell)) : UploadState :=
  match readExcelFile jsonData with
  | Rejected message => UploadError message
  | Resolved fabricData =>
      let validation := validateExcelStructure fabricData in
      if negb (isValid validation)
      then UploadError (String.concat ", " (errors validation))
      else
        let validator := new_FabricValidator fabricData in
        match validate localeCompare validator with
        | Throw (TypeError message) => UploadError message
        | Normal validationResults =>
            UploadDone validationResults
              (getSummary validator validationResults) fabricData
        end
  end.

(** ** [StorageMapping]: the names of servers and storages *)

Fixpoint string_take (n : nat) (s : string) : string :=
  match n, s with
  | S k, String c r => String c (string_take k r)
  | _, _ => EmptyString
  end.

Fixpoint string_drop (n : nat) (s : string) : string :=
  match n, s with
  | S k, String _ r => string_drop k r
  | _, _ => s
  end.

(** The number of characters a greedy [[class]*] takes at the head of [s]. *)
Fixpoint span (class : ascii -> bool) (s : string) : nat :=
  match s with
  | String c r => if class c then S (span class r) else 0%nat
  | EmptyString => 0%nat
  end.

Definition not_underscore (c : ascii) : bool := negb (is_underscore c).

(** [\d]. *)
Definition is_digit (c : ascii) : bool :=
  let n := N_of_ascii c in ((48 <=? n) && (n <=? 57))%N.

(** [$], with no [m] flag. *)
Definition at_end (s : string) : bool :=
  match s with
  | EmptyString => true
  | String _ _ => false
  end.

(** [string.split('_')[0]]: the text before the first underscore. *)
Definition before_first_underscore (s : string) : string :=
  string_take (span not_underscore s) s.

(** [\d+_] at the head of [s]: the plus takes [n] digits and, as long as
    what follows does not match, gives one back, down to one digit. *)
Fixpoint digits_then_underscore (n : nat) (s : string) : bool :=
  match n with
  | O => false
  | S k =>
      match string_drop (S k) s with
      | String c _ => is_underscore c || digits_then_underscore k s
      | EmptyString => digits_then_underscore k s
      end
  end.

(** [(?:_\d+_|$)] at the head of [rest]. *)
Definition zone_tail (rest : string) : bool :=
  match rest with
  | String c r =>
      is_underscore c && digits_then_underscore (span is_digit r) r
  | EmptyString => false
  end
  || at_end rest.

(** [^([^_]+)(?:_\d+_|$)] on [zone]: group 1 takes [n] characters and, as
    long as the rest does not match, gives one back, down to one
    character.  The result is group 1 of the match. *)
Fixpoint zone_match (n : nat) (zone : string) : option string :=
  match n with
  | O => None
  | S k =>
      if zone_tail (string_drop (S k) zone) then Some (string_take (S k) zone)
      else zone_match k zone
  end.

Definition extractServerFromZone (zone : string) : string :=
  if String.eqb zone "" then "Unknown"
  else
    match zone_match (span not_underscore zone) zone with
    | Some group1 => group1
    | None => before_first_underscore zone
    end.

(** [[^_]*$] at the head of [s]: the star takes [n] characters and gives
    back one at a time. *)
Fixpoint star_then_end (n : nat) (s : string) : bool :=
  at_end (string_drop n s)
  || match n with
     | O => false
     | S k => star_then_end k s
     end.

(** The optional group of the alias pattern and the [$] after it, at the
    head of [rest]: the alternatives [_n\d], [_\d] and [_] with [[^_]*], in
    their order, each followed by the end, then the end alone. *)
Definition alias_tail (rest : string) : bool :=
  match rest with
  | String c0 (String c1 (String c2 r)) =>
      is_underscore c0 && Ascii.eqb c1 "n" && is_digit c2 && at_end r
  | _ => false
  end
  || match rest with
     | String c0 (String c1 r) => is_underscore c0 && is_digit c1 && at_end r
     | _ => false
     end
  || match rest with
     | String c0 r => is_underscore c0 && star_then_end (span not_underscore r) r
     | EmptyString => false
     end
  || at_end rest.

(** The alias pattern, [^([^_]+?)] followed by the optional group and [$],
    on [alias]: the lazy group 1 holds [k] characters and takes one more,
    [n] times at most, as long as the rest does not match. *)
Fixpoint alias_match (n k : nat) (alias : string) : option string :=
  if alias_tail (string_drop k alias) then Some (string_take k alias)
  else
    match n with
    | O => None
    | S n' => alias_match n' (S k) alias
    end.

Definition extractStorageFromAlias (alias : option string) : string :=
  match alias with
  | None => "Unknown"
  | Some text =>
      if String.eqb text "" then "Unknown"
      else
        match
          match span not_underscore text with
          | O => None
          | S n => alias_match n 1 text
          end
        with
        | Some group1 => group1
        | None => before_first_underscore text
        end
  end.

(** ** [StorageMapping]: [groupedMappings] and [stats] *)

Inductive Health : Type :=
| health_OK       (* 'OK' *)
| health_ERROR.   (* 'ERROR' *)

Record StorageWWN : Type := {
  storage_wwn : string;           (* wwn *)
  storage_isLoggedIn : bool       (* isLoggedIn *)
}.

Record GroupedMapping : Type := {
  server : string;
  storages : list string;                        (* Set<string> *)
  zones : list string;                           (* Set<string> *)
  ports : list string;                           (* Set<string> *)
  portsLoggedInStatus : list (string * bool);    (* Map<string, boolean> *)
  vendors : list string;                         (* Set<string> *)
  mapping_wwns : list StorageWWN;                (* wwns *)
  fabrics : list (option string);                (* Set<string> *)
  totalPorts : Z;
  loggedInPorts : Z;
  health : Health;
  notLoggedInCount : Z
}.

(** [Map<string, V>], keys in insertion order. *)
Fixpoint assoc_get {V : Type} (m : list (string * V)) (key : string) : option V :=
  match m with
  | [] => None
  | (k, v) :: rest => if String.eqb k key then Some v else assoc_get rest key
  end.

Fixpoint assoc_set {V : Type} (m : list (string * V)) (key : string) (value : V)
  : list (string * V) :=
  match m with
  | [] => [(key, value)]
  | (k, v) :: rest =>
      if String.eqb k key then (key, value) :: rest
      else (k, v) :: assoc_set rest key value
  end.

(** [Set.add] on a set that may hold [undefined]. *)
Definition value_set_add (seen : list (option string)) (v : option string)
  : list (option string) :=
  if existsb (strict_eq v) seen then seen else seen ++ [v].

(** [string.startsWith(prefix)]. *)
Definition startsWith (s prefix : string) : bool := String.prefix prefix s.

(** [wwn && wwn.startsWith('5')]. *)
Definition is_storage_wwn (v : option string) : bool :=
  match v with
  | Some text => truthy (Some text) && startsWith text "5"
  | None => false
  end.

Definition newGroupedMapping (name : string) : GroupedMapping :=
  {| server := name;
     storages := [];
     zones := [];
     ports := [];
     portsLoggedInStatus := [];
     vendors := [];
     mapping_wwns := [];
     fabrics := [];
     totalPorts := 0;
     loggedInPorts := 0;
     health := health_OK;
     notLoggedInCount := 0 |}.

(** [entry.Zone || '']. *)
Definition zone_or_empty (entry : FabricData) : string :=
  if truthy (Zone entry) then ToString (Zone entry) else "".

(** The statements of the callback after [groups.get(server)!], on the
    object that the map holds for the server. *)
Definition update_group (group : GroupedMapping) (entry : FabricData)
  (entryWwn : string) : GroupedMapping :=
  let storage := extractStorageFromAlias (Alias entry) in
  let entryLoggedIn := entry_loggedIn entry in
  let port := Alias entry in
  {| server := server group;
     storages := set_add (storages group) storage;
     zones :=
       if truthy (Zone entry) then set_add (zones group) (ToString (Zone entry))
       else zones group;
     ports :=
       if truthy port then set_add (ports group) (ToString port) else ports group;
     portsLoggedInStatus :=
       if truthy port then
         match assoc_get (portsLoggedInStatus group) (ToString port) with
         | Some true => portsLoggedInStatus group
         | _ => assoc_set (portsLoggedInStatus group) (ToString port) entryLoggedIn
         end
       else portsLoggedInStatus group;
     vendors :=
       if truthy (Vendor entry) then set_add (vendors group) (ToString (Vendor entry))
       else vendors group;
     mapping_wwns :=
       mapping_wwns group
       ++ [ {| storage_wwn := entryWwn; storage_isLoggedIn := entryLoggedIn |} ];
     fabrics := value_set_add (fabrics group) (Fabric entry);
     totalPorts := totalPorts group;
     loggedInPorts := loggedInPorts group;
     health := if negb entryLoggedIn then health_ERROR else health group;
     notLoggedInCount :=
       if negb entryLoggedIn then notLoggedInCount group + 1
       else notLoggedInCount group |}.

(** The body of the [forEach] callback of [groupedMappings]; the lookup
    after the [set] cannot fail. *)
Definition storage_step (groups : list (string * GroupedMapping))
  (entry : FabricData) : list (string * GroupedMapping) :=
  if is_storage_wwn (Member_WWN entry) then
    let name := extractServerFromZone (zone_or_empty entry) in
    let groups :=
      match assoc_get groups name with
      | None => assoc_set groups name (newGroupedMapping name)
      | Some _ => groups
      end in
    match assoc_get groups name with
    | Some group =>
        assoc_set groups name
          (update_group group entry (ToString (Member_WWN entry)))
    | None => groups
    end
  else groups.

(** The second pass, [groups.forEach(group => ...)]. *)
Definition count_ports (group : GroupedMapping) : GroupedMapping :=
  {| server := server group;
     storages := storages group;
     zones := zones group;
     ports := ports group;
     portsLoggedInStatus := portsLoggedInStatus group;
     vendors := vendors group;
     mapping_wwns := mapping_wwns group;
     fabrics := fabrics group;
     totalPorts := length_of (ports group);
     loggedInPorts :=
       length_of (filter (fun status => status)
                    (map snd (portsLoggedInStatus group)));
     health := health group;
     notLoggedInCount := notLoggedInCount group |}.

Definition groupedMappings (localeCompare : string -> string -> Z)
  (data : list FabricData) : list GroupedMapping :=
  sort (fun a b => localeCompare (server a) (server b))
    (map (fun kv => count_ports (snd kv)) (fold_left storage_step data [])).

Definition Health_eqb (a b : Health) : bool :=
  match a, b with
  | health_OK, health_OK | health_ERROR, health_ERROR => true
  | _, _ => false
  end.

Record MappingStats : Type := {
  totalServers : Z;
  totalStorages : Z;
  totalPaths : Z;
  healthyServers : Z;
  unhealthyServers : Z
}.

Definition mapping_stats (mappings : list GroupedMapping) : MappingStats :=
  {| totalServers := length_of mappings;
     totalStorages :=
       length_of
         (fold_left (fun total m => fold_left set_add (storages m) total)
            mappings []);
     totalPaths := fold_left (fun sum m => sum + totalPorts m) mappings 0;
     healthyServers :=
       length_of (filter (fun m => Health_eqb (health m) health_OK) mappings);
     unhealthyServers :=
       length_of (filter (fun m => Health_eqb (health m) health_ERROR) mappings) |}.

(** The object a map holds for a server, or the one a first row creates. *)
Definition group_or_new (o : option GroupedMapping) (name : string)
  : GroupedMapping :=
  match o with
  | Some group => group
  | None => newGroupedMapping name
  end.

(** A row that [groupedMappings] puts in the group of the server [name]. *)
Definition contributes (name : string) (entry : FabricData) : bool :=
  is_storage_wwn (Member_WWN entry)
  && String.eqb (extractServerFromZone (zone_or_empty entry)) name.

(** What one row does to the object of the server [name]. *)
Definition observe_group (name : string) (group : GroupedMapping)
  (entry : FabricData) : GroupedMapping :=
  if contributes name entry
  then update_group group entry (ToString (Member_WWN entry))
  else group.

(** The object of the server [name] once the rows are processed. *)
Definition group_of (name : string) (rows : list FabricData) : GroupedMapping :=
  fold_left (observe_group name) rows (newGroupedMapping name).

(** The entry that a storage row adds to [wwns]. *)
Definition storage_entry (entry : FabricData) : StorageWWN :=
  {| storage_wwn := ToString (Member_WWN entry);
     storage_isLoggedIn := entry_loggedIn entry |}.

(** A row of the server [name] that is not logged in. *)
Definition path_down (name : string) (entry : FabricData) : bool :=
  contributes name entry && negb (entry_loggedIn entry).

(** The port [port] of the server [name] has a row that is logged in. *)
Definition port_logged_in (name : string) (rows : list FabricData)
  (port : string) : bool :=
  existsb
    (fun entry =>
       contributes name entry && strict_eq (Alias entry) (Some port)
       && entry_loggedIn entry)
    rows.

(** A row of the sheet with a zone. *)
Definition storage_row (fab zone alias member flag : string) : FabricData :=
  {| Fabric := Some fab;
     Zone_Configuration := None;
     Zone_Configuration_Status := Some "";
     Zone := Some zone;
     Zone_Type := None;
     Alias := Some alias;
     Alias_Type := Some "";
     Member_WWN := Some member;
     Peer_Zone_Member_Type := None;
     Port_Role := None;
     Logged_In := Some flag;
     Vendor := Some "";
     Slot_Port := None |}.

(** * Properties *)

(** ** The rule and the roll-up *)

(** C1. For all integers [l] and [n], the non-negative ones among them,
    [validateFabric l n] is OK exactly when [(l, n)] is [(2, 2)] or
    [(1, 0)]; every other pair, [(0, 0)] included, is Error. *)
Theorem validateFabric_rule (l n : Z) :
  (validateFabric l n = OK <-> (l = 2 /\ n = 2) \/ (l = 1 /\ n = 0))
  /\ (validateFabric l n = Error <-> ~ ((l = 2 /\ n = 2) \/ (l = 1 /\ n = 0)))
  /\ validateFabric 0 0 = Error.
Proof.
  unfold validateFabric.
  destruct (l =? 2) eqn:L2; destruct (n =? 2) eqn:N2;
    destruct (l =? 1) eqn:L1; destruct (n =? 0) eqn:N0; cbn;
    repeat match goal with
           | H : (_ =? _) = true |- _ => apply Z.eqb_eq in H
           | H : (_ =? _) = false |- _ => apply Z.eqb_neq in H
           end;
    (split; [ | split ]; [ split | split | reflexivity ]);
    try discriminate; intros; try lia; try (exfalso; lia); auto.
Qed.

(** C4. [getFinalValidation] is a total function of the pair: Good when
    both are OK, Both-Bad when both are Error, FabA-Bad when only A is
    Error, FabB-Bad when only B is Error; the four outcomes are distinct,
    so each pair has exactly one. *)
Theorem getFinalValidation_total :
  getFinalValidation OK OK = Good
  /\ getFinalValidation Error Error = Both_FABs_Are_BAD
  /\ getFinalValidation Error OK = FAB_A_Is_BAD
  /\ getFinalValidation OK Error = FAB_B_Is_BAD
  /\ (forall a b a' b',
        getFinalValidation a b = getFinalValidation a' b' -> a = a' /\ b = b')
  /\ (forall a b, exists! f, getFinalValidation a b = f).
Proof.
  repeat split; try reflexivity.
  - destruct a, b, a', b'; cbn in H; try discriminate; reflexivity.
  - destruct a, b, a', b'; cbn in H; try discriminate; reflexivity.
  - intros a b. exists (getFinalValidation a b). split; [ reflexivity | auto ].
Qed.

Lemma getFinalValidation_total_witness :
  getFinalValidation Error OK = getFinalValidation Error OK
  /\ Error = Error /\ OK = OK.
Proof.
  split; [ reflexivity | ].
  apply (proj1 (proj2 (proj2 (proj2 (proj2 getFinalValidation_total))))
           Error OK Error OK).
  reflexivity.
Defined.

(** ** Host identity *)

Lemma match_rest_no_underscore (s : string) :
  no_underscore s -> match_rest s = true.
Proof.
  induction s as [ | c r IH ]; cbn; [ reflexivity | ].
  intros [Hc Hr]. rewrite (IH Hr), andb_true_r.
  unfold is_underscore. apply negb_true_iff, Ascii.eqb_neq, Hc.
Qed.

Lemma match_rest_underscore (p q : string) :
  match_rest (p ++ String "_" q)%string = false.
Proof.
  induction p as [ | c r IH ]; cbn; [ reflexivity | ].
  rewrite IH. apply andb_false_r.
Qed.

Lemma replace_port_suffix_none (s : string) :
  no_underscore s -> replace_port_suffix s = s.
Proof.
  induction s as [ | c r IH ]; cbn; [ reflexivity | ].
  intros [Hc Hr]. unfold is_underscore.
  apply Ascii.eqb_neq in Hc. rewrite Hc. cbn. now rewrite IH.
Qed.

Lemma replace_port_suffix_last (p q : string) :
  no_underscore q -> replace_port_suffix (p ++ String "_" q)%string = p.
Proof.
  intros Hq. induction p as [ | c r IH ]; cbn.
  - now rewrite (match_rest_no_underscore _ Hq).
  - rewrite match_rest_underscore, andb_false_r. now rewrite IH.
Qed.

Lemma last_underscore_split (alias : string) :
  no_underscore alias
  \/ exists prefix suffix,
      alias = (prefix ++ String "_" suffix)%string /\ no_underscore suffix.
Proof.
  induction alias as [ | c r IH ]; [ left; exact I | ].
  destruct IH as [ Hr | (prefix & suffix & -> & Hs) ].
  - destruct (Ascii.eqb_spec c "_") as [ -> | Hc ].
    + right. exists EmptyString, r. split; [ reflexivity | exact Hr ].
    + left. split; assumption.
  - right. exists (String c prefix), suffix. split; [ reflexivity | exact Hs ].
Qed.

(** C5. The host identity is a function of the alias string alone: it is
    the alias without its last underscore and the text after it, and an
    alias with no underscore is its own host identity. *)
Theorem extractHostName_last_underscore :
  (forall prefix suffix : string,
      no_underscore suffix ->
      extractHostName (prefix ++ "_" ++ suffix)%string = prefix)
  /\ (forall alias : string, no_underscore alias -> extractHostName alias = alias)
  /\ (forall alias : string,
        no_underscore alias
        \/ exists prefix suffix,
            alias = (prefix ++ "_" ++ suffix)%string /\ no_underscore suffix).
Proof.
  split; [ | split ].
  - intros prefix suffix H. apply replace_port_suffix_last, H.
  - intros alias H. apply replace_port_suffix_none, H.
  - apply last_underscore_split.
Qed.

Lemma extractHostName_last_underscore_witness :
  extractHostName "MN01_1-1-A_FE_FC01_PG01" = "MN01_1-1-A_FE_FC01"
  /\ extractHostName "easp6adm" = "easp6adm".
Proof.
  split.
  - apply (proj1 extractHostName_last_underscore "MN01_1-1-A_FE_FC01" "PG01").
    cbn. repeat split; discriminate.
  - apply (proj1 (proj2 extractHostName_last_underscore) "easp6adm").
    cbn. repeat split; discriminate.
Defined.

(** The examples of the source's comment. *)
Example extractHostName_examples :
  extractHostName "easp6adm_1s" = "easp6adm"
  /\ extractHostName "aepdbgp1adm_0s" = "aepdbgp1adm"
  /\ extractHostName "ohgrodcvm218_1" = "ohgrodcvm218"
  /\ extractHostName "MN01_1-1-A_FE_FC01_PG01" = "MN01_1-1-A_FE_FC01".
Proof. repeat split. Qed.

(** ** Deduplication *)

Lemma set_has_In (seen : list string) (key : string) :
  set_has seen key = true <-> In key seen.
Proof.
  unfold set_has. rewrite existsb_exists. split.
  - intros [x [Hin Heq]]. apply String.eqb_eq in Heq. now subst.
  - intros Hin. exists key. split; [ assumption | apply String.eqb_refl ].
Qed.

Lemma set_has_not_In (seen : list string) (key : string) :
  set_has seen key = false <-> ~ In key seen.
Proof.
  rewrite <- set_has_In. destruct (set_has seen key); split; congruence.
Qed.

Lemma set_add_In (seen : list string) (key k : string) :
  In k (set_add seen key) <-> In k seen \/ k = key.
Proof.
  unfold set_add. destruct (set_has seen key) eqn:H.
  - apply set_has_In in H. split; [ auto | intros [ | -> ]; assumption ].
  - rewrite in_app_iff. cbn. intuition.
Qed.

Lemma removeDuplicates_fold (rows : list FabricData) :
  forall seen uniqueData,
    snd (fold_left removeDuplicates_step rows (seen, uniqueData))
    = uniqueData ++ keep_new seen rows.
Proof.
  induction rows as [ | entry rest IH ]; intros seen uniqueData; cbn.
  - now rewrite app_nil_r.
  - destruct (set_has seen (entry_key entry)); cbn.
    + apply IH.
    + rewrite IH, <- app_assoc. reflexivity.
Qed.

Lemma removeDuplicates_keep_new (rows : list FabricData) :
  removeDuplicates rows = keep_new [] rows.
Proof. unfold removeDuplicates. now rewrite removeDuplicates_fold. Qed.

Lemma keep_new_In (rows : list FabricData) :
  forall seen entry,
    In entry (keep_new seen rows) ->
    In entry rows /\ ~ In (entry_key entry) seen.
Proof.
  induction rows as [ | e rest IH ]; intros seen entry; cbn; [ tauto | ].
  destruct (set_has seen (entry_key e)) eqn:H.
  - intros Hin. destruct (IH _ _ Hin). auto.
  - intros [ <- | Hin ].
    + split; [ auto | now apply set_has_not_In ].
    + destruct (IH _ _ Hin) as [H1 H2]. split; [ auto | ].
      intros Hs. apply H2. apply set_add_In. auto.
Qed.

Lemma keep_new_keys_NoDup (rows : list FabricData) :
  forall seen, NoDup (map entry_key (keep_new seen rows)).
Proof.
  induction rows as [ | e rest IH ]; intros seen; cbn; [ constructor | ].
  destruct (set_has seen (entry_key e)); [ apply IH | ].
  cbn. constructor; [ | apply IH ].
  intros Hin. apply in_map_iff in Hin. destruct Hin as [x [Hk Hx]].
  apply keep_new_In in Hx. destruct Hx as [_ Hx]. apply Hx.
  apply set_add_In. auto.
Qed.

Lemma keep_new_fixed (rows : list FabricData) :
  forall seen,
    NoDup (map entry_key rows) ->
    (forall entry, In entry rows -> ~ In (entry_key entry) seen) ->
    keep_new seen rows = rows.
Proof.
  induction rows as [ | e rest IH ]; intros seen Hnd Hseen; cbn; [ reflexivity | ].
  cbn in Hnd. inversion Hnd as [ | k ks Hk Hks ]; subst.
  assert (He : set_has seen (entry_key e) = false)
    by (apply set_has_not_In, Hseen; cbn; auto).
  rewrite He. f_equal. apply IH; [ assumption | ].
  intros entry Hin Hs. apply set_add_In in Hs. destruct Hs as [Hs | Hs].
  - apply (Hseen entry); cbn; auto.
  - apply Hk. rewrite <- Hs. now apply in_map.
Qed.

(** C9. Deduplication is idempotent. *)
Theorem removeDuplicates_idempotent (rows : list FabricData) :
  removeDuplicates (removeDuplicates rows) = removeDuplicates rows.
Proof.
  rewrite !removeDuplicates_keep_new.
  apply keep_new_fixed.
  - apply keep_new_keys_NoDup.
  - intros entry _ H. inversion H.
Qed.

(** C2, at the input where it fails: two rows whose triples differ have one
    key when a field holds the separator, and the second row is dropped. *)
Theorem removeDuplicates_key_collision :
  let first := row "FAB-A" "h|x_1" "y" "Yes" in
  let second := row "FAB-A" "h" "x_1|y" "Yes" in
  triple first <> triple second
  /\ entry_key first = entry_key second
  /\ removeDuplicates [first; second] = [first].
Proof. repeat split. discriminate. Qed.

(** What holds of [removeDuplicates] on every input: the output has no two
    rows with one key, hence none with one triple, and is not longer than
    the input. *)
Lemma removeDuplicates_keys_NoDup (rows : list FabricData) :
  NoDup (map entry_key (removeDuplicates rows)).
Proof. rewrite removeDuplicates_keep_new. apply keep_new_keys_NoDup. Qed.

Lemma NoDup_map_through (A B C : Type) (f : A -> B) (g : B -> C) (l : list A) :
  NoDup (map (fun x => g (f x)) l) -> NoDup (map f l).
Proof.
  induction l as [ | x l IH ]; cbn; intros H; [ constructor | ].
  inversion H as [ | y ys Hy Hys ]; subst. constructor; [ | auto ].
  intros Hin. apply Hy. apply in_map_iff in Hin. destruct Hin as [z [Hz Hin]].
  apply in_map_iff. exists z. split; [ now rewrite Hz | assumption ].
Qed.

Lemma removeDuplicates_triples_NoDup (rows : list FabricData) :
  NoDup (map triple (removeDuplicates rows)).
Proof.
  apply NoDup_map_through
    with (g := fun t : option string * option string * option string =>
                 let '(f, a, w) := t in
                 (ToString f ++ "|" ++ ToString a ++ "|" ++ ToString w)%string).
  apply removeDuplicates_keys_NoDup.
Qed.

Lemma keep_new_length (rows : list FabricData) :
  forall seen, (List.length (keep_new seen rows) <= List.length rows)%nat.
Proof.
  induction rows as [ | e rest IH ]; intros seen; cbn; [ lia | ].
  destruct (set_has seen (entry_key e)); cbn.
  - specialize (IH seen). lia.
  - specialize (IH (set_add seen (entry_key e))). lia.
Qed.

Lemma removeDuplicates_length (rows : list FabricData) :
  length_of (removeDuplicates rows) <= length_of rows.
Proof.
  unfold length_of. rewrite removeDuplicates_keep_new.
  pose proof (keep_new_length rows []). lia.
Qed.

Lemma removeDuplicates_In (rows : list FabricData) (entry : FabricData) :
  In entry (removeDuplicates rows) -> In entry rows.
Proof.
  rewrite removeDuplicates_keep_new. intros H. now apply keep_new_In in H.
Qed.

(** A row is kept exactly when its key, not its triple, is new. *)
Lemma keep_new_snoc (rows : list FabricData) (entry : FabricData) :
  forall seen,
    keep_new seen (rows ++ [entry])
    = keep_new seen rows
      ++ (if set_has (seen ++ map entry_key rows) (entry_key entry)
          then [] else [entry]).
Proof.
  induction rows as [ | e rest IH ]; intros seen; cbn.
  - rewrite app_nil_r. now destruct (set_has seen (entry_key entry)).
  - assert (Hsame : forall s,
               (forall k, In k s <-> In k (seen ++ [entry_key e])) ->
               set_has (s ++ map entry_key rest) (entry_key entry)
               = set_has (seen ++ entry_key e :: map entry_key rest) (entry_key entry)).
    { intros s Hs.
      destruct (set_has (seen ++ entry_key e :: map entry_key rest) (entry_key entry)) eqn:H.
      - apply set_has_In in H. apply set_has_In.
        rewrite in_app_iff in *. cbn in H.
        rewrite Hs, in_app_iff. cbn. tauto.
      - apply set_has_not_In in H. apply set_has_not_In. intros H'. apply H.
        rewrite in_app_iff in *. cbn.
        rewrite Hs, in_app_iff in H'. cbn in H'. tauto. }
    destruct (set_has seen (entry_key e)) eqn:He.
    + rewrite IH. f_equal. rewrite (Hsame seen); [ reflexivity | ].
      apply set_has_In in He. intros k. rewrite in_app_iff. cbn.
      split; [ tauto | intros [ | [ <- | [] ] ]; assumption ].
    + cbn. rewrite IH. f_equal. f_equal.
      rewrite (Hsame (set_add seen (entry_key e))); [ reflexivity | ].
      intros k. rewrite set_add_In, in_app_iff. cbn. intuition.
Qed.

Lemma removeDuplicates_snoc (rows : list FabricData) (entry : FabricData) :
  removeDuplicates (rows ++ [entry])
  = removeDuplicates rows
    ++ (if set_has (map entry_key rows) (entry_key entry) then [] else [entry]).
Proof. rewrite !removeDuplicates_keep_new. apply keep_new_snoc. Qed.

(** ** The map of hosts *)

Lemma map_get_set (m : HostMap) (key key' : string) (value : HostData) :
  map_get (map_set m key value) key'
  = if String.eqb key key' then Some value else map_get m key'.
Proof.
  induction m as [ | [k v] rest IH ]; cbn.
  - reflexivity.
  - destruct (String.eqb_spec k key) as [ -> | Hk ]; cbn.
    + destruct (String.eqb key key'); reflexivity.
    + rewrite IH. destruct (String.eqb_spec key key') as [ <- | Hk' ].
      * apply String.eqb_neq in Hk. now rewrite Hk.
      * reflexivity.
Qed.

Lemma map_set_set (m : HostMap) (key : string) (v v' : HostData) :
  map_set (map_set m key v) key v' = map_set m key v'.
Proof.
  induction m as [ | [k x] rest IH ]; cbn.
  - now rewrite String.eqb_refl.
  - destruct (String.eqb k key) eqn:Hk; cbn.
    + now rewrite String.eqb_refl.
    + now rewrite Hk, IH.
Qed.

Lemma map_set_keys (m : HostMap) (key : string) (value : HostData) :
  map fst (map_set m key value)
  = if map_has m key then map fst m else map fst m ++ [key].
Proof.
  unfold map_has.
  induction m as [ | [k v] rest IH ]; cbn.
  - reflexivity.
  - destruct (String.eqb_spec k key) as [ -> | Hk ]; cbn.
    + reflexivity.
    + rewrite IH. now destruct (map_get rest key).
Qed.

Lemma map_get_None (m : HostMap) (key : string) :
  map_get m key = None <-> ~ In key (map fst m).
Proof.
  induction m as [ | [k v] rest IH ]; cbn.
  - tauto.
  - destruct (String.eqb_spec k key) as [ -> | Hk ].
    + split; [ discriminate | intros H; exfalso; auto ].
    + rewrite IH. tauto.
Qed.

Lemma map_set_keys_NoDup (m : HostMap) (key : string) (value : HostData) :
  NoDup (map fst m) -> NoDup (map fst (map_set m key value)).
Proof.
  intros H. rewrite map_set_keys. unfold map_has.
  destruct (map_get m key) eqn:Hget; [ assumption | ].
  apply map_get_None in Hget.
  apply NoDup_app; [ assumption | repeat constructor; intros [] | ].
  intros k Hk [ <- | [] ]. contradiction.
Qed.

Lemma map_get_In (m : HostMap) (key : string) (value : HostData) :
  NoDup (map fst m) -> In (key, value) m -> map_get m key = Some value.
Proof.
  induction m as [ | [k v] rest IH ]; cbn; [ tauto | ].
  intros Hnd [ Heq | Hin ].
  - inversion Heq; subst. now rewrite String.eqb_refl.
  - inversion Hnd as [ | x xs Hx Hxs ]; subst.
    destruct (String.eqb_spec k key) as [ -> | Hk ].
    + exfalso. apply Hx. apply in_map_iff. now exists (key, value).
    + now apply IH.
Qed.

Lemma map_get_Some_In (m : HostMap) (key : string) (value : HostData) :
  map_get m key = Some value -> In (key, value) m.
Proof.
  induction m as [ | [k v] rest IH ]; cbn; [ discriminate | ].
  destruct (String.eqb_spec k key) as [ -> | Hk ].
  - intros H. inversion H. auto.
  - auto.
Qed.

(** ** One row of [groupByHost] *)

Lemma groupByHost_step_Normal (hostMap : HostMap) (entry : FabricData) :
  has_receivers entry = true ->
  groupByHost_step hostMap entry = Normal (apply_entry hostMap entry).
Proof.
  unfold has_receivers, groupByHost_step, apply_entry, entry_host, entry_loggedIn.
  destruct (Alias entry) as [ alias | ]; [ | discriminate ].
  destruct (Logged_In entry) as [ flag | ]; [ | discriminate ].
  intros _. cbn. unfold map_has.
  destruct (map_get hostMap (extractHostName alias)) as [ hostData | ] eqn:Hget; cbn.
  - now rewrite Hget.
  - now rewrite map_get_set, String.eqb_refl, map_set_set.
Qed.

Lemma groupByHost_step_Throw (hostMap : HostMap) (entry : FabricData) :
  has_receivers entry = false ->
  exists e, groupByHost_step hostMap entry = Throw e.
Proof.
  unfold has_receivers, groupByHost_step.
  destruct (Alias entry) as [ alias | ]; cbn.
  - destruct (Logged_In entry) as [ flag | ]; [ discriminate | ].
    intros _. eexists. reflexivity.
  - intros _. eexists. reflexivity.
Qed.

Lemma forEach_rows_Normal (rows : list FabricData) :
  forall hostMap,
    Forall (fun entry => has_receivers entry = true) rows ->
    forEach_rows hostMap rows = Normal (fold_left apply_entry rows hostMap).
Proof.
  induction rows as [ | entry rest IH ]; intros hostMap H; cbn; [ reflexivity | ].
  inversion H as [ | x xs Hx Hxs ]; subst.
  rewrite (groupByHost_step_Normal _ _ Hx). cbn. now apply IH.
Qed.

Lemma apply_entry_get (hostMap : HostMap) (entry : FabricData) (name : string) :
  host_or_new (map_get (apply_entry hostMap entry) name) name
  = observe name (host_or_new (map_get hostMap name) name) entry.
Proof.
  unfold apply_entry, observe. rewrite map_get_set.
  destruct (String.eqb_spec (entry_host entry) name) as [ <- | Hn ]; reflexivity.
Qed.

Lemma apply_entry_keys (hostMap : HostMap) (entry : FabricData) (name : string) :
  In name (map fst (apply_entry hostMap entry))
  <-> In name (map fst hostMap) \/ name = entry_host entry.
Proof.
  unfold apply_entry. rewrite map_set_keys. unfold map_has.
  destruct (map_get hostMap (entry_host entry)) eqn:Hget.
  - split; [ auto | intros [ H | -> ]; [ assumption | ] ].
    apply map_get_Some_In in Hget. apply in_map_iff.
    now exists (entry_host entry, h).
  - rewrite in_app_iff. cbn. intuition.
Qed.

Lemma fold_apply_entry_keys (rows : list FabricData) :
  forall hostMap name,
    In name (map fst (fold_left apply_entry rows hostMap))
    <-> In name (map fst hostMap) \/ In name (map entry_host rows).
Proof.
  induction rows as [ | entry rest IH ]; intros hostMap name; cbn.
  - tauto.
  - rewrite IH, apply_entry_keys. intuition.
Qed.

Lemma fold_apply_entry_NoDup (rows : list FabricData) :
  forall hostMap,
    NoDup (map fst hostMap) ->
    NoDup (map fst (fold_left apply_entry rows hostMap)).
Proof.
  induction rows as [ | entry rest IH ]; intros hostMap H; cbn; [ assumption | ].
  apply IH. unfold apply_entry. now apply map_set_keys_NoDup.
Qed.

Lemma fold_apply_entry_get (rows : list FabricData) :
  forall hostMap name,
    host_or_new (map_get (fold_left apply_entry rows hostMap) name) name
    = fold_left (observe name) rows (host_or_new (map_get hostMap name) name).
Proof.
  induction rows as [ | entry rest IH ]; intros hostMap name; cbn; [ reflexivity | ].
  now rewrite IH, apply_entry_get.
Qed.

(** ** Counting *)

Lemma count_rows_cons (p : FabricData -> bool) (e : FabricData) (rows : list FabricData) :
  count_rows p (e :: rows) = (if p e then 1 else 0) + count_rows p rows.
Proof.
  unfold count_rows, length_of. cbn. destruct (p e); cbn [List.length]; lia.
Qed.

Lemma count_rows_nil (p : FabricData -> bool) : count_rows p [] = 0.
Proof. reflexivity. Qed.

Lemma lower_ascii_y (c : ascii) :
  Ascii.eqb (lower_ascii c) "y" = Ascii.eqb c "y" || Ascii.eqb c "Y".
Proof. destruct c as [[] [] [] [] [] [] [] []]; reflexivity. Qed.

Lemma lower_ascii_e (c : ascii) :
  Ascii.eqb (lower_ascii c) "e" = Ascii.eqb c "e" || Ascii.eqb c "E".
Proof. destruct c as [[] [] [] [] [] [] [] []]; reflexivity. Qed.

Lemma lower_ascii_s (c : ascii) :
  Ascii.eqb (lower_ascii c) "s" = Ascii.eqb c "s" || Ascii.eqb c "S".
Proof. destruct c as [[] [] [] [] [] [] [] []]; reflexivity. Qed.

(** Lower-casing to "yes" is being one of the eight spellings. *)
Lemma toLowerCase_yes (flag : string) :
  String.eqb (toLowerCase flag) "yes" = existsb (String.eqb flag) yes_spellings.
Proof.
  destruct flag as [ | c1 [ | c2 [ | c3 [ | c4 r ] ] ] ]; cbn;
    rewrite ?lower_ascii_y, ?lower_ascii_e, ?lower_ascii_s, ?andb_false_r;
    try reflexivity;
    repeat match goal with
           | |- context [ Ascii.eqb ?a ?b ] => destruct (Ascii.eqb a b)
           end;
    reflexivity.
Qed.

Lemma entry_loggedIn_says_yes (entry : FabricData) :
  entry_loggedIn entry = says_yes entry.
Proof.
  unfold entry_loggedIn, says_yes.
  destruct (Logged_In entry); [ apply toLowerCase_yes | reflexivity ].
Qed.

Lemma of_host_entry_host (name : string) (entry : FabricData) :
  has_receivers entry = true ->
  of_host name entry = String.eqb (entry_host entry) name.
Proof.
  unfold has_receivers, of_host, entry_host.
  destruct (Alias entry); [ reflexivity | discriminate ].
Qed.

Lemma strict_eq_true (a b : option string) : strict_eq a b = true -> a = b.
Proof.
  destruct a, b; cbn; try discriminate; try reflexivity.
  intros H. apply String.eqb_eq in H. now subst.
Qed.

Lemma update_host_counters (h : HostData) (w : option string) (l : bool)
  (f : option string) :
  loggedIn (fabA (update_host h w l f))
  = loggedIn (fabA h) + (if strict_eq f (Some "FAB-A") && Bool.eqb l true then 1 else 0)
  /\ notLoggedIn (fabA (update_host h w l f))
    = notLoggedIn (fabA h) + (if strict_eq f (Some "FAB-A") && Bool.eqb l false then 1 else 0)
  /\ loggedIn (fabB (update_host h w l f))
    = loggedIn (fabB h) + (if strict_eq f (Some "FAB-B") && Bool.eqb l true then 1 else 0)
  /\ notLoggedIn (fabB (update_host h w l f))
    = notLoggedIn (fabB h) + (if strict_eq f (Some "FAB-B") && Bool.eqb l false then 1 else 0).
Proof.
  unfold update_host.
  destruct (find _ (wwns h));
    (destruct (strict_eq f (Some "FAB-A")) eqn:HA;
     [ apply strict_eq_true in HA; subst f; cbn
     | destruct (strict_eq f (Some "FAB-B")) eqn:HB ]);
    destruct l; cbn; repeat split; lia.
Qed.

Lemma observe_counters (name : string) (h : HostData) (entry : FabricData) :
  has_receivers entry = true ->
  loggedIn (fabA (observe name h entry))
  = loggedIn (fabA h) + (if counted name "FAB-A" true entry then 1 else 0)
  /\ notLoggedIn (fabA (observe name h entry))
    = notLoggedIn (fabA h) + (if counted name "FAB-A" false entry then 1 else 0)
  /\ loggedIn (fabB (observe name h entry))
    = loggedIn (fabB h) + (if counted name "FAB-B" true entry then 1 else 0)
  /\ notLoggedIn (fabB (observe name h entry))
    = notLoggedIn (fabB h) + (if counted name "FAB-B" false entry then 1 else 0).
Proof.
  intros H. unfold observe, counted, on_fabric.
  rewrite (of_host_entry_host _ _ H), <- entry_loggedIn_says_yes.
  destruct (String.eqb (entry_host entry) name); cbn.
  - apply update_host_counters.
  - repeat split; lia.
Qed.

Lemma fold_observe_counters (name : string) (rows : list FabricData) :
  Forall (fun entry => has_receivers entry = true) rows ->
  forall h,
    loggedIn (fabA (fold_left (observe name) rows h))
    = loggedIn (fabA h) + count_rows (counted name "FAB-A" true) rows
    /\ notLoggedIn (fabA (fold_left (observe name) rows h))
      = notLoggedIn (fabA h) + count_rows (counted name "FAB-A" false) rows
    /\ loggedIn (fabB (fold_left (observe name) rows h))
      = loggedIn (fabB h) + count_rows (counted name "FAB-B" true) rows
    /\ notLoggedIn (fabB (fold_left (observe name) rows h))
      = notLoggedIn (fabB h) + count_rows (counted name "FAB-B" false) rows.
Proof.
  induction 1 as [ | entry rest Hentry Hrest IH ]; intros h.
  - cbn [fold_left]. rewrite !count_rows_nil. repeat split; lia.
  - cbn [fold_left]. rewrite !count_rows_cons.
    destruct (IH (observe name h entry)) as (-> & -> & -> & ->).
    destruct (observe_counters name h entry Hentry) as (-> & -> & -> & ->).
    repeat split; lia.
Qed.

(** ** Sorting *)

Section SortFacts.
Variable A : Type.
Variable compareFn : A -> A -> Z.

Lemma sort_insert_Permutation (x : A) (l : list A) :
  Permutation (sort_insert compareFn x l) (x :: l).
Proof.
  induction l as [ | y rest IH ]; cbn; [ reflexivity | ].
  destruct (compareFn x y <=? 0); [ reflexivity | ].
  rewrite IH. apply perm_swap.
Qed.

Lemma sort_Permutation (l : list A) : Permutation (sort compareFn l) l.
Proof.
  induction l as [ | x rest IH ]; cbn; [ reflexivity | ].
  rewrite sort_insert_Permutation. now constructor.
Qed.

Lemma sort_In (l : list A) (x : A) : In x (sort compareFn l) <-> In x l.
Proof.
  split; apply Permutation_in;
    [ apply sort_Permutation | symmetry; apply sort_Permutation ].
Qed.

Hypothesis compareFn_total :
  forall a b, compareFn a b > 0 -> compareFn b a <= 0.
Hypothesis compareFn_trans :
  forall a b c, compareFn a b <= 0 -> compareFn b c <= 0 -> compareFn a c <= 0.

Lemma sort_insert_ascending (x : A) (l : list A) :
  ascending compareFn l -> ascending compareFn (sort_insert compareFn x l).
Proof.
  unfold ascending.
  induction l as [ | y rest IH ]; cbn; intros H.
  - repeat constructor.
  - inversion H as [ | z zs Hzs Hz ]; subst.
    destruct (compareFn x y <=? 0) eqn:Hxy.
    + apply Z.leb_le in Hxy. constructor; [ assumption | ].
      constructor; [ assumption | ].
      rewrite Forall_forall in *. intros w Hw. eauto.
    + apply Z.leb_gt in Hxy. constructor; [ now apply IH | ].
      rewrite Forall_forall in *. intros w Hw.
      apply (Permutation_in _ (sort_insert_Permutation x rest)) in Hw.
      destruct Hw as [ <- | Hw ]; [ apply compareFn_total; lia | auto ].
Qed.

Lemma sort_ascending (l : list A) : ascending compareFn (sort compareFn l).
Proof.
  induction l as [ | x rest IH ]; cbn.
  - constructor.
  - now apply sort_insert_ascending.
Qed.
End SortFacts.

(** ** [validate] *)

Lemma grouped_entries (rows : list FabricData) (name : string) (hostData : HostData) :
  In (name, hostData) (fold_left apply_entry rows [])
  <-> In name (map entry_host rows) /\ hostData = hostData_of name rows.
Proof.
  pose proof (fold_apply_entry_NoDup rows [] (NoDup_nil _)) as Hnd.
  pose proof (fold_apply_entry_get rows [] name) as Hget.
  pose proof (fold_apply_entry_keys rows [] name) as Hkeys.
  cbn in Hget, Hkeys. fold (hostData_of name rows) in Hget.
  assert (Hkeys' : In name (map fst (fold_left apply_entry rows []))
                   <-> In name (map entry_host rows)) by tauto.
  clear Hkeys. rename Hkeys' into Hkeys.
  split.
  - intros Hin. split.
    + apply Hkeys. apply in_map_iff. now exists (name, hostData).
    + apply (map_get_In _ _ _ Hnd) in Hin. rewrite Hin in Hget. exact Hget.
  - intros [Hname ->].
    assert (Hk : In name (map fst (fold_left apply_entry rows [])))
      by (now apply Hkeys).
    apply in_map_iff in Hk. destruct Hk as [[k v] [Hfst Hin]]. cbn in Hfst. subst k.
    pose proof (map_get_In _ _ _ Hnd Hin) as Hv. rewrite Hv in Hget.
    cbn in Hget. now subst v.
Qed.

Lemma removeDuplicates_receivers (input : list FabricData) :
  Forall (fun entry => has_receivers entry = true) input ->
  Forall (fun entry => has_receivers entry = true) (removeDuplicates input).
Proof.
  rewrite !Forall_forall. intros H entry Hin.
  apply H. now apply removeDuplicates_In.
Qed.

(** When the deduplicated rows have their receivers, [validate] returns, and
    its results are the results of the hosts of those rows. *)
Lemma validate_results (localeCompare : string -> string -> Z)
  (input : list FabricData) :
  Forall (fun entry => has_receivers entry = true) (removeDuplicates input) ->
  exists results,
    validate localeCompare (new_FabricValidator input) = Normal results
    /\ results
       = sort (fun a b => localeCompare (host a) (host b))
           (map result_of (fold_left apply_entry (removeDuplicates input) []))
    /\ forall r,
         In r results
         <-> exists name,
               In name (map entry_host (removeDuplicates input))
               /\ r = result_of (name, hostData_of name (removeDuplicates input)).
Proof.
  intros H.
  unfold validate, groupByHost. cbn [data new_FabricValidator].
  rewrite (forEach_rows_Normal _ _ H). cbn [bind].
  eexists. split; [ reflexivity | ]. split; [ reflexivity | ].
  intros r. rewrite sort_In, in_map_iff. split.
  - intros [[name hostData] [<- Hin]]. apply grouped_entries in Hin.
    destruct Hin as [Hname ->]. now exists name.
  - intros [name [Hname ->]].
    exists (name, hostData_of name (removeDuplicates input)).
    split; [ reflexivity | ]. now apply grouped_entries.
Qed.

Lemma counted_partition (name : string) (rows : list FabricData) :
  count_rows (counted name "FAB-A" true) rows
  + count_rows (counted name "FAB-A" false) rows
  + count_rows (counted name "FAB-B" true) rows
  + count_rows (counted name "FAB-B" false) rows
  = count_rows
      (fun entry =>
         of_host name entry && (on_fabric "FAB-A" entry || on_fabric "FAB-B" entry))
      rows.
Proof.
  induction rows as [ | entry rest IH ]; [ reflexivity | ].
  rewrite !count_rows_cons, <- IH.
  assert (Hone :
            (if counted name "FAB-A" true entry then 1 else 0)
            + (if counted name "FAB-A" false entry then 1 else 0)
            + (if counted name "FAB-B" true entry then 1 else 0)
            + (if counted name "FAB-B" false entry then 1 else 0)
            = if of_host name entry
                 && (on_fabric "FAB-A" entry || on_fabric "FAB-B" entry)
              then 1 else 0).
  { unfold counted, on_fabric.
    destruct (of_host name entry); [ | reflexivity ].
    destruct (strict_eq (Fabric entry) (Some "FAB-A")) eqn:HfA.
    - apply strict_eq_true in HfA. rewrite HfA.
      destruct (says_yes entry); reflexivity.
    - destruct (strict_eq (Fabric entry) (Some "FAB-B"));
        destruct (says_yes entry); reflexivity. }
  lia.
Qed.

(** C3. Each result's four counters count the deduplicated rows of its
    host: [fabA_LoggedInYes] those on 'FAB-A' whose flag is "yes" up to
    case, [fabA_LoggedInNo] the other 'FAB-A' rows, the [fabB] counters the
    'FAB-B' rows likewise; so the four together count the host's rows on
    the two fabrics, and a row on any other fabric is in none of them. *)
Theorem validate_counters (localeCompare : string -> string -> Z)
  (input : list FabricData) :
  Forall (fun entry => has_receivers entry = true)
    (data (new_FabricValidator input)) ->
  exists results,
    validate localeCompare (new_FabricValidator input) = Normal results
    /\ forall r,
         In r results ->
         let rows := data (new_FabricValidator input) in
         fabA_LoggedInYes r = count_rows (counted (host r) "FAB-A" true) rows
         /\ fabA_LoggedInNo r = count_rows (counted (host r) "FAB-A" false) rows
         /\ fabB_LoggedInYes r = count_rows (counted (host r) "FAB-B" true) rows
         /\ fabB_LoggedInNo r = count_rows (counted (host r) "FAB-B" false) rows
         /\ fabA_LoggedInYes r + fabA_LoggedInNo r
            + fabB_LoggedInYes r + fabB_LoggedInNo r
            = count_rows
                (fun entry =>
                   of_host (host r) entry
                   && (on_fabric "FAB-A" entry || on_fabric "FAB-B" entry))
                rows.
Proof.
  intros H.
  destruct (validate_results localeCompare input H) as (results & Hv & _ & Hin).
  exists results. split; [ exact Hv | ].
  intros r Hr rows. apply Hin in Hr. destruct Hr as [name [_ ->]].
  subst rows. cbn [data new_FabricValidator host result_of fabA_LoggedInYes
                   fabA_LoggedInNo fabB_LoggedInYes fabB_LoggedInNo] in *.
  destruct (fold_observe_counters name _ H (newHostData name)) as (HA & HB & HC & HD).
  fold (hostData_of name (removeDuplicates input)) in HA, HB, HC, HD.
  cbn in HA, HB, HC, HD.
  repeat split; try assumption.
  rewrite HA, HB, HC, HD. apply counted_partition.
Qed.

(** ** The list of WWNs of a host *)

Lemma find_existsb (A : Type) (p : A -> bool) (l : list A) :
  existsb p l = match find p l with Some _ => true | None => false end.
Proof.
  induction l as [ | x rest IH ]; cbn; [ reflexivity | ].
  destruct (p x); [ reflexivity | exact IH ].
Qed.

Lemma update_host_wwns (h : HostData) (w : option string) (l : bool)
  (f : option string) :
  wwns (update_host h w l f)
  = if existsb (same_port w f) (wwns h) then wwns h
    else wwns h ++ [ {| wwn := w; isLoggedIn := l; fabric := f |} ].
Proof.
  rewrite find_existsb. unfold update_host, same_port.
  destruct (find _ (wwns h));
    destruct (strict_eq f (Some "FAB-A")); destruct (strict_eq f (Some "FAB-B"));
    destruct l; reflexivity.
Qed.

Lemma update_host_wwns_keep (h : HostData) (w : option string) (l : bool)
  (f : option string) (x : WWNInfo) :
  In x (wwns h) -> In x (wwns (update_host h w l f)).
Proof.
  rewrite update_host_wwns. destruct (existsb _ _); [ auto | ].
  rewrite in_app_iff. auto.
Qed.

Lemma update_host_wwns_has (h : HostData) (w : option string) (l : bool)
  (f : option string) :
  exists x, In x (wwns (update_host h w l f)) /\ wwn x = w /\ fabric x = f.
Proof.
  rewrite update_host_wwns. destruct (existsb _ _) eqn:Hex.
  - apply existsb_exists in Hex. destruct Hex as [x [Hin Hp]].
    unfold same_port in Hp. apply andb_true_iff in Hp. destruct Hp as [Hw Hf].
    exists x. auto using strict_eq_true.
  - eexists. rewrite in_app_iff. split; [ right; left; reflexivity | ]. auto.
Qed.

Lemma fold_observe_wwns_keep (name : string) (rows : list FabricData) (x : WWNInfo) :
  forall h, In x (wwns h) -> In x (wwns (fold_left (observe name) rows h)).
Proof.
  induction rows as [ | entry rest IH ]; intros h Hin; cbn; [ assumption | ].
  apply IH. unfold observe.
  destruct (String.eqb (entry_host entry) name); [ | assumption ].
  now apply update_host_wwns_keep.
Qed.

Lemma fold_observe_wwns_has (name : string) (rows : list FabricData)
  (entry : FabricData) :
  In entry rows -> entry_host entry = name ->
  forall h,
    exists x,
      In x (wwns (fold_left (observe name) rows h))
      /\ wwn x = Member_WWN entry /\ fabric x = Fabric entry.
Proof.
  intros Hin Hname.
  induction rows as [ | e rest IH ]; [ destruct Hin | ]; intros h; cbn.
  destruct Hin as [ -> | Hin ]; [ | now apply IH ].
  unfold observe at 2. rewrite Hname, String.eqb_refl.
  destruct (update_host_wwns_has h (Member_WWN entry) (entry_loggedIn entry)
              (Fabric entry)) as [x [Hx Hports]].
  exists x. split; [ now apply fold_observe_wwns_keep | exact Hports ].
Qed.

Lemma count_rows_zero (p : FabricData -> bool) (rows : list FabricData) :
  (forall entry, In entry rows -> p entry = false) -> count_rows p rows = 0.
Proof.
  induction rows as [ | e rest IH ]; intros H; [ reflexivity | ].
  rewrite count_rows_cons, (H e (or_introl eq_refl)), IH; [ reflexivity | ].
  intros entry Hin. apply H. now right.
Qed.

(** C10. Every deduplicated row, whatever its fabric, creates or updates
    the object of its host and appends its (wwn, isLoggedIn, fabric) entry
    when the (wwn, fabric) pair is new for the host; so each row's host has
    a result that lists the row's pair, and a host seen only on
    unrecognized fabrics has a result with four zero counters and the
    final status 'Both FABs Are BAD'. *)
Theorem groupByHost_keeps_every_row (localeCompare : string -> string -> Z)
  (input : list FabricData) :
  let this := new_FabricValidator input in
  Forall (fun entry => has_receivers entry = true) (data this) ->
  (forall hostMap entry,
      In entry (data this) ->
      exists hostMap' hostData',
        groupByHost_step hostMap entry = Normal hostMap'
        /\ map_get hostMap' (entry_host entry) = Some hostData'
        /\ (forall name, name <> entry_host entry ->
                         map_get hostMap' name = map_get hostMap name)
        /\ let before :=
             wwns (host_or_new (map_get hostMap (entry_host entry))
                     (entry_host entry)) in
           wwns hostData'
           = if existsb (same_port (Member_WWN entry) (Fabric entry)) before
             then before
             else before
                  ++ [ {| wwn := Member_WWN entry;
                          isLoggedIn := entry_loggedIn entry;
                          fabric := Fabric entry |} ])
  /\ exists results,
      validate localeCompare this = Normal results
      /\ (forall entry,
             In entry (data this) ->
             exists r,
               In r results /\ host r = entry_host entry
               /\ exists w,
                   In w (result_wwns r)
                   /\ wwn w = Member_WWN entry /\ fabric w = Fabric entry)
      /\ (forall entry,
             In entry (data this) ->
             (forall other,
                 In other (data this) ->
                 entry_host other = entry_host entry ->
                 on_fabric "FAB-A" other = false
                 /\ on_fabric "FAB-B" other = false) ->
             exists r,
               In r results /\ host r = entry_host entry
               /\ fabA_LoggedInYes r = 0 /\ fabA_LoggedInNo r = 0
               /\ fabB_LoggedInYes r = 0 /\ fabB_LoggedInNo r = 0
               /\ validationA r = Error /\ validationB r = Error
               /\ finalValidation r = Both_FABs_Are_BAD).
Proof.
  intros this H. subst this. cbn [data new_FabricValidator] in *.
  pose proof H as Hrows.
  split.
  - intros hostMap entry Hin.
    rewrite Forall_forall in Hrows.
    rewrite (groupByHost_step_Normal hostMap entry (Hrows _ Hin)).
    unfold apply_entry. do 2 eexists.
    split; [ reflexivity | ].
    split; [ now rewrite map_get_set, String.eqb_refl | ].
    split; [ | apply update_host_wwns ].
    intros name Hname. rewrite map_get_set.
    destruct (String.eqb_spec (entry_host entry) name); congruence.
  - destruct (validate_results localeCompare input H) as (results & Hv & _ & Hres).
    exists results. split; [ exact Hv | ]. split.
    + intros entry Hin.
      exists (result_of (entry_host entry,
                         hostData_of (entry_host entry) (removeDuplicates input))).
      split; [ | split; [ reflexivity | ] ].
      * apply Hres. exists (entry_host entry). split; [ | reflexivity ].
        now apply in_map.
      * cbn. now apply fold_observe_wwns_has.
    + intros entry Hin Hother.
      set (name := entry_host entry) in *.
      exists (result_of (name, hostData_of name (removeDuplicates input))).
      split.
      { apply Hres. exists name. split; [ now apply in_map | reflexivity ]. }
      split; [ reflexivity | ].
      destruct (fold_observe_counters name _ Hrows (newHostData name))
        as (HA & HB & HC & HD).
      fold (hostData_of name (removeDuplicates input)) in HA, HB, HC, HD.
      assert (Hzero : forall fab yes,
                 fab = "FAB-A" \/ fab = "FAB-B" ->
                 count_rows (counted name fab yes) (removeDuplicates input) = 0).
      { intros fab yes Hfab. apply count_rows_zero. intros other Hin'.
        unfold counted.
        rewrite Forall_forall in Hrows.
        rewrite (of_host_entry_host _ _ (Hrows _ Hin')).
        destruct (String.eqb_spec (entry_host other) name) as [ Heq | ];
          [ | reflexivity ].
        destruct (Hother other Hin' Heq) as [HnA HnB].
        destruct Hfab as [ -> | -> ]; [ rewrite HnA | rewrite HnB ]; reflexivity. }
      rewrite !Hzero in HA, HB, HC, HD by auto.
      cbn in HA, HB, HC, HD. cbn. rewrite HA, HB, HC, HD.
      repeat split.
Qed.

Lemma groupByHost_keeps_every_row_witness :
  exists results,
    validate localeCompare_root
      (new_FabricValidator
         [row "FAB-C" "srv9_1s" "10:00:00:00:c9:00:00:01" "Yes"]) = Normal results
    /\ exists r,
        In r results /\ host r = "srv9"
        /\ fabA_LoggedInYes r = 0 /\ fabA_LoggedInNo r = 0
        /\ fabB_LoggedInYes r = 0 /\ fabB_LoggedInNo r = 0
        /\ finalValidation r = Both_FABs_Are_BAD.
Proof.
  pose (input := [row "FAB-C" "srv9_1s" "10:00:00:00:c9:00:00:01" "Yes"]).
  assert (Hinput : Forall (fun entry => has_receivers entry = true)
                     (data (new_FabricValidator input)))
    by (vm_compute; repeat constructor).
  destruct (groupByHost_keeps_every_row localeCompare_root input Hinput)
    as (_ & results & Hv & _ & Hbad).
  exists results. split; [ exact Hv | ].
  destruct (Hbad (row "FAB-C" "srv9_1s" "10:00:00:00:c9:00:00:01" "Yes"))
    as (r & Hr & Hhost & HA & HB & HC & HD & _ & _ & Hfinal).
  - left. reflexivity.
  - intros other [ <- | [] ] _. split; reflexivity.
  - exists r. repeat split; assumption.
Defined.

Lemma validate_counters_witness :
  exists results,
    validate localeCompare_root
      (new_FabricValidator
         [row "FAB-A" "srv1_1s" "w1" "Yes"; row "FAB-A" "srv1_1s" "w1" "YES";
          row "FAB-B" "srv1_2s" "w2" "no"]) = Normal results
    /\ forall r,
        In r results ->
        fabA_LoggedInYes r = 1 /\ fabA_LoggedInNo r = 0
        /\ fabB_LoggedInYes r = 0 /\ fabB_LoggedInNo r = 1.
Proof.
  pose (input := [row "FAB-A" "srv1_1s" "w1" "Yes"; row "FAB-A" "srv1_1s" "w1" "YES";
                  row "FAB-B" "srv1_2s" "w2" "no"]).
  assert (Hinput : Forall (fun entry => has_receivers entry = true)
                     (data (new_FabricValidator input)))
    by (vm_compute; repeat constructor).
  destruct (validate_counters localeCompare_root input Hinput) as (results & Hv & Hcount).
  exists results. split; [ exact Hv | ].
  intros r Hr. destruct (Hcount r Hr) as (HA & HB & HC & HD & _).
  assert (Hhost : host r = "srv1").
  { vm_compute in Hv. inversion Hv as [Hres]. rewrite <- Hres in Hr.
    destruct Hr as [ <- | [] ]. reflexivity. }
  rewrite Hhost in HA, HB, HC, HD.
  rewrite HA, HB, HC, HD. repeat split.
Defined.

(** ** The order of the results *)

Lemma ascii_compare_refl (c : ascii) : Ascii.compare c c = Eq.
Proof. apply N.compare_refl. Qed.

Lemma ascii_compare_Lt_trans (a b c : ascii) :
  Ascii.compare a b = Lt -> Ascii.compare b c = Lt -> Ascii.compare a c = Lt.
Proof.
  unfold Ascii.compare. rewrite !N.compare_lt_iff. apply N.lt_trans.
Qed.

Lemma string_compare_refl (s : string) : String.compare s s = Eq.
Proof.
  induction s as [ | c r IH ]; cbn; [ reflexivity | ].
  now rewrite ascii_compare_refl.
Qed.

Lemma string_compare_Lt_trans (a : string) :
  forall b c,
    String.compare a b = Lt -> String.compare b c = Lt -> String.compare a c = Lt.
Proof.
  induction a as [ | x a' IH ]; intros [ | y b' ] [ | z c' ]; cbn;
    try discriminate; try reflexivity.
  destruct (Ascii.compare x y) eqn:Hxy; try discriminate;
    destruct (Ascii.compare y z) eqn:Hyz; try discriminate.
  - apply Ascii.compare_eq_iff in Hxy, Hyz. subst.
    rewrite ascii_compare_refl. apply IH.
  - apply Ascii.compare_eq_iff in Hxy. subst. now rewrite Hyz.
  - apply Ascii.compare_eq_iff in Hyz. subst. now rewrite Hxy.
  - now rewrite (ascii_compare_Lt_trans _ _ _ Hxy Hyz).
Qed.

Lemma string_compare_Gt_Lt (a b : string) :
  String.compare a b = Gt <-> String.compare b a = Lt.
Proof.
  rewrite (String.compare_antisym a b).
  destruct (String.compare b a); cbn; split; congruence.
Qed.

Lemma localeCompare_root_total (a b : string) :
  localeCompare_root a b > 0 -> localeCompare_root b a <= 0.
Proof.
  unfold localeCompare_root.
  rewrite (String.compare_antisym (toLowerCase b) (toLowerCase a)).
  rewrite (String.compare_antisym a b).
  destruct (String.compare (toLowerCase a) (toLowerCase b));
    destruct (String.compare b a); cbn; lia.
Qed.

Lemma localeCompare_root_trans (a b c : string) :
  localeCompare_root a b <= 0 -> localeCompare_root b c <= 0 ->
  localeCompare_root a c <= 0.
Proof.
  unfold localeCompare_root.
  destruct (String.compare (toLowerCase a) (toLowerCase b)) eqn:Hab;
    destruct (String.compare (toLowerCase b) (toLowerCase c)) eqn:Hbc;
    cbn; try lia.
  - apply String.compare_eq_iff in Hab, Hbc. rewrite Hab, Hbc.
    rewrite string_compare_refl.
    destruct (String.compare b a) eqn:Hba; cbn; try lia;
      destruct (String.compare c b) eqn:Hcb; cbn; try lia; intros _ _.
    + apply String.compare_eq_iff in Hba, Hcb. subst.
      rewrite string_compare_refl. cbn. lia.
    + apply String.compare_eq_iff in Hba. subst. rewrite Hcb. cbn. lia.
    + apply String.compare_eq_iff in Hcb. subst. rewrite Hba. cbn. lia.
    + rewrite (string_compare_Lt_trans _ _ _ Hcb Hba). cbn. lia.
  - apply String.compare_eq_iff in Hab. rewrite Hab, Hbc. cbn. lia.
  - apply String.compare_eq_iff in Hbc. rewrite <- Hbc, Hab. cbn. lia.
  - rewrite (string_compare_Lt_trans _ _ _ Hab Hbc). cbn. lia.
Qed.

(** C6, as the code has it. The results are in ascending order of [host]
    under the comparison that [validate] hands to [sort], the collation of
    [localeCompare], whenever that comparison is a total preorder. *)
Theorem validate_sorted_by_localeCompare (localeCompare : string -> string -> Z)
  (input : list FabricData) :
  (forall a b, localeCompare a b > 0 -> localeCompare b a <= 0) ->
  (forall a b c,
      localeCompare a b <= 0 -> localeCompare b c <= 0 -> localeCompare a c <= 0) ->
  Forall (fun entry => has_receivers entry = true)
    (data (new_FabricValidator input)) ->
  exists results,
    validate localeCompare (new_FabricValidator input) = Normal results
    /\ ascending (fun a b => localeCompare (host a) (host b)) results
    /\ StronglySorted (fun a b => localeCompare a b <= 0) (map host results).
Proof.
  intros Htotal Htrans H.
  destruct (validate_results localeCompare input H) as (results & Hv & Hsort & _).
  exists results. split; [ exact Hv | ].
  assert (Hasc : ascending (fun a b => localeCompare (host a) (host b)) results).
  { rewrite Hsort. apply sort_ascending; eauto. }
  split; [ exact Hasc | ].
  clear - Hasc. unfold ascending in Hasc.
  induction Hasc as [ | r rest Hrest IH Hall ]; cbn; constructor.
  - exact IH.
  - rewrite Forall_forall in *. intros h Hh.
    apply in_map_iff in Hh. destruct Hh as [r' [<- Hr']]. auto.
Qed.

Lemma validate_sorted_by_localeCompare_witness :
  exists results,
    validate localeCompare_root
      (new_FabricValidator
         [row "FAB-A" "B_1" "w1" "Yes"; row "FAB-A" "a_1" "w2" "Yes"])
    = Normal results
    /\ map host results = ["a"; "B"]
    /\ StronglySorted (fun a b => localeCompare_root a b <= 0) (map host results).
Proof.
  destruct (validate_sorted_by_localeCompare localeCompare_root
              ( [row "FAB-A" "B_1" "w1" "Yes"; row "FAB-A" "a_1" "w2" "Yes"])
              localeCompare_root_total localeCompare_root_trans)
    as (results & Hv & _ & Hsorted).
  - repeat constructor.
  - exists results. split; [ exact Hv | ]. split; [ | exact Hsorted ].
    vm_compute in Hv. inversion Hv. reflexivity.
Defined.

(** C6, as stated, fails: with the hosts "B" and "a" the result lists "a"
    first, and "a" is not before "B" in the order of the character codes. *)
Lemma validate_not_lexicographic :
  exists results,
    validate localeCompare_root
      (new_FabricValidator
         [row "FAB-A" "B_1" "w1" "Yes"; row "FAB-A" "a_1" "w2" "Yes"])
    = Normal results
    /\ map host results = ["a"; "B"]
    /\ ~ StronglySorted lex_le (map host results).
Proof.
  eexists. split; [ reflexivity | ]. split; [ reflexivity | ].
  cbn. intros H. inversion H as [ | x l _ Hall ]; subst.
  inversion Hall as [ | y l' Hle _ ]; subst.
  unfold lex_le in Hle. discriminate.
Qed.

(** ** Failures *)

Lemma forEach_rows_Throw (rows : list FabricData) :
  Exists (fun entry => has_receivers entry = false) rows ->
  forall hostMap, exists e, forEach_rows hostMap rows = Throw e.
Proof.
  induction 1 as [ entry rest Hentry | entry rest Hrest IH ]; intros hostMap; cbn.
  - destruct (groupByHost_step_Throw hostMap entry Hentry) as [e ->].
    now exists e.
  - destruct (groupByHost_step hostMap entry) as [ hostMap' | e ]; cbn.
    + apply IH.
    + now exists e.
Qed.

(** A row of the deduplicated data without an [Alias] or a ['Logged In']
    makes [validate] throw. *)
Lemma validate_Throw (localeCompare : string -> string -> Z)
  (input : list FabricData) :
  Exists (fun entry => has_receivers entry = false) (removeDuplicates input) ->
  exists e, validate localeCompare (new_FabricValidator input) = Throw e.
Proof.
  intros H. unfold validate, groupByHost. cbn [data new_FabricValidator].
  destruct (forEach_rows_Throw _ H []) as [e ->]. now exists e.
Qed.

(** [validate] returns exactly when every deduplicated row has its receivers. *)
Lemma validate_Normal_iff (localeCompare : string -> string -> Z)
  (input : list FabricData) :
  (exists results, validate localeCompare (new_FabricValidator input) = Normal results)
  <-> Forall (fun entry => has_receivers entry = true) (removeDuplicates input).
Proof.
  split.
  - intros [results Hv].
    destruct (Forall_Exists_dec (fun entry => has_receivers entry = true)
                (fun entry => bool_dec (has_receivers entry) true)
                (removeDuplicates input)) as [ Hall | Hex ]; [ exact Hall | ].
    exfalso.
    assert (Hex' : Exists (fun entry => has_receivers entry = false)
                     (removeDuplicates input)).
    { apply Exists_exists in Hex. destruct Hex as [entry [Hin Hno]].
      apply Exists_exists. exists entry. split; [ exact Hin | ].
      now destruct (has_receivers entry). }
    destruct (validate_Throw localeCompare input Hex') as [e He].
    congruence.
  - intros H. destruct (validate_results localeCompare input H) as (results & Hv & _).
    now exists results.
Qed.

(** C8, as stated, fails: a row without its ['Logged In'] makes [validate]
    throw, and a row without its WWN has the text "undefined" in its key,
    not the empty string, so that it is no duplicate of the row whose WWN
    is empty. *)
Lemma validate_throws_without_Logged_In :
  validate localeCompare_root
    (new_FabricValidator [without_Logged_In (row "FAB-A" "srv1_1s" "w1" "Yes")])
  = Throw (TypeError "Cannot read properties of undefined (reading 'toLowerCase')")
  /\ entry_key (without_Member_WWN (row "FAB-A" "srv1_1s" "w1" "Yes"))
     = "FAB-A|srv1_1s|undefined"
  /\ removeDuplicates
       [row "FAB-A" "srv1_1s" "" "Yes";
        without_Member_WWN (row "FAB-A" "srv1_1s" "w1" "Yes")]
     = [row "FAB-A" "srv1_1s" "" "Yes";
        without_Member_WWN (row "FAB-A" "srv1_1s" "w1" "Yes")].
Proof. repeat split. Qed.

(** C8, as the code has it. When every row has an [Alias] and a
    ['Logged In'], as the type [FabricData] requires, [validate] on the
    constructed object returns, and the host of every deduplicated row has
    a result; the constructor and [getSummary] have no outcome but a
    value. *)
Theorem validate_returns_on_typed_rows (localeCompare : string -> string -> Z)
  (input : list FabricData) :
  Forall (fun entry => has_receivers entry = true) input ->
  let this := new_FabricValidator input in
  exists results,
    validate localeCompare this = Normal results
    /\ (forall entry,
           In entry (data this) ->
           exists r, In r results /\ host r = entry_host entry)
    /\ (forall r,
           In r results ->
           exists entry, In entry (data this) /\ host r = entry_host entry)
    /\ total (getSummary this results) = length_of results.
Proof.
  intros H this. subst this. apply removeDuplicates_receivers in H.
  destruct (validate_results localeCompare input H) as (results & Hv & _ & Hres).
  exists results. split; [ exact Hv | ].
  cbn [data new_FabricValidator]. split; [ | split ].
  - intros entry Hin.
    exists (result_of (entry_host entry,
                       hostData_of (entry_host entry) (removeDuplicates input))).
    split; [ | reflexivity ].
    apply Hres. exists (entry_host entry). split; [ now apply in_map | reflexivity ].
  - intros r Hr. apply Hres in Hr. destruct Hr as [name [Hname ->]].
    apply in_map_iff in Hname. destruct Hname as [entry [<- Hin]].
    now exists entry.
  - reflexivity.
Qed.

Lemma validate_returns_on_typed_rows_witness :
  exists results,
    validate localeCompare_root
      (new_FabricValidator
         [row "FAB-A" "srv1_1s" "w1" "Yes"; row "" "" "" ""]) = Normal results
    /\ exists r, In r results /\ host r = "".
Proof.
  pose (input := [row "FAB-A" "srv1_1s" "w1" "Yes"; row "" "" "" ""]).
  assert (Hinput : Forall (fun entry => has_receivers entry = true) input)
    by (repeat constructor).
  destruct (validate_returns_on_typed_rows localeCompare_root input Hinput)
    as (results & Hv & Hall & _).
  exists results. split; [ exact Hv | ].
  apply (Hall (row "" "" "" "")). right. left. reflexivity.
Defined.

(** ** The summary *)

Lemma count_final_cons (f : FinalValidation) (r : ValidationResult)
  (results : list ValidationResult) :
  count_final f (r :: results)
  = (if FinalValidation_eqb (finalValidation r) f then 1 else 0)
    + count_final f results.
Proof.
  unfold count_final, length_of. cbn.
  destruct (FinalValidation_eqb (finalValidation r) f); cbn [List.length]; lia.
Qed.

(** The parts of the summary that are counts. *)
Lemma getSummary_counts (input : list FabricData) (results : list ValidationResult) :
  let summary := getSummary (new_FabricValidator input) results in
  total summary = length_of results
  /\ good summary + fabABad summary + fabBBad summary + bothBad summary
     = total summary
  /\ uniqueEntries summary + summary_duplicatesRemoved summary
     = originalEntries summary
  /\ 0 <= summary_duplicatesRemoved summary
  /\ (total summary = 0 -> percentageGood summary = 0).
Proof.
  intros summary. subst summary.
  cbn [getSummary new_FabricValidator total good fabABad fabBBad bothBad
       uniqueEntries summary_duplicatesRemoved originalEntries percentageGood
       data originalDataCount duplicatesRemoved].
  split; [ reflexivity | ]. split; [ | split; [ | split; [ | ] ] ].
  - induction results as [ | r rest IH ]; [ reflexivity | ].
    rewrite !count_final_cons.
    replace (length_of (r :: rest)) with (1 + length_of rest)
      by (unfold length_of; cbn [List.length]; lia).
    assert (Hone :
              (if FinalValidation_eqb (finalValidation r) Good then 1 else 0)
              + (if FinalValidation_eqb (finalValidation r) FAB_A_Is_BAD then 1 else 0)
              + (if FinalValidation_eqb (finalValidation r) FAB_B_Is_BAD then 1 else 0)
              + (if FinalValidation_eqb (finalValidation r) Both_FABs_Are_BAD
                 then 1 else 0)
              = 1)
      by (destruct (finalValidation r); reflexivity).
    lia.
  - lia.
  - pose proof (removeDuplicates_length input). lia.
  - intros ->. reflexivity.
Qed.

(** C7, at the input where it fails: of forty hosts twenty-three are good,
    57.5 per cent, which rounds to 58; the binary64 quotient [23 / 40]
    times [100] is 57.49999999999999, and [getSummary] reports 57. *)
Theorem getSummary_percentage_off_by_one :
  let this := new_FabricValidator forty_hosts in
  exists results,
    validate localeCompare_root this = Normal results
    /\ total (getSummary this results) = 40
    /\ good (getSummary this results) = 23
    /\ percentageGood (getSummary this results) = 57
    /\ round_percentage 23 40 = 58
    /\ Number_mul (Number_div (Number_of_Z 23) (Number_of_Z 40)) (Number_of_Z 100)
       = S754_finite false 8092405580431359 (-47).
Proof.
  eexists. split; [ vm_compute; reflexivity | ].
  vm_compute. repeat split.
Qed.

(** * Further properties of the engine *)

(** ** One result per host *)

Lemma host_result_of (m : HostMap) : map host (map result_of m) = map fst m.
Proof.
  induction m as [ | [k v] rest IH ]; cbn; [ reflexivity | ]. now rewrite IH.
Qed.

(** The results of [validate] are a rearrangement of the results of the
    entries of the map of hosts, whose keys are the hosts of the rows, each
    once. *)
Lemma validate_results_Permutation (localeCompare : string -> string -> Z)
  (input : list FabricData) :
  Forall (fun entry => has_receivers entry = true) (removeDuplicates input) ->
  exists results,
    validate localeCompare (new_FabricValidator input) = Normal results
    /\ Permutation results
         (map result_of (fold_left apply_entry (removeDuplicates input) []))
    /\ NoDup (map fst (fold_left apply_entry (removeDuplicates input) []))
    /\ forall name,
         In name (map fst (fold_left apply_entry (removeDuplicates input) []))
         <-> In name (map entry_host (removeDuplicates input)).
Proof.
  intros H.
  destruct (validate_results localeCompare input H) as (results & Hv & Hsort & _).
  exists results. split; [ exact Hv | ]. split; [ | split ].
  - rewrite Hsort. apply sort_Permutation.
  - apply fold_apply_entry_NoDup. constructor.
  - intros name. rewrite fold_apply_entry_keys. cbn. tauto.
Qed.

(** [validate] gives one result per host: the hosts of the results are
    pairwise distinct, they are the hosts of the deduplicated rows, and
    there are no more results than deduplicated rows. *)
Theorem validate_one_result_per_host (localeCompare : string -> string -> Z)
  (input : list FabricData) :
  let this := new_FabricValidator input in
  Forall (fun entry => has_receivers entry = true) (data this) ->
  exists results,
    validate localeCompare this = Normal results
    /\ NoDup (map host results)
    /\ (forall name,
           In name (map host results) <-> In name (map entry_host (data this)))
    /\ length_of results <= length_of (data this).
Proof.
  intros this H. subst this. cbn [data new_FabricValidator] in *.
  destruct (validate_results_Permutation localeCompare input H)
    as (results & Hv & Hperm & Hnd & Hkeys).
  exists results. split; [ exact Hv | ].
  assert (Hhosts : Permutation (map host results)
                     (map fst (fold_left apply_entry (removeDuplicates input) []))).
  { rewrite <- host_result_of. now apply Permutation_map. }
  assert (Hnd' : NoDup (map host results)).
  { apply (Permutation_NoDup (Permutation_sym Hhosts) Hnd). }
  assert (Hin : forall name,
             In name (map host results)
             <-> In name (map entry_host (removeDuplicates input))).
  { intros name. rewrite <- Hkeys. split; apply Permutation_in;
      [ exact Hhosts | exact (Permutation_sym Hhosts) ]. }
  split; [ exact Hnd' | ]. split; [ exact Hin | ].
  unfold length_of.
  rewrite <- (length_map host results),
    <- (length_map entry_host (removeDuplicates input)).
  apply inj_le. apply NoDup_incl_length; [ exact Hnd' | ].
  intros name. apply Hin.
Qed.

Lemma validate_one_result_per_host_witness :
  exists results,
    validate localeCompare_root
      (new_FabricValidator
         [row "FAB-A" "srv1_1s" "w1" "Yes"; row "FAB-A" "srv1_2s" "w2" "No";
          row "FAB-B" "srv2_1s" "w3" "Yes"]) = Normal results
    /\ NoDup (map host results)
    /\ length_of results <= 3.
Proof.
  destruct (validate_one_result_per_host localeCompare_root
              [row "FAB-A" "srv1_1s" "w1" "Yes"; row "FAB-A" "srv1_2s" "w2" "No";
               row "FAB-B" "srv2_1s" "w3" "Yes"])
    as (results & Hv & Hnd & _ & Hlen).
  - vm_compute. repeat constructor.
  - exists results. split; [ exact Hv | ]. split; [ exact Hnd | exact Hlen ].
Defined.

(** ** The status of a result and its counters *)

Lemma validateFabric_accepted (yes no : Z) :
  (validateFabric yes no = OK <-> accepted yes no)
  /\ (validateFabric yes no = Error <-> ~ accepted yes no).
Proof.
  unfold validateFabric, accepted.
  destruct (yes =? 2) eqn:Y2; destruct (no =? 2) eqn:N2;
    destruct (yes =? 1) eqn:Y1; destruct (no =? 0) eqn:N0; cbn;
    repeat match goal with
           | H : (_ =? _) = true |- _ => apply Z.eqb_eq in H
           | H : (_ =? _) = false |- _ => apply Z.eqb_neq in H
           end;
    (split; split); try discriminate; intros; try lia; try (exfalso; lia); auto.
Qed.

Lemma result_of_status (entry : string * HostData) :
  let r := result_of entry in
  validationA r = validateFabric (fabA_LoggedInYes r) (fabA_LoggedInNo r)
  /\ validationB r = validateFabric (fabB_LoggedInYes r) (fabB_LoggedInNo r)
  /\ finalValidation r = getFinalValidation (validationA r) (validationB r).
Proof. destruct entry as [name hostData]. repeat split. Qed.

(** In every result of [validate] the final status is read off the four
    counters: Good exactly when both fabrics have an accepted shape, (2, 2)
    or (1, 0); Both-Bad exactly when neither has; FAB-A-Bad when only the
    counters of fabric B are accepted, FAB-B-Bad when only those of A. *)
Theorem validate_status_from_counters (localeCompare : string -> string -> Z)
  (input : list FabricData) :
  let this := new_FabricValidator input in
  Forall (fun entry => has_receivers entry = true) (data this) ->
  exists results,
    validate localeCompare this = Normal results
    /\ forall r,
         In r results ->
         let okA := accepted (fabA_LoggedInYes r) (fabA_LoggedInNo r) in
         let okB := accepted (fabB_LoggedInYes r) (fabB_LoggedInNo r) in
         (validationA r = OK <-> okA)
         /\ (validationB r = OK <-> okB)
         /\ (finalValidation r = Good <-> okA /\ okB)
         /\ (finalValidation r = FAB_A_Is_BAD <-> ~ okA /\ okB)
         /\ (finalValidation r = FAB_B_Is_BAD <-> okA /\ ~ okB)
         /\ (finalValidation r = Both_FABs_Are_BAD <-> ~ okA /\ ~ okB).
Proof.
  intros this H. subst this. cbn [data new_FabricValidator] in *.
  destruct (validate_results_Permutation localeCompare input H)
    as (results & Hv & Hperm & _).
  exists results. split; [ exact Hv | ].
  intros r Hr. cbv zeta.
  apply (Permutation_in _ Hperm) in Hr. apply in_map_iff in Hr.
  destruct Hr as [entry [<- _]].
  destruct (result_of_status entry) as (HA & HB & HF).
  destruct (validateFabric_accepted (fabA_LoggedInYes (result_of entry))
              (fabA_LoggedInNo (result_of entry))) as [HokA HerrA].
  destruct (validateFabric_accepted (fabB_LoggedInYes (result_of entry))
              (fabB_LoggedInNo (result_of entry))) as [HokB HerrB].
  rewrite <- HA in HokA, HerrA. rewrite <- HB in HokB, HerrB.
  rewrite HF.
  destruct (validationA (result_of entry)), (validationB (result_of entry));
    cbn; repeat split; intros; try discriminate; try tauto;
    try (apply HokA; reflexivity); try (apply HokB; reflexivity);
    try (apply HerrA; reflexivity); try (apply HerrB; reflexivity);
    try (exfalso; intuition congruence).
Qed.

Lemma validate_status_from_counters_witness :
  exists results,
    validate localeCompare_root
      (new_FabricValidator
         [row "FAB-A" "srv1_1s" "w1" "Yes"; row "FAB-B" "srv1_2s" "w2" "Yes"])
    = Normal results
    /\ forall r, In r results -> finalValidation r = Good.
Proof.
  destruct (validate_status_from_counters localeCompare_root
              [row "FAB-A" "srv1_1s" "w1" "Yes"; row "FAB-B" "srv1_2s" "w2" "Yes"])
    as (results & Hv & Hall).
  - vm_compute. repeat constructor.
  - exists results. split; [ exact Hv | ].
    intros r Hr. destruct (Hall r Hr) as (_ & _ & Hgood & _).
    apply Hgood.
    vm_compute in Hv. inversion Hv as [Hres]. rewrite <- Hres in Hr.
    destruct Hr as [ <- | [] ]. split; right; split; reflexivity.
Defined.

(** ** Every row on a fabric is counted once *)

Lemma sum_Z_cons (x : Z) (l : list Z) : sum_Z (x :: l) = x + sum_Z l.
Proof. reflexivity. Qed.

Lemma sum_Z_Permutation (l l' : list Z) : Permutation l l' -> sum_Z l = sum_Z l'.
Proof.
  unfold sum_Z. induction 1; cbn in *; lia.
Qed.

Lemma sum_Z_map_add (A : Type) (f g : A -> Z) (l : list A) :
  sum_Z (map (fun x => f x + g x) l) = sum_Z (map f l) + sum_Z (map g l).
Proof.
  unfold sum_Z. induction l as [ | x rest IH ]; cbn in *; lia.
Qed.

Lemma sum_Z_indicator_out (x : string) (v : Z) (names : list string) :
  ~ In x names ->
  sum_Z (map (fun k => if String.eqb x k then v else 0) names) = 0.
Proof.
  induction names as [ | k rest IH ]; intros Hx; [ reflexivity | ].
  cbn [map]. rewrite sum_Z_cons, IH by (intros H; apply Hx; now right).
  destruct (String.eqb_spec x k) as [ -> | _ ]; [ | reflexivity ].
  exfalso. apply Hx. now left.
Qed.

Lemma sum_Z_indicator (x : string) (v : Z) (names : list string) :
  NoDup names -> In x names ->
  sum_Z (map (fun k => if String.eqb x k then v else 0) names) = v.
Proof.
  induction 1 as [ | k rest Hk Hrest IH ]; intros Hx; [ destruct Hx | ].
  cbn [map]. rewrite sum_Z_cons.
  destruct (String.eqb_spec x k) as [ -> | Hne ].
  - rewrite sum_Z_indicator_out by assumption. lia.
  - destruct Hx as [ Heq | Hx ]; [ congruence | ]. rewrite IH by assumption. lia.
Qed.

Lemma sum_count_by_host (p : FabricData -> bool) (names : list string)
  (rows : list FabricData) :
  NoDup names ->
  Forall (fun entry => has_receivers entry = true) rows ->
  (forall entry, In entry rows -> In (entry_host entry) names) ->
  sum_Z (map (fun k => count_rows (fun e => of_host k e && p e) rows) names)
  = count_rows p rows.
Proof.
  intros Hnd Hrows. induction Hrows as [ | entry rest Hentry Hrest IH ]; intros Hall.
  - clear. induction names as [ | k ks IHk ]; [ reflexivity | ].
    cbn [map]. rewrite sum_Z_cons, IHk. reflexivity.
  - rewrite count_rows_cons, <- IH by (intros e He; apply Hall; now right).
    rewrite (map_ext _ (fun k =>
               (if String.eqb (entry_host entry) k
                then (if p entry then 1 else 0) else 0)
               + count_rows (fun e => of_host k e && p e) rest)).
    + rewrite sum_Z_map_add, sum_Z_indicator;
        [ reflexivity | assumption | apply Hall; now left ].
    + intros k. rewrite count_rows_cons, (of_host_entry_host _ _ Hentry).
      destruct (String.eqb (entry_host entry) k); cbn; [ | reflexivity ].
      reflexivity.
Qed.

Lemma paths_counted_host (name : string) (rows : list FabricData) :
  Forall (fun entry => has_receivers entry = true) rows ->
  paths_counted (result_of (name, hostData_of name rows))
  = count_rows
      (fun e => of_host name e && (on_fabric "FAB-A" e || on_fabric "FAB-B" e))
      rows.
Proof.
  intros H. unfold paths_counted. cbn.
  destruct (fold_observe_counters name rows H (newHostData name))
    as (HA & HB & HC & HD).
  fold (hostData_of name rows) in HA, HB, HC, HD. cbn in HA, HB, HC, HD.
  rewrite HA, HB, HC, HD. apply counted_partition.
Qed.

Lemma sum_paths_counted (localeCompare : string -> string -> Z)
  (input : list FabricData) :
  Forall (fun entry => has_receivers entry = true) (removeDuplicates input) ->
  exists results,
    validate localeCompare (new_FabricValidator input) = Normal results
    /\ sum_Z (map paths_counted results)
       = count_rows
           (fun entry => on_fabric "FAB-A" entry || on_fabric "FAB-B" entry)
           (removeDuplicates input).
Proof.
  intros H.
  destruct (validate_results_Permutation localeCompare input H)
    as (results & Hv & Hperm & Hnd & Hkeys).
  exists results. split; [ exact Hv | ].
  set (rows := removeDuplicates input) in *.
  set (m := fold_left apply_entry rows []) in *.
  rewrite (sum_Z_Permutation _ _ (Permutation_map paths_counted Hperm)).
  rewrite map_map.
  rewrite (map_ext_in _
             (fun kv => count_rows
                          (fun e => of_host (fst kv) e
                                    && (on_fabric "FAB-A" e || on_fabric "FAB-B" e))
                          rows)).
  - rewrite <- (map_map fst
                  (fun k => count_rows
                              (fun e => of_host k e
                                        && (on_fabric "FAB-A" e || on_fabric "FAB-B" e))
                              rows)).
    apply sum_count_by_host; [ exact Hnd | exact H | ].
    intros entry Hin. apply Hkeys. now apply in_map.
  - intros [name hostData] Hin. apply grouped_entries in Hin.
    destruct Hin as [_ ->]. cbn [fst]. now apply paths_counted_host.
Qed.

(** Over all results of [validate], the four counters together count each
    deduplicated row on 'FAB-A' or 'FAB-B' once: their sum over the hosts is
    the number of those rows. *)
Theorem validate_counts_every_fabric_row (localeCompare : string -> string -> Z)
  (input : list FabricData) :
  let this := new_FabricValidator input in
  Forall (fun entry => has_receivers entry = true) (data this) ->
  exists results,
    validate localeCompare this = Normal results
    /\ sum_Z (map paths_counted results)
       = count_rows
           (fun entry => on_fabric "FAB-A" entry || on_fabric "FAB-B" entry)
           (data this).
Proof.
  intros this H. subst this. cbn [data new_FabricValidator] in *.
  now apply sum_paths_counted.
Qed.

Lemma validate_counts_every_fabric_row_witness :
  exists results,
    validate localeCompare_root
      (new_FabricValidator
         [row "FAB-A" "srv1_1s" "w1" "Yes"; row "FAB-C" "srv1_2s" "w2" "No";
          row "FAB-B" "srv2_1s" "w3" "Yes"]) = Normal results
    /\ sum_Z (map paths_counted results) = 2.
Proof.
  destruct (validate_counts_every_fabric_row localeCompare_root
              [row "FAB-A" "srv1_1s" "w1" "Yes"; row "FAB-C" "srv1_2s" "w2" "No";
               row "FAB-B" "srv2_1s" "w3" "Yes"])
    as (results & Hv & Hsum).
  - vm_compute. repeat constructor.
  - exists results. split; [ exact Hv | ]. rewrite Hsum. reflexivity.
Defined.

(** ** The entries of [wwns] and the counters *)

Lemma strict_eq_iff (a b : option string) : strict_eq a b = true <-> a = b.
Proof.
  split; [ apply strict_eq_true | ]. intros ->.
  destruct b; cbn; [ apply String.eqb_refl | reflexivity ].
Qed.

Lemma hostData_of_snoc (name : string) (rows : list FabricData) (entry : FabricData) :
  hostData_of name (rows ++ [entry]) = observe name (hostData_of name rows) entry.
Proof. unfold hostData_of. now rewrite fold_left_app. Qed.

Lemma same_port_pair (w f : option string) (l : list WWNInfo) :
  existsb (same_port w f) l = true <-> In (w, f) (map port_pair l).
Proof.
  rewrite existsb_exists, in_map_iff. unfold same_port, port_pair.
  split; intros [x [H1 H2]]; exists x.
  - apply andb_true_iff in H2. destruct H2 as [Hw Hf].
    apply strict_eq_iff in Hw, Hf. split; [ congruence | assumption ].
  - inversion H1. split; [ assumption | ].
    apply andb_true_iff. split; apply strict_eq_iff; reflexivity.
Qed.

Lemma update_host_wwns_NoDup (h : HostData) (w : option string) (l : bool)
  (f : option string) :
  NoDup (map port_pair (wwns h)) ->
  NoDup (map port_pair (wwns (update_host h w l f))).
Proof.
  intros H. rewrite update_host_wwns.
  destruct (existsb (same_port w f) (wwns h)) eqn:Hex; [ assumption | ].
  rewrite map_app. cbn. apply NoDup_app.
  - assumption.
  - repeat constructor. intros [].
  - intros pair Hin [ <- | [] ].
    apply same_port_pair in Hin. unfold port_pair in Hin. cbn in Hin. congruence.
Qed.

Lemma hostData_of_wwns_NoDup (name : string) (rows : list FabricData) :
  NoDup (map port_pair (wwns (hostData_of name rows))).
Proof.
  induction rows as [ | entry rest IH ] using rev_ind; [ constructor | ].
  rewrite hostData_of_snoc. unfold observe.
  destruct (String.eqb (entry_host entry) name); [ | assumption ].
  now apply update_host_wwns_NoDup.
Qed.

Lemma hostData_of_wwns_from_rows (name : string) (rows : list FabricData)
  (w : WWNInfo) :
  In w (wwns (hostData_of name rows)) ->
  exists entry,
    In entry rows /\ entry_host entry = name
    /\ Member_WWN entry = wwn w /\ Fabric entry = fabric w
    /\ entry_loggedIn entry = isLoggedIn w.
Proof.
  induction rows as [ | e rest IH ] using rev_ind; [ intros [] | ].
  rewrite hostData_of_snoc. unfold observe.
  assert (Hold : In w (wwns (hostData_of name rest)) ->
                 exists entry,
                   In entry (rest ++ [e]) /\ entry_host entry = name
                   /\ Member_WWN entry = wwn w /\ Fabric entry = fabric w
                   /\ entry_loggedIn entry = isLoggedIn w).
  { intros Hin. destruct (IH Hin) as (entry & Hentry & Hrest).
    exists entry. split; [ apply in_or_app; now left | exact Hrest ]. }
  destruct (String.eqb_spec (entry_host e) name) as [ Hname | _ ]; [ | exact Hold ].
  rewrite update_host_wwns.
  destruct (existsb _ _); [ exact Hold | ].
  rewrite in_app_iff. intros [ Hin | [ <- | [] ] ]; [ now apply Hold | ].
  exists e. split; [ apply in_or_app; right; now left | ]. now repeat split.
Qed.

Lemma hostData_of_wwns_length (name : string) (rows : list FabricData) :
  length_of (wwns (hostData_of name rows))
  <= count_rows (fun entry => String.eqb (entry_host entry) name) rows.
Proof.
  induction rows as [ | e rest IH ] using rev_ind; [ reflexivity | ].
  rewrite hostData_of_snoc. unfold observe, count_rows, length_of in *.
  rewrite filter_app, length_app. cbn [filter].
  destruct (String.eqb (entry_host e) name); cbn [List.length]; [ | lia ].
  rewrite update_host_wwns. destruct (existsb _ _); [ lia | ].
  rewrite length_app. cbn [List.length]. lia.
Qed.

(** In every result of [validate] the list of WWNs has one entry per
    (wwn, fabric) pair, every entry is the pair and the flag of a
    deduplicated row of the result's host, and the list is not longer than
    the number of those rows. *)
Theorem validate_wwns_one_entry_per_port (localeCompare : string -> string -> Z)
  (input : list FabricData) :
  let this := new_FabricValidator input in
  Forall (fun entry => has_receivers entry = true) (data this) ->
  exists results,
    validate localeCompare this = Normal results
    /\ forall r,
         In r results ->
         NoDup (map port_pair (result_wwns r))
         /\ (forall w,
                In w (result_wwns r) ->
                exists entry,
                  In entry (data this) /\ entry_host entry = host r
                  /\ Member_WWN entry = wwn w /\ Fabric entry = fabric w
                  /\ entry_loggedIn entry = isLoggedIn w)
         /\ length_of (result_wwns r) <= count_rows (of_host (host r)) (data this).
Proof.
  intros this H. subst this. cbn [data new_FabricValidator] in *.
  destruct (validate_results localeCompare input H) as (results & Hv & _ & Hres).
  exists results. split; [ exact Hv | ].
  intros r Hr. apply Hres in Hr. destruct Hr as [name [_ ->]]. cbn.
  split; [ apply hostData_of_wwns_NoDup | ].
  split; [ intros w; apply hostData_of_wwns_from_rows | ].
  assert (Heq : filter (of_host name) (removeDuplicates input)
                = filter (fun entry => String.eqb (entry_host entry) name)
                    (removeDuplicates input)).
  { apply filter_ext_in. intros entry Hin.
    rewrite Forall_forall in H. now apply of_host_entry_host, H. }
  unfold count_rows. rewrite Heq. apply hostData_of_wwns_length.
Qed.

Lemma validate_wwns_one_entry_per_port_witness :
  exists results,
    validate localeCompare_root
      (new_FabricValidator
         [row "FAB-A" "srv1_1s" "w1" "No"; row "FAB-A" "srv1_2s" "w1" "Yes"])
    = Normal results
    /\ forall r, In r results -> length_of (result_wwns r) <= 2.
Proof.
  destruct (validate_wwns_one_entry_per_port localeCompare_root
              [row "FAB-A" "srv1_1s" "w1" "No"; row "FAB-A" "srv1_2s" "w1" "Yes"])
    as (results & Hv & Hall).
  - vm_compute. repeat constructor.
  - exists results. split; [ exact Hv | ].
    intros r Hr. destruct (Hall r Hr) as (_ & _ & Hlen).
    assert (Hhost : host r = "srv1").
    { vm_compute in Hv. inversion Hv as [Hres]. rewrite <- Hres in Hr.
      destruct Hr as [ <- | [] ]. reflexivity. }
    rewrite Hhost in Hlen. exact Hlen.
Defined.

Lemma entries_on_app (name : string) (flag : bool) (l : list WWNInfo) (x : WWNInfo) :
  entries_on name flag (l ++ [x])
  = entries_on name flag l
    + (if strict_eq (fabric x) (Some name) && Bool.eqb (isLoggedIn x) flag
       then 1 else 0).
Proof.
  unfold entries_on, length_of. rewrite filter_app, length_app. cbn [filter].
  destruct (strict_eq (fabric x) (Some name) && Bool.eqb (isLoggedIn x) flag);
    cbn [List.length]; lia.
Qed.

Lemma update_host_entries_on (h : HostData) (w : option string) (l : bool)
  (f : option string) (name : string) (flag : bool) :
  entries_on name flag (wwns (update_host h w l f))
  <= entries_on name flag (wwns h)
     + (if strict_eq f (Some name) && Bool.eqb l flag then 1 else 0).
Proof.
  rewrite update_host_wwns. destruct (existsb _ _).
  - destruct (strict_eq f (Some name) && Bool.eqb l flag); lia.
  - rewrite entries_on_app. cbn [fabric isLoggedIn]. lia.
Qed.

(** The entries of a host on a fabric are not more than its counted rows. *)
Lemma hostData_of_entries_within (name : string) (rows : list FabricData) :
  let h := hostData_of name rows in
  entries_on "FAB-A" true (wwns h) <= loggedIn (fabA h)
  /\ entries_on "FAB-A" false (wwns h) <= notLoggedIn (fabA h)
  /\ entries_on "FAB-B" true (wwns h) <= loggedIn (fabB h)
  /\ entries_on "FAB-B" false (wwns h) <= notLoggedIn (fabB h).
Proof.
  cbv zeta.
  induction rows as [ | e rest IH ] using rev_ind.
  - cbn. repeat split; lia.
  - rewrite hostData_of_snoc. unfold observe.
    destruct (String.eqb (entry_host e) name); [ | exact IH ].
    destruct IH as (IA & IB & IC & ID).
    set (h := hostData_of name rest) in *.
    destruct (update_host_counters h (Member_WWN e) (entry_loggedIn e) (Fabric e))
      as (-> & -> & -> & ->).
    pose proof (update_host_entries_on h (Member_WWN e) (entry_loggedIn e)
                  (Fabric e) "FAB-A" true).
    pose proof (update_host_entries_on h (Member_WWN e) (entry_loggedIn e)
                  (Fabric e) "FAB-A" false).
    pose proof (update_host_entries_on h (Member_WWN e) (entry_loggedIn e)
                  (Fabric e) "FAB-B" true).
    pose proof (update_host_entries_on h (Member_WWN e) (entry_loggedIn e)
                  (Fabric e) "FAB-B" false).
    repeat split; lia.
Qed.

Lemma filter_filter_length (A : Type) (p q : A -> bool) (l : list A) :
  List.length (filter q (filter p l)) = List.length (filter (fun x => p x && q x) l).
Proof.
  induction l as [ | x rest IH ]; cbn; [ reflexivity | ].
  destruct (p x); cbn; [ | exact IH ].
  destruct (q x); cbn; now rewrite IH.
Qed.

Lemma fabric_cell_entries (r : ValidationResult) (name : string) :
  cell_loggedIn (fabric_cell r name) = entries_on name true (result_wwns r)
  /\ cell_total (fabric_cell r name)
     = entries_on name true (result_wwns r) + entries_on name false (result_wwns r).
Proof.
  unfold fabric_cell, entries_on, length_of. cbn.
  split.
  - rewrite filter_filter_length. f_equal. f_equal. apply filter_ext.
    intros w. now destruct (isLoggedIn w).
  - induction (result_wwns r) as [ | w rest IH ]; cbn; [ reflexivity | ].
    destruct (strict_eq (fabric w) (Some name)); cbn; [ | exact IH ].
    destruct (isLoggedIn w); cbn [Bool.eqb List.length]; lia.
Qed.

Lemma fabric_cell_connected (r : ValidationResult) (name : string) :
  cell_status (fabric_cell r name) = connected ->
  0 < cell_loggedIn (fabric_cell r name).
Proof.
  unfold fabric_cell. cbn [cell_status cell_loggedIn].
  destruct (_ >? 0) eqn:Hgt; [ | discriminate ].
  intros _. now apply Z.gtb_lt.
Qed.

(** For a result of [validate], the connection matrix never shows more on
    a fabric than the validator counted: the logged-in entries of the cell
    of 'FAB-A' are at most [fabA_LoggedInYes], the other entries at most
    [fabA_LoggedInNo], and a cell that is 'connected' has a counted
    logged-in row; likewise for 'FAB-B'. *)
Theorem matrix_cell_within_counters (localeCompare : string -> string -> Z)
  (input : list FabricData) :
  let this := new_FabricValidator input in
  Forall (fun entry => has_receivers entry = true) (data this) ->
  exists results,
    validate localeCompare this = Normal results
    /\ forall r,
         In r results ->
         let cellA := fabric_cell r "FAB-A" in
         let cellB := fabric_cell r "FAB-B" in
         cell_loggedIn cellA <= fabA_LoggedInYes r
         /\ cell_total cellA - cell_loggedIn cellA <= fabA_LoggedInNo r
         /\ (cell_status cellA = connected -> 1 <= fabA_LoggedInYes r)
         /\ cell_loggedIn cellB <= fabB_LoggedInYes r
         /\ cell_total cellB - cell_loggedIn cellB <= fabB_LoggedInNo r
         /\ (cell_status cellB = connected -> 1 <= fabB_LoggedInYes r).
Proof.
  intros this H. subst this. cbn [data new_FabricValidator] in *.
  destruct (validate_results localeCompare input H) as (results & Hv & _ & Hres).
  exists results. split; [ exact Hv | ].
  intros r Hr. cbv zeta. apply Hres in Hr. destruct Hr as [name [_ ->]].
  set (r := result_of (name, hostData_of name (removeDuplicates input))).
  destruct (fabric_cell_entries r "FAB-A") as [HlA HtA].
  destruct (fabric_cell_entries r "FAB-B") as [HlB HtB].
  destruct (hostData_of_entries_within name (removeDuplicates input))
    as (IA & IB & IC & ID).
  pose proof (fabric_cell_connected r "FAB-A") as HsA.
  pose proof (fabric_cell_connected r "FAB-B") as HsB.
  rewrite HtA, HtB, HlA, HlB in *.
  subst r. cbn [result_of result_wwns fabA_LoggedInYes fabA_LoggedInNo
                fabB_LoggedInYes fabB_LoggedInNo] in *.
  repeat split; try lia.
  - intros Hc. specialize (HsA Hc). lia.
  - intros Hc. specialize (HsB Hc). lia.
Qed.

Lemma matrix_cell_within_counters_witness :
  exists results,
    validate localeCompare_root
      (new_FabricValidator
         [row "FAB-A" "srv1_1s" "w1" "No"; row "FAB-A" "srv1_2s" "w1" "Yes"])
    = Normal results
    /\ forall r,
        In r results ->
        cell_loggedIn (fabric_cell r "FAB-A") <= fabA_LoggedInYes r.
Proof.
  destruct (matrix_cell_within_counters localeCompare_root
              [row "FAB-A" "srv1_1s" "w1" "No"; row "FAB-A" "srv1_2s" "w1" "Yes"])
    as (results & Hv & Hall).
  - vm_compute. repeat constructor.
  - exists results. split; [ exact Hv | ].
    intros r Hr. now destruct (Hall r Hr) as (Hle & _).
Defined.

(** ** The duplicate counters *)

Lemma keep_new_full (rows : list FabricData) :
  forall seen,
    List.length (keep_new seen rows) = List.length rows ->
    NoDup (map entry_key rows)
    /\ forall entry, In entry rows -> ~ In (entry_key entry) seen.
Proof.
  induction rows as [ | e rest IH ]; intros seen Hlen; cbn in *.
  - split; [ constructor | intros entry [] ].
  - destruct (set_has seen (entry_key e)) eqn:He.
    + pose proof (keep_new_length rest seen). lia.
    + cbn in Hlen. injection Hlen as Hlen.
      destruct (IH _ Hlen) as [Hnd Hout]. split.
      * constructor; [ | exact Hnd ].
        intros Hin. apply in_map_iff in Hin. destruct Hin as [x [Hk Hx]].
        apply (Hout x Hx). apply set_add_In. now right.
      * intros entry [ <- | Hin ].
        -- now apply set_has_not_In.
        -- intros Hs. apply (Hout entry Hin). apply set_add_In. now left.
Qed.

Lemma removeDuplicates_fixed (rows : list FabricData) :
  NoDup (map entry_key rows) -> removeDuplicates rows = rows.
Proof.
  intros H. rewrite removeDuplicates_keep_new.
  apply keep_new_fixed; [ exact H | intros entry _ [] ].
Qed.

(** [getDuplicateInfo] after construction: the unique and the removed rows
    add up to the original ones, the number removed is between zero and the
    original number, and it is zero exactly when no two input rows have the
    same key, which is when the constructor keeps the input as it is.  The
    three numbers are those [getSummary] reports. *)
Theorem getDuplicateInfo_accounts (input : list FabricData) :
  let this := new_FabricValidator input in
  let info := getDuplicateInfo this in
  info_uniqueEntries info + info_duplicatesRemoved info = info_originalEntries info
  /\ 0 <= info_duplicatesRemoved info <= info_originalEntries info
  /\ info_originalEntries info = length_of input
  /\ (info_duplicatesRemoved info = 0 <-> NoDup (map entry_key input))
  /\ (info_duplicatesRemoved info = 0 <-> data this = input)
  /\ forall results,
       originalEntries (getSummary this results) = info_originalEntries info
       /\ summary_duplicatesRemoved (getSummary this results)
          = info_duplicatesRemoved info
       /\ uniqueEntries (getSummary this results) = info_uniqueEntries info.
Proof.
  cbv zeta. cbn.
  pose proof (removeDuplicates_length input) as Hle.
  assert (Hpos : 0 <= length_of (removeDuplicates input))
    by (unfold length_of; lia).
  assert (Hiff : length_of input - length_of (removeDuplicates input) = 0
                 <-> NoDup (map entry_key input)).
  { split.
    - intros Hz. rewrite removeDuplicates_keep_new in Hz.
      apply (keep_new_full input []). unfold length_of in Hz. lia.
    - intros Hnd. rewrite (removeDuplicates_fixed input Hnd). lia. }
  repeat split; try lia; try apply Hiff; try tauto.
  - intros Hz. apply removeDuplicates_fixed. now apply Hiff.
  - intros Heq. rewrite Heq. lia.
Qed.

(** Constructing again from the rows an object holds changes nothing but
    the counters: the data are the same, no duplicate is removed, and
    [validate] gives the same outcome. *)
Theorem constructor_on_deduplicated_rows (localeCompare : string -> string -> Z)
  (input : list FabricData) :
  let this := new_FabricValidator input in
  let again := new_FabricValidator (data this) in
  data again = data this
  /\ duplicatesRemoved again = 0
  /\ originalDataCount again = originalDataCount this - duplicatesRemoved this
  /\ validate localeCompare again = validate localeCompare this.
Proof.
  cbv zeta. cbn [data new_FabricValidator duplicatesRemoved originalDataCount].
  assert (Hfix : removeDuplicates (removeDuplicates input) = removeDuplicates input)
    by (apply removeDuplicates_fixed, removeDuplicates_keys_NoDup).
  rewrite Hfix. repeat split; try lia.
  unfold validate, groupByHost. cbn [data new_FabricValidator]. now rewrite Hfix.
Qed.

(** [validate] returns the empty list exactly for the empty input, and then
    the summary has a total and a percentage of zero. *)
Theorem validate_empty_iff (localeCompare : string -> string -> Z)
  (input : list FabricData) :
  let this := new_FabricValidator input in
  Forall (fun entry => has_receivers entry = true) (data this) ->
  exists results,
    validate localeCompare this = Normal results
    /\ (results = [] <-> input = [])
    /\ (input = [] ->
        total (getSummary this results) = 0
        /\ percentageGood (getSummary this results) = 0).
Proof.
  intros this H. subst this. cbn [data new_FabricValidator] in *.
  destruct (validate_results_Permutation localeCompare input H)
    as (results & Hv & Hperm & _ & Hkeys).
  exists results. split; [ exact Hv | ].
  assert (Hiff : results = [] <-> input = []).
  { split.
    - intros ->. apply Permutation_nil in Hperm.
      destruct input as [ | e rest ]; [ reflexivity | exfalso ].
      assert (Hin : In (entry_host e)
                      (map fst (fold_left apply_entry (removeDuplicates (e :: rest)) []))).
      { apply Hkeys. apply in_map. rewrite removeDuplicates_keep_new. cbn. now left. }
      rewrite <- host_result_of, Hperm in Hin. exact Hin.
    - intros ->. cbn in Hperm. now apply Permutation_sym, Permutation_nil in Hperm. }
  split; [ exact Hiff | ].
  intros Hin. apply Hiff in Hin. subst results. split; reflexivity.
Qed.

Lemma validate_empty_iff_witness :
  exists results,
    validate localeCompare_root (new_FabricValidator []) = Normal results
    /\ results = [].
Proof.
  destruct (validate_empty_iff localeCompare_root []) as (results & Hv & Hiff & _).
  - constructor.
  - exists results. split; [ exact Hv | ]. now apply Hiff.
Defined.

(** ** The connection matrix *)

Lemma set_add_NoDup (seen : list string) (key : string) :
  NoDup seen -> NoDup (set_add seen key).
Proof.
  intros H. unfold set_add. destruct (set_has seen key) eqn:Hhas; [ assumption | ].
  apply set_has_not_In in Hhas.
  apply NoDup_app; [ assumption | repeat constructor; intros [] | ].
  intros k Hk [ <- | [] ]. contradiction.
Qed.

Lemma add_fabric_In (fabrics : list string) (w : WWNInfo) (name : string) :
  In name (add_fabric fabrics w)
  <-> In name fabrics \/ (fabric w = Some name /\ name <> "").
Proof.
  unfold add_fabric. destruct (fabric w) as [ f | ]; cbn.
  - destruct (String.eqb_spec f "") as [ -> | Hf ]; cbn.
    + split; [ auto | intros [ H | [Heq Hne] ]; [ assumption | congruence ] ].
    + rewrite set_add_In. split.
      * intros [ H | -> ]; [ now left | right; split; [ reflexivity | assumption ] ].
      * intros [ H | [Heq _] ]; [ now left | right; congruence ].
  - split; [ auto | intros [ H | [Heq _] ]; [ assumption | discriminate ] ].
Qed.

Lemma add_fabric_NoDup (fabrics : list string) (w : WWNInfo) :
  NoDup fabrics -> NoDup (add_fabric fabrics w).
Proof.
  intros H. unfold add_fabric. destruct (fabric w) as [ f | ]; [ | assumption ].
  destruct (truthy (Some f)); [ now apply set_add_NoDup | assumption ].
Qed.

Lemma fold_add_fabric (l : list WWNInfo) :
  forall fabrics,
    (NoDup fabrics -> NoDup (fold_left add_fabric l fabrics))
    /\ forall name,
         In name (fold_left add_fabric l fabrics)
         <-> In name fabrics
             \/ exists w, In w l /\ fabric w = Some name /\ name <> "".
Proof.
  induction l as [ | w rest IH ]; intros fabrics; cbn.
  - split; [ auto | ]. intros name. split; [ auto | ].
    intros [ H | [w [[] _]] ]. assumption.
  - destruct (IH (add_fabric fabrics w)) as [Hnd Hin]. split.
    + intros H. now apply Hnd, add_fabric_NoDup.
    + intros name. rewrite Hin, add_fabric_In. split.
      * intros [ [ H | H ] | [x [Hx Hrest]] ].
        -- now left.
        -- right. exists w. split; [ now left | exact H ].
        -- right. exists x. split; [ now right | exact Hrest ].
      * intros [ H | [x [[ <- | Hx ] Hrest]] ].
        -- left. now left.
        -- left. now right.
        -- right. now exists x.
Qed.

Lemma collect_fabrics_spec (results : list ValidationResult) :
  NoDup (collect_fabrics results)
  /\ forall name,
       In name (collect_fabrics results)
       <-> name <> ""
           /\ exists r w,
               In r results /\ In w (result_wwns r) /\ fabric w = Some name.
Proof.
  unfold collect_fabrics.
  assert (Hgen : forall fabrics,
             (NoDup fabrics ->
              NoDup (fold_left
                       (fun fabrics result =>
                          fold_left add_fabric (result_wwns result) fabrics)
                       results fabrics))
             /\ forall name,
                  In name (fold_left
                             (fun fabrics result =>
                                fold_left add_fabric (result_wwns result) fabrics)
                             results fabrics)
                  <-> In name fabrics
                      \/ (name <> ""
                          /\ exists r w,
                              In r results /\ In w (result_wwns r)
                              /\ fabric w = Some name)).
  { induction results as [ | r rest IH ]; intros fabrics; cbn.
    - split; [ auto | ]. intros name. split; [ auto | ].
      intros [ H | [_ [r [w [[] _]]]] ]. assumption.
    - destruct (IH (fold_left add_fabric (result_wwns r) fabrics)) as [Hnd Hin].
      destruct (fold_add_fabric (result_wwns r) fabrics) as [Hnd' Hin'].
      split; [ auto | ].
      intros name. rewrite Hin, Hin'. split.
      + intros [ [ H | [w [Hw [Hf Hne]]] ] | [Hne [x [w [Hx Hrest]]]] ].
        * now left.
        * right. split; [ assumption | ]. exists r, w. auto.
        * right. split; [ assumption | ]. exists x, w. split; [ now right | exact Hrest ].
      + intros [ H | [Hne [x [w [[ <- | Hx ] [Hw Hf]]]]] ].
        * left. now left.
        * left. right. exists w. auto.
        * right. split; [ assumption | ]. exists x, w. auto. }
  destruct (Hgen []) as [Hnd Hin]. split; [ apply Hnd; constructor | ].
  intros name. rewrite Hin. cbn. tauto.
Qed.

Lemma code_order_total (a b : string) :
  comparison_to_Z (String.compare a b) > 0 ->
  comparison_to_Z (String.compare b a) <= 0.
Proof.
  rewrite (String.compare_antisym a b).
  destruct (String.compare b a); cbn; lia.
Qed.

Lemma code_order_trans (a b c : string) :
  comparison_to_Z (String.compare a b) <= 0 ->
  comparison_to_Z (String.compare b c) <= 0 ->
  comparison_to_Z (String.compare a c) <= 0.
Proof.
  destruct (String.compare a b) eqn:Hab; cbn; try lia;
    destruct (String.compare b c) eqn:Hbc; cbn; try lia; intros _ _.
  - apply String.compare_eq_iff in Hab, Hbc. subst.
    rewrite string_compare_refl. cbn. lia.
  - apply String.compare_eq_iff in Hab. subst. rewrite Hbc. cbn. lia.
  - apply String.compare_eq_iff in Hbc. subst. rewrite Hab. cbn. lia.
  - rewrite (string_compare_Lt_trans _ _ _ Hab Hbc). cbn. lia.
Qed.

Lemma StronglySorted_weaken (A : Type) (R R' : A -> A -> Prop) (l : list A) :
  StronglySorted R l -> (forall a b, R a b -> R' a b) -> StronglySorted R' l.
Proof.
  intros H Himp. induction H as [ | x rest Hrest IH Hall ]; constructor.
  - exact IH.
  - rewrite Forall_forall in *. auto.
Qed.



(** ** The filters of the results table *)

Lemma includes_empty (s : string) : includes s "" = true.
Proof. destruct s; reflexivity. Qed.

Lemma prefix_refl (s : string) : String.prefix s s = true.
Proof.
  induction s as [ | c r IH ]; cbn; [ reflexivity | ].
  destruct (ascii_dec c c) as [ _ | Hne ]; [ exact IH | congruence ].
Qed.

Lemma includes_refl (s : string) : includes s s = true.
Proof. destruct s; cbn [includes]; rewrite prefix_refl; reflexivity. Qed.

Lemma filter_all (A : Type) (p : A -> bool) (l : list A) :
  (forall x, In x l -> p x = true) -> filter p l = l.
Proof.
  induction l as [ | x rest IH ]; cbn; intros H; [ reflexivity | ].
  rewrite (H x (or_introl eq_refl)), IH; [ reflexivity | ].
  intros y Hy. apply H. now right.
Qed.

Lemma filter_none (A : Type) (p : A -> bool) (l : list A) :
  (forall x, In x l -> p x = false) -> filter p l = [].
Proof.
  induction l as [ | x rest IH ]; cbn; intros H; [ reflexivity | ].
  rewrite (H x (or_introl eq_refl)). apply IH.
  intros y Hy. apply H. now right.
Qed.

Lemma StronglySorted_filter (A : Type) (R : A -> A -> Prop) (p : A -> bool)
  (l : list A) :
  StronglySorted R l -> StronglySorted R (filter p l).
Proof.
  induction 1 as [ | x rest Hrest IH Hall ]; cbn; [ constructor | ].
  destruct (p x); [ | exact IH ].
  constructor; [ exact IH | ].
  rewrite Forall_forall in *. intros y Hy. apply filter_In in Hy. now apply Hall.
Qed.

Lemma filter_keeps_distinct_images (A B : Type) (p : A -> bool) (f : A -> B) :
  forall rows : list A, NoDup (map f rows) -> NoDup (map f (filter p rows)).
Proof.
  intros rows. induction rows as [ | x rest IH ]; cbn; intros H; [ constructor | ].
  inversion H as [ | y ys Hy Hys ]; subst.
  destruct (p x); [ | now apply IH ].
  cbn. constructor; [ | now apply IH ].
  intros Hin. apply Hy. apply in_map_iff in Hin. destruct Hin as [z [Hz Hin]].
  apply filter_In in Hin. apply in_map_iff. exists z. tauto.
Qed.

(** With the filters as [clearFilters] leaves them, an empty search and
    'all' three times, [filteredResults] is the whole list; and a search for
    the name of a host, in any case, keeps that host. *)
Theorem filteredResults_cleared (results : list ValidationResult) :
  filteredResults results "" "all" "all" "all" = results
  /\ forall r,
       In r results ->
       In r (filteredResults results (host r) "all" "all" "all").
Proof.
  split.
  - apply filter_all. intros r _. unfold matches_filters. cbn.
    now rewrite includes_empty.
  - intros r Hr. apply filter_In. split; [ exact Hr | ].
    unfold matches_filters. cbn. now rewrite includes_refl.
Qed.

(** On the results of [validate], the status filter 'Good' selects what the
    two fabric filters 'OK' select together, and no row passes 'Good' with a
    fabric filter 'Error'. *)
Theorem filteredResults_Good_is_OK_OK (localeCompare : string -> string -> Z)
  (input : list FabricData) :
  let this := new_FabricValidator input in
  Forall (fun entry => has_receivers entry = true) (data this) ->
  exists results,
    validate localeCompare this = Normal results
    /\ forall searchTerm,
         filteredResults results searchTerm "Good" "all" "all"
         = filteredResults results searchTerm "all" "OK" "OK"
         /\ (forall fabBFilter,
                filteredResults results searchTerm "Good" "Error" fabBFilter = [])
         /\ (forall fabAFilter,
                filteredResults results searchTerm "Good" fabAFilter "Error" = []).
Proof.
  intros this H. subst this. cbn [data new_FabricValidator] in *.
  destruct (validate_results_Permutation localeCompare input H)
    as (results & Hv & Hperm & _).
  exists results. split; [ exact Hv | ].
  assert (Hstatus : forall r,
             In r results ->
             finalValidation r = getFinalValidation (validationA r) (validationB r)).
  { intros r Hr. apply (Permutation_in _ Hperm) in Hr. apply in_map_iff in Hr.
    destruct Hr as [entry [<- _]]. apply result_of_status. }
  intros searchTerm. split; [ | split ].
  - apply filter_ext_in. intros r Hr. unfold matches_filters.
    rewrite (Hstatus r Hr).
    destruct (includes _ _), (validationA r), (validationB r); reflexivity.
  - intros fabBFilter. apply filter_none. intros r Hr. unfold matches_filters.
    rewrite (Hstatus r Hr).
    destruct (includes _ _), (validationA r), (validationB r);
      cbn; rewrite ?andb_false_r; reflexivity.
  - intros fabAFilter. apply filter_none. intros r Hr. unfold matches_filters.
    rewrite (Hstatus r Hr).
    destruct (includes _ _), (validationA r), (validationB r);
      cbn; rewrite ?andb_false_r; reflexivity.
Qed.

Lemma filteredResults_Good_is_OK_OK_witness :
  exists results,
    validate localeCompare_root
      (new_FabricValidator
         [row "FAB-A" "srv1_1s" "w1" "Yes"; row "FAB-B" "srv1_2s" "w2" "Yes";
          row "FAB-A" "srv2_1s" "w3" "No"]) = Normal results
    /\ filteredResults results "" "Good" "Error" "all" = [].
Proof.
  destruct (filteredResults_Good_is_OK_OK localeCompare_root
              [row "FAB-A" "srv1_1s" "w1" "Yes"; row "FAB-B" "srv1_2s" "w2" "Yes";
               row "FAB-A" "srv2_1s" "w3" "No"])
    as (results & Hv & Hall).
  - vm_compute. repeat constructor.
  - exists results. split; [ exact Hv | ].
    destruct (Hall "") as (_ & Hempty & _). apply Hempty.
Defined.

(** Whatever the filters, the filtered view of the results of [validate]
    keeps their order, has one row per host, and shows only results. *)
Theorem filteredResults_keeps_order (localeCompare : string -> string -> Z)
  (input : list FabricData) :
  (forall a b, localeCompare a b > 0 -> localeCompare b a <= 0) ->
  (forall a b c,
      localeCompare a b <= 0 -> localeCompare b c <= 0 -> localeCompare a c <= 0) ->
  let this := new_FabricValidator input in
  Forall (fun entry => has_receivers entry = true) (data this) ->
  exists results,
    validate localeCompare this = Normal results
    /\ forall searchTerm statusFilter fabAFilter fabBFilter,
         let view :=
           filteredResults results searchTerm statusFilter fabAFilter fabBFilter in
         ascending (fun a b => localeCompare (host a) (host b)) view
         /\ NoDup (map host view)
         /\ (forall r, In r view -> In r results)
         /\ length_of view <= length_of results.
Proof.
  intros Htotal Htrans this H. subst this. cbn [data new_FabricValidator] in *.
  destruct (validate_results localeCompare input H) as (results & Hv & Hsort & _).
  destruct (validate_results_Permutation localeCompare input H)
    as (results' & Hv' & Hperm & Hnd & _).
  assert (results' = results) by congruence. subst results'.
  exists results. split; [ exact Hv | ].
  intros searchTerm statusFilter fabAFilter fabBFilter. cbv zeta.
  unfold filteredResults. split; [ | split; [ | split ] ].
  - apply StronglySorted_filter. rewrite Hsort. apply sort_ascending; eauto.
  - apply filter_keeps_distinct_images.
    apply (Permutation_NoDup (l := map fst
                                     (fold_left apply_entry (removeDuplicates input) [])));
      [ | exact Hnd ].
    rewrite <- host_result_of. apply Permutation_sym. now apply Permutation_map.
  - intros r Hr. now apply filter_In in Hr.
  - unfold length_of. apply inj_le. apply filter_length_le.
Qed.

Lemma filteredResults_keeps_order_witness :
  exists results,
    validate localeCompare_root
      (new_FabricValidator
         [row "FAB-A" "B_1" "w1" "Yes"; row "FAB-A" "a_1" "w2" "Yes"])
    = Normal results
    /\ NoDup (map host (filteredResults results "" "errors" "all" "all")).
Proof.
  destruct (filteredResults_keeps_order localeCompare_root
              [row "FAB-A" "B_1" "w1" "Yes"; row "FAB-A" "a_1" "w2" "Yes"]
              localeCompare_root_total localeCompare_root_trans)
    as (results & Hv & Hall).
  - vm_compute. repeat constructor.
  - exists results. split; [ exact Hv | ].
    now destruct (Hall "" "errors" "all" "all") as (_ & Hnd & _).
Defined.

Lemma count_not_Good (results : list ValidationResult) :
  length_of
    (filter (fun r => negb (FinalValidation_eqb (finalValidation r) Good)) results)
  = count_final FAB_A_Is_BAD results + count_final FAB_B_Is_BAD results
    + count_final Both_FABs_Are_BAD results
  /\ count_final Good results
     + length_of
         (filter (fun r => negb (FinalValidation_eqb (finalValidation r) Good))
            results)
     = length_of results.
Proof.
  induction results as [ | r rest [IH1 IH2] ]; [ split; reflexivity | ].
  rewrite !count_final_cons.
  replace (length_of (r :: rest)) with (1 + length_of rest)
    by (unfold length_of; cbn [List.length]; lia).
  cbn [filter].
  destruct (finalValidation r); cbn [FinalValidation_eqb negb];
    unfold length_of in *; cbn [List.length]; split; lia.
Qed.

(** The status filter 'errors' shows the results that are not Good; their
    number is what [getSummary] reports as bad in its three categories, and
    with the Good ones they are all the results. *)
Theorem filteredResults_errors_count (this : FabricValidator)
  (results : list ValidationResult) :
  let view := filteredResults results "" "errors" "all" "all" in
  let summary := getSummary this results in
  (forall r, In r view <-> In r results /\ finalValidation r <> Good)
  /\ length_of view = fabABad summary + fabBBad summary + bothBad summary
  /\ length_of view + good summary = total summary
  /\ length_of view
     + length_of (filteredResults results "" "Good" "all" "all")
     = length_of results.
Proof.
  cbv zeta. unfold filteredResults.
  assert (Herr : filter (matches_filters "" "errors" "all" "all") results
                 = filter (fun r => negb (FinalValidation_eqb (finalValidation r) Good))
                     results).
  { apply filter_ext. intros r. unfold matches_filters. cbn.
    rewrite includes_empty. now destruct (finalValidation r). }
  assert (Hgood : filter (matches_filters "" "Good" "all" "all") results
                  = filter (fun r => FinalValidation_eqb (finalValidation r) Good)
                      results).
  { apply filter_ext. intros r. unfold matches_filters. cbn.
    rewrite includes_empty. now destruct (finalValidation r). }
  rewrite Herr, Hgood. destruct (count_not_Good results) as [H1 H2].
  cbn [getSummary fabABad fabBBad bothBad good total].
  fold (count_final Good results).
  split; [ | repeat split; lia ].
  intros r. rewrite filter_In. split.
  - intros [Hin Hp]. split; [ exact Hin | ]. intros Hg.
    rewrite Hg in Hp. discriminate.
  - intros [Hin Hne]. split; [ exact Hin | ].
    destruct (finalValidation r); [ congruence | reflexivity | reflexivity | reflexivity ].
Qed.

(** [getValidationStats] is [null] exactly for no results; otherwise the
    results that passed and those that failed are all the results, the
    failed ones are those of the three bad categories, and the numbers are
    those of [getSummary]. *)
Theorem getValidationStats_consistent (this : FabricValidator)
  (results : list ValidationResult) :
  (getValidationStats results = None <-> results = [])
  /\ forall stats,
       getValidationStats results = Some stats ->
       let summary := getSummary this results in
       stats_passed stats + stats_failed stats = stats_total stats
       /\ stats_failed stats
          = stats_fabABad stats + stats_fabBBad stats + stats_bothBad stats
       /\ stats_passed stats = good summary
       /\ stats_fabABad stats = fabABad summary
       /\ stats_fabBBad stats = fabBBad summary
       /\ stats_bothBad stats = bothBad summary
       /\ stats_total stats = total summary
       /\ 0 < stats_total stats.
Proof.
  unfold getValidationStats. split.
  - destruct results; cbn; split; congruence.
  - intros stats.
    destruct (length_of results =? 0) eqn:Hlen; [ discriminate | ].
    intros Hs. injection Hs as <-. cbv zeta.
    cbn [stats_passed stats_failed stats_fabABad stats_fabBBad stats_bothBad
         stats_total getSummary good fabABad fabBBad bothBad total].
    destruct (count_not_Good results) as [H1 H2].
    apply Z.eqb_neq in Hlen.
    assert (0 <= length_of results) by (unfold length_of; lia).
    repeat split; lia.
Qed.

Lemma getValidationStats_consistent_witness :
  exists stats,
    getValidationStats
      [ {| host := "srv1"; result_wwns := [];
           fabA_LoggedInYes := 1; fabA_LoggedInNo := 0; validationA := OK;
           fabB_LoggedInYes := 0; fabB_LoggedInNo := 0; validationB := Error;
           finalValidation := FAB_B_Is_BAD |} ] = Some stats
    /\ stats_passed stats + stats_failed stats = stats_total stats.
Proof.
  match goal with
  | |- exists stats, getValidationStats ?l = _ /\ _ => set (results := l)
  end.
  destruct (getValidationStats results) as [ stats | ] eqn:Hs;
    [ | vm_compute in Hs; discriminate ].
  exists stats. split; [ reflexivity | ].
  exact (proj1 (proj2 (getValidationStats_consistent
                         (new_FabricValidator []) results) stats Hs)).
Defined.

(** ** The selection of rows *)

Lemma index_has_In (selected : list nat) (index : nat) :
  index_has selected index = true <-> In index selected.
Proof.
  unfold index_has. rewrite existsb_exists. split.
  - intros [i [Hin Heq]]. apply Nat.eqb_eq in Heq. now subst.
  - intros Hin. exists index. split; [ exact Hin | apply Nat.eqb_refl ].
Qed.

Lemma index_add_In (selected : list nat) (index j : nat) :
  In j (index_add selected index) <-> In j selected \/ j = index.
Proof.
  unfold index_add. destruct (index_has selected index) eqn:H.
  - apply index_has_In in H. split; [ auto | intros [ | -> ]; assumption ].
  - rewrite in_app_iff. cbn. intuition.
Qed.

Lemma index_delete_In (selected : list nat) (index j : nat) :
  In j (index_delete selected index) <-> In j selected /\ j <> index.
Proof.
  unfold index_delete. rewrite filter_In, negb_true_iff, Nat.eqb_neq.
  intuition.
Qed.

Lemma index_set_of_In (indices : list nat) (j : nat) :
  In j (index_set_of indices) <-> In j indices.
Proof.
  unfold index_set_of.
  assert (Hgen : forall acc,
             In j (fold_left index_add indices acc) <-> In j acc \/ In j indices).
  { induction indices as [ | i rest IH ]; intros acc; cbn; [ tauto | ].
    rewrite IH, index_add_In. intuition. }
  rewrite Hgen. cbn. tauto.
Qed.

Lemma filter_by_index_from (A : Type) (p : nat -> bool) (l : list A) :
  forall start (x : A),
    In x (map snd (filter (fun ix => p (fst ix))
                     (combine (seq start (List.length l)) l)))
    <-> exists i, p (start + i)%nat = true /\ nth_error l i = Some x.
Proof.
  induction l as [ | y rest IH ]; intros start x; cbn [List.length seq combine filter map].
  - split; [ intros [] | intros [i [_ Hn]]; destruct i; discriminate ].
  - cbn [fst]. destruct (p start) eqn:Hp; cbn [map snd In]; rewrite IH.
    + split.
      * intros [ <- | [i [Hi Hn]] ].
        -- exists 0%nat. rewrite Nat.add_0_r. auto.
        -- exists (S i). rewrite Nat.add_succ_r. auto.
      * intros [[ | i ] [Hi Hn]]; cbn in Hn.
        -- left. congruence.
        -- right. exists i. rewrite Nat.add_succ_r in Hi. auto.
    + split.
      * intros [i [Hi Hn]]. exists (S i). rewrite Nat.add_succ_r. auto.
      * intros [[ | i ] [Hi Hn]]; cbn in Hn.
        -- rewrite Nat.add_0_r in Hi. congruence.
        -- exists i. rewrite Nat.add_succ_r in Hi. auto.
Qed.

Lemma filter_by_index_all (A : Type) (p : nat -> bool) (l : list A) :
  (forall i, (i < List.length l)%nat -> p i = true) -> filter_by_index p l = l.
Proof.
  unfold filter_by_index.
  assert (Hgen : forall start,
             (forall i, (i < List.length l)%nat -> p (start + i)%nat = true) ->
             map snd (filter (fun ix => p (fst ix))
                        (combine (seq start (List.length l)) l)) = l).
  { induction l as [ | y rest IH ]; intros start H; cbn; [ reflexivity | ].
    pose proof (H 0%nat) as H0. rewrite Nat.add_0_r in H0.
    rewrite H0 by (cbn; lia). cbn. f_equal. apply IH.
    intros i Hi. replace (S start + i)%nat with (start + S i)%nat by lia.
    apply H. cbn. lia. }
  intros H. apply (Hgen 0%nat). exact H.
Qed.

(** [handleExport] exports rows of the filtered view only: with no row
    selected all of them, otherwise those at a selected index; a selected
    index beyond the view selects nothing. *)
Theorem dataToExport_selected_rows (selectedRows : list nat)
  (filtered : list ValidationResult) :
  (selectedRows = [] -> dataToExport selectedRows filtered = filtered)
  /\ (selectedRows <> [] ->
      forall r,
        In r (dataToExport selectedRows filtered)
        <-> exists index,
              In index selectedRows /\ nth_error filtered index = Some r)
  /\ forall r, In r (dataToExport selectedRows filtered) -> In r filtered.
Proof.
  unfold dataToExport.
  assert (Hsel : forall r,
             In r (filter_by_index (index_has selectedRows) filtered)
             <-> exists index,
                   In index selectedRows /\ nth_error filtered index = Some r).
  { intros r. unfold filter_by_index. rewrite filter_by_index_from.
    split; intros [i [Hi Hn]]; exists i; cbn in *;
      (split; [ now apply index_has_In | exact Hn ]). }
  split; [ | split ].
  - intros ->. reflexivity.
  - intros Hne r. destruct selectedRows as [ | i rest ]; [ congruence | ].
    cbn [List.length Nat.ltb Nat.leb]. apply Hsel.
  - intros r. destruct (0 <? List.length selectedRows)%nat; [ | auto ].
    rewrite Hsel. intros [i [_ Hn]]. now apply nth_error_In in Hn.
Qed.

Lemma dataToExport_selected_rows_witness :
  [0%nat] <> []
  /\ In (result_of ("srv1", newHostData "srv1"))
       (dataToExport [0%nat] [result_of ("srv1", newHostData "srv1")]).
Proof.
  assert (Hne : [0%nat] <> []) by discriminate.
  split; [ exact Hne | ].
  apply (proj1 (proj2 (dataToExport_selected_rows
                         [0%nat] [result_of ("srv1", newHostData "srv1")])) Hne).
  exists 0%nat. split; [ now left | reflexivity ].
Defined.

(** After [handleSelectAll], whatever was selected before, [handleExport]
    exports the whole filtered view. *)
Theorem export_after_handleSelectAll (selectedRows : list nat)
  (filtered : list ValidationResult) :
  dataToExport (handleSelectAll selectedRows filtered) filtered = filtered.
Proof.
  unfold handleSelectAll, dataToExport.
  destruct (Nat.eqb (List.length selectedRows) (List.length filtered));
    [ reflexivity | ].
  destruct (0 <? _)%nat; [ | reflexivity ].
  apply filter_by_index_all. intros i Hi.
  apply index_has_In, index_set_of_In, in_seq. lia.
Qed.

(** [handleRowSelect] toggles the row it is given and no other, so that
    doing it twice leaves the selection as it was. *)
Theorem handleRowSelect_toggles (selectedRows : list nat) (index : nat) :
  (forall j,
      index_has (handleRowSelect selectedRows index) j
      = if Nat.eqb index j then negb (index_has selectedRows index)
        else index_has selectedRows j)
  /\ forall j,
       index_has (handleRowSelect (handleRowSelect selectedRows index) index) j
       = index_has selectedRows j.
Proof.
  assert (Hone : forall sel i j,
             index_has (handleRowSelect sel i) j
             = if Nat.eqb i j then negb (index_has sel i) else index_has sel j).
  { intros sel i j. unfold handleRowSelect.
    destruct (index_has sel i) eqn:Hi; cbn [negb].
    - destruct (Nat.eqb_spec i j) as [ <- | Hne ].
      + apply not_true_is_false. rewrite index_has_In, index_delete_In. tauto.
      + destruct (index_has sel j) eqn:Hj.
        * apply index_has_In. apply index_delete_In.
          apply index_has_In in Hj. split; [ exact Hj | congruence ].
        * apply not_true_is_false. rewrite index_has_In, index_delete_In.
          intros [Hin _]. apply index_has_In in Hin. congruence.
    - destruct (Nat.eqb_spec i j) as [ <- | Hne ].
      + apply index_has_In, index_add_In. now right.
      + destruct (index_has sel j) eqn:Hj.
        * apply index_has_In, index_add_In. left. now apply index_has_In.
        * apply not_true_is_false. rewrite index_has_In, index_add_In.
          intros [Hin | Heq]; [ apply index_has_In in Hin | ]; congruence. }
  split; [ apply Hone | ].
  intros j. rewrite !Hone, Nat.eqb_refl.
  destruct (Nat.eqb_spec index j) as [ <- | _ ]; [ | reflexivity ].
  now rewrite negb_involutive.
Qed.

(** * Reading and checking a sheet *)

(** ** The rows of a sheet *)

Lemma object_get_set (obj : JSObject) (key key' value : string) :
  object_get (object_set obj key value) key'
  = if String.eqb key key' then Some value else object_get obj key'.
Proof.
  induction obj as [ | [k v] rest IH ]; cbn.
  - reflexivity.
  - destruct (String.eqb_spec k key) as [ -> | Hk ]; cbn.
    + destruct (String.eqb key key'); reflexivity.
    + rewrite IH. destruct (String.eqb_spec key key') as [ <- | Hk' ].
      * apply String.eqb_neq in Hk. now rewrite Hk.
      * reflexivity.
Qed.

Lemma In_combine_seq (A : Type) (l : list A) (x : A) :
  forall start, In x l <-> exists i, In (i, x) (combine (seq start (List.length l)) l).
Proof.
  induction l as [ | y rest IH ]; intros start; cbn.
  - split; [ intros [] | intros [i []] ].
  - split.
    + intros [ -> | Hin ].
      * exists start. now left.
      * apply (IH (S start)) in Hin. destruct Hin as [i Hi]. exists i. now right.
    + intros [i [ Heq | Hin ]].
      * left. congruence.
      * right. apply (IH (S start)). now exists i.
Qed.

(** The object of a row has a property for each header that is not a hole,
    and no other. *)
Lemma row_object_properties (headers row : list cell) (key : string) :
  (exists value, object_get (row_object headers row) key = Some value)
  <-> In (Some key) headers.
Proof.
  unfold row_object.
  assert (Hgen : forall (l : list (nat * cell)) (obj : JSObject),
             (exists value,
                 object_get
                   (fold_left
                      (fun obj ih =>
                         match snd ih with
                         | Some header =>
                             object_set obj header (cell_or_empty row (fst ih))
                         | None => obj
                         end) l obj) key = Some value)
             <-> (exists value, object_get obj key = Some value)
                 \/ exists i, In (i, Some key) l).
  { induction l as [ | [i h] rest IH ]; intros obj; cbn [fold_left].
    - split; [ auto | intros [ H | [i []] ]; exact H ].
    - rewrite IH. cbn [snd fst]. destruct h as [ header | ].
      + rewrite object_get_set.
        destruct (String.eqb_spec header key) as [ -> | Hne ].
        * split; [ intros _ | intros _; left; eauto ].
          right. exists i. now left.
        * split.
          -- intros [ H | [j Hj] ]; [ now left | right; exists j; now right ].
          -- intros [ H | [j [ Heq | Hj ]] ];
               [ now left | inversion Heq; congruence | right; now exists j ].
      + split.
        * intros [ H | [j Hj] ]; [ now left | right; exists j; now right ].
        * intros [ H | [j [ Heq | Hj ]] ];
            [ now left | discriminate | right; now exists j ]. }
  rewrite Hgen, (In_combine_seq _ headers (Some key) 0). cbn.
  split; [ intros [ [v Hv] | H ]; [ discriminate | exact H ] | auto ].
Qed.

Lemma truthy_Some (v : option string) :
  truthy v = true <-> exists s, v = Some s /\ s <> "".
Proof.
  destruct v as [ s | ]; cbn.
  - rewrite negb_true_iff, String.eqb_neq. split.
    + intros H. now exists s.
    + intros [s' [Heq Hne]]. congruence.
  - split; [ discriminate | intros [s [Heq _]]; discriminate ].
Qed.

Lemma readExcelFile_items (jsonData : list (list cell)) (data : list FabricData) :
  readExcelFile jsonData = Resolved data ->
  forall item,
    In item data ->
    (exists row, In row (skipn 1 jsonData)
                 /\ item = as_FabricData (row_object (nth 0 jsonData []) row))
    /\ (exists fab, Fabric item = Some fab /\ fab <> "")
    /\ (exists alias, Alias item = Some alias /\ alias <> "")
    /\ (Logged_In item <> None <-> In (Some "Logged In") (nth 0 jsonData []))
    /\ (Member_WWN item <> None
        <-> In (Some "Member WWN / D,P") (nth 0 jsonData [])).
Proof.
  unfold readExcelFile.
  destruct (List.length jsonData <? 2)%nat; [ discriminate | ].
  intros Hdata. injection Hdata as <-.
  intros item Hitem. apply filter_In in Hitem. destruct Hitem as [Hin Htruthy].
  apply in_map_iff in Hin. destruct Hin as [row [<- Hrow]].
  apply andb_true_iff in Htruthy. destruct Htruthy as [Hf Ha].
  split; [ now exists row | ].
  split; [ now apply truthy_Some | ].
  split; [ now apply truthy_Some | ].
  cbn [as_FabricData Logged_In Member_WWN].
  rewrite <- !row_object_properties with (row := row).
  split; split.
  - destruct (object_get _ _) as [ v | ]; [ eauto | congruence ].
  - intros [v ->]. discriminate.
  - destruct (object_get _ _) as [ v | ]; [ eauto | congruence ].
  - intros [v ->]. discriminate.
Qed.



(** ** The structure check *)

Lemma In_indexed_filter (A : Type) (q : nat * A -> bool) (l : list A) (x : A) :
  forall start,
    In x (map snd (filter q (combine (seq start (List.length l)) l)))
    <-> exists i, nth_error l i = Some x /\ q ((start + i)%nat, x) = true.
Proof.
  induction l as [ | y rest IH ]; intros start;
    cbn [List.length seq combine filter map].
  - split; [ intros [] | intros [i [Hn _]]; destruct i; discriminate ].
  - destruct (q (start, y)) eqn:Hq; cbn [map snd In]; rewrite IH.
    + split.
      * intros [ <- | [i [Hn Hi]] ].
        -- exists 0%nat. rewrite Nat.add_0_r. auto.
        -- exists (S i). rewrite Nat.add_succ_r. auto.
      * intros [[ | i ] [Hn Hi]]; cbn in Hn.
        -- left. congruence.
        -- right. exists i. rewrite Nat.add_succ_r in Hi. auto.
    + split.
      * intros [i [Hn Hi]]. exists (S i). rewrite Nat.add_succ_r. auto.
      * intros [[ | i ] [Hn Hi]]; cbn in Hn.
        -- rewrite Nat.add_0_r in Hi. congruence.
        -- exists i. rewrite Nat.add_succ_r in Hi. auto.
Qed.

Lemma indexOf_nth_error (self : list string) (value : string) :
  forall i, indexOf self value = Some i -> nth_error self i = Some value.
Proof.
  induction self as [ | x rest IH ]; intros i; cbn; [ discriminate | ].
  destruct (String.eqb_spec x value) as [ -> | Hne ].
  - intros H. injection H as <-. reflexivity.
  - destruct (indexOf rest value) as [ j | ]; cbn; [ | discriminate ].
    intros H. injection H as <-. cbn. now apply IH.
Qed.

Lemma indexOf_In (self : list string) (value : string) :
  In value self -> exists i, indexOf self value = Some i.
Proof.
  induction self as [ | x rest IH ]; cbn; [ intros [] | ].
  intros Hin. destruct (String.eqb_spec x value) as [ -> | Hne ]; [ eauto | ].
  destruct Hin as [ Heq | Hin ]; [ congruence | ].
  destruct (IH Hin) as [i ->]. cbn. eauto.
Qed.

Lemma first_occurrences_only_In (self : list string) (x : string) :
  In x (first_occurrences_only self) <-> In x self.
Proof.
  unfold first_occurrences_only. rewrite In_indexed_filter. cbn [fst snd]. split.
  - intros [i [Hn _]]. now apply nth_error_In in Hn.
  - intros Hin. destruct (indexOf_In self x Hin) as [i Hi].
    exists i. split; [ now apply indexOf_nth_error | ].
    rewrite Hi. apply Nat.eqb_refl.
Qed.

Lemma NoDup_map_through_keys (A B C : Type) (f : A -> B) (g : A -> C) (l : list A) :
  NoDup (map f l) ->
  (forall a b, In a l -> In b l -> g a = g b -> f a = f b) ->
  NoDup (map g l).
Proof.
  induction l as [ | a rest IH ]; cbn; intros Hnd Hkey; [ constructor | ].
  inversion Hnd as [ | y ys Hy Hys ]; subst.
  constructor.
  - intros Hin. apply in_map_iff in Hin. destruct Hin as [b [Hb Hin]].
    apply Hy. apply in_map_iff. exists b. split; [ | exact Hin ].
    symmetry. apply Hkey; auto.
  - apply IH; [ exact Hys | ]. intros x y Hx Hy'. apply Hkey; auto.
Qed.

Lemma fst_combine_seq (A : Type) (l : list A) :
  forall start, map fst (combine (seq start (List.length l)) l) = seq start (List.length l).
Proof.
  induction l as [ | x rest IH ]; intros start; cbn; [ reflexivity | ].
  now rewrite IH.
Qed.

Lemma first_occurrences_only_NoDup (self : list string) :
  NoDup (first_occurrences_only self).
Proof.
  unfold first_occurrences_only.
  apply NoDup_map_through_keys with (f := fst).
  - apply filter_keeps_distinct_images. rewrite fst_combine_seq. apply seq_NoDup.
  - intros [i x] [j y] Hi Hj. cbn [fst snd]. intros <-.
    apply filter_In in Hi, Hj. destruct Hi as [_ Hi], Hj as [_ Hj].
    cbn [fst snd] in Hi, Hj.
    destruct (indexOf self x) as [ k | ]; [ | discriminate ].
    apply Nat.eqb_eq in Hi, Hj. congruence.
Qed.

Lemma invalid_fabric_value (fab : option string) :
  truthy fab
  && negb (existsb (fun valid => strict_eq (Some valid) fab) validFabrics) = true
  <-> exists name,
        fab = Some name /\ name <> "" /\ name <> "FAB-A" /\ name <> "FAB-B".
Proof.
  destruct fab as [ s | ].
  - unfold truthy, validFabrics, existsb, strict_eq.
    destruct (String.eqb_spec s ""), (String.eqb_spec "FAB-A" s),
      (String.eqb_spec "FAB-B" s); cbn [negb andb orb]; split;
      try discriminate;
      try (intros [name (Heq & H1 & H2 & H3)]; inversion Heq; congruence).
    intros _. exists s. repeat split; congruence.
  - cbn. split; [ discriminate | intros [name [Heq _]]; discriminate ].
Qed.

Lemma invalidFabrics_content (data : list FabricData) :
  (forall name,
      (name <> "" /\ name <> "FAB-A" /\ name <> "FAB-B"
       /\ exists row, In row data /\ Fabric row = Some name) ->
      In name (invalidFabrics data))
  /\ forall name,
       In name (invalidFabrics data) ->
       name <> "" /\ name <> "FAB-A" /\ name <> "FAB-B"
       /\ exists row, In row data /\ Fabric row = Some name.
Proof.
  unfold invalidFabrics. split; intros name; rewrite first_occurrences_only_In, in_map_iff.
  - intros (Hne & HA & HB & row & Hrow & Hfab).
    exists (Some name). split; [ reflexivity | ].
    apply filter_In. split.
    + apply in_map_iff. now exists row.
    + apply invalid_fabric_value. now exists name.
  - intros [fab [<- Hin]]. apply filter_In in Hin. destruct Hin as [Hin Hp].
    apply in_map_iff in Hin. destruct Hin as [row [<- Hrow]].
    apply invalid_fabric_value in Hp. destruct Hp as (s & Hs & Hne & HA & HB).
    rewrite Hs. cbn [ToString]. repeat split; try assumption. now exists row.
Qed.

(** The values that [validateExcelStructure] reports as invalid are, each
    once, the [Fabric] values of the rows that are not empty and are neither
    'FAB-A' nor 'FAB-B'. *)
Theorem invalidFabrics_listing (data : list FabricData) :
  NoDup (invalidFabrics data)
  /\ forall name,
       In name (invalidFabrics data)
       <-> (name <> "" /\ name <> "FAB-A" /\ name <> "FAB-B"
            /\ exists row, In row data /\ Fabric row = Some name).
Proof.
  split; [ unfold invalidFabrics; apply first_occurrences_only_NoDup | ].
  destruct (invalidFabrics_content data) as [Hall Hnone].
  intros name. split; [ apply Hnone | apply Hall ].
Qed.

Lemma invalidFabrics_nil (data : list FabricData) :
  invalidFabrics data = []
  <-> forall row,
        In row data ->
        Fabric row = None \/ Fabric row = Some ""
        \/ Fabric row = Some "FAB-A" \/ Fabric row = Some "FAB-B".
Proof.
  destruct (invalidFabrics_content data) as [Hall Hnone].
  split.
  - intros Hnil row Hrow.
    destruct (Fabric row) as [ fab | ] eqn:Hfab; [ | now left ].
    destruct (string_dec fab "") as [ -> | Hne ]; [ right; now left | ].
    destruct (string_dec fab "FAB-A") as [ -> | HA ]; [ right; right; now left | ].
    destruct (string_dec fab "FAB-B") as [ -> | HB ]; [ right; right; now right | ].
    exfalso. assert (Hin : In fab (invalidFabrics data)).
    { apply Hall. repeat split; try assumption. now exists row. }
    rewrite Hnil in Hin. exact Hin.
  - intros Hrows. destruct (invalidFabrics data) as [ | fab rest ] eqn:Hl;
      [ reflexivity | exfalso ].
    assert (Hin : In fab (fab :: rest)) by now left.
    apply Hnone in Hin. destruct Hin as (Hne & HA & HB & row & Hrow & Hfab).
    destruct (Hrows row Hrow) as [ H | [ H | [ H | H ] ] ]; congruence.
Qed.

Lemma hasOwnProperty_required (row : FabricData) :
  hasOwnProperty row "Fabric" = match Fabric row with Some _ => true | None => false end
  /\ hasOwnProperty row "Alias" = match Alias row with Some _ => true | None => false end
  /\ hasOwnProperty row "Logged In"
     = match Logged_In row with Some _ => true | None => false end.
Proof. repeat split. Qed.

Lemma validateExcelStructure_valid (data : list FabricData) :
  isValid (validateExcelStructure data) = true
  <-> (exists sampleRow rest,
          data = sampleRow :: rest
          /\ Fabric sampleRow <> None /\ Alias sampleRow <> None
          /\ Logged_In sampleRow <> None)
      /\ forall row,
           In row data ->
           Fabric row = None \/ Fabric row = Some ""
           \/ Fabric row = Some "FAB-A" \/ Fabric row = Some "FAB-B".
Proof.
  destruct data as [ | sampleRow rest ].
  - cbn. split; [ discriminate | intros [(s & r & H & _) _]; discriminate ].
  - rewrite <- invalidFabrics_nil.
    unfold validateExcelStructure. cbn [fold_left requiredColumns].
    destruct (hasOwnProperty_required sampleRow) as (-> & -> & ->).
    destruct (Fabric sampleRow) as [ f | ] eqn:Hf;
      destruct (Alias sampleRow) as [ a | ] eqn:Ha;
      destruct (Logged_In sampleRow) as [ l | ] eqn:Hl;
      destruct (invalidFabrics (sampleRow :: rest)) as [ | bad others ] eqn:Hinv;
      cbn; (split; [ try discriminate | ]);
      try (intros [(s & r & Heq & H1 & H2 & H3) Hnil];
           injection Heq as <- <-; try congruence; try discriminate).
    intros _. split; [ | reflexivity ].
    exists sampleRow, rest. rewrite Hf, Ha, Hl. repeat split; discriminate.
Qed.



(** ** The upload *)

Lemma count_rows_all (p : FabricData -> bool) (rows : list FabricData) :
  (forall entry, In entry rows -> p entry = true) ->
  count_rows p rows = length_of rows.
Proof.
  intros H. unfold count_rows. now rewrite filter_all.
Qed.

Lemma count_rows_pos (p : FabricData -> bool) (rows : list FabricData)
  (entry : FabricData) :
  In entry rows -> p entry = true -> 0 < count_rows p rows.
Proof.
  intros Hin Hp. unfold count_rows, length_of.
  assert (Hf : In entry (filter p rows)) by (apply filter_In; split; assumption).
  destruct (filter p rows); [ destruct Hf | cbn [List.length]; lia ].
Qed.

(** What a sheet that was read and accepted gives the validator. *)
Lemma accepted_sheet_rows (jsonData : list (list cell)) (data : list FabricData) :
  readExcelFile jsonData = Resolved data ->
  isValid (validateExcelStructure data) = true ->
  Forall (fun entry => has_receivers entry = true) data
  /\ forall entry,
       In entry data ->
       on_fabric "FAB-A" entry || on_fabric "FAB-B" entry = true.
Proof.
  intros Hread Hvalid.
  apply validateExcelStructure_valid in Hvalid.
  destruct Hvalid as [(sampleRow & rest & Hdata & _ & _ & Hlogged) Hfabrics].
  pose proof (readExcelFile_items jsonData data Hread) as Hitems.
  assert (Hheader : In (Some "Logged In") (nth 0 jsonData [])).
  { destruct (Hitems sampleRow) as (_ & _ & _ & Hl & _).
    - rewrite Hdata. now left.
    - now apply Hl. }
  split.
  - apply Forall_forall. intros entry Hin.
    destruct (Hitems entry Hin) as (_ & _ & (alias & Ha & _) & Hl & _).
    unfold has_receivers. rewrite Ha.
    apply Hl in Hheader. destruct (Logged_In entry); [ reflexivity | congruence ].
  - intros entry Hin.
    destruct (Hitems entry Hin) as (_ & (fab & Hf & Hne) & _).
    unfold on_fabric.
    destruct (Hfabrics entry Hin) as [ H | [ H | [ H | H ] ] ];
      rewrite H in *; try congruence; try reflexivity.
Qed.


(** * The storage mapping *)

(** ** The names of servers and storages *)

Lemma span_drop (class : ascii -> bool) (s : string) :
  forall k,
    (k < span class s)%nat ->
    exists c r, string_drop k s = String c r /\ class c = true.
Proof.
  induction s as [ | c r IH ]; intros k Hk; cbn in Hk; [ lia | ].
  destruct (class c) eqn:Hc; [ | lia ].
  destruct k as [ | k ]; cbn.
  - now exists c, r.
  - apply IH. lia.
Qed.

Lemma zone_tail_head (rest : string) :
  zone_tail rest = true ->
  rest = EmptyString \/ exists c r, rest = String c r /\ is_underscore c = true.
Proof.
  unfold zone_tail. destruct rest as [ | c r ]; [ now left | ].
  cbn [at_end]. rewrite orb_false_r. intros H.
  apply andb_true_iff in H. right. exists c, r. tauto.
Qed.

Lemma alias_tail_head (rest : string) :
  alias_tail rest = true ->
  rest = EmptyString \/ exists c r, rest = String c r /\ is_underscore c = true.
Proof.
  destruct rest as [ | c r ]; [ now left | ].
  intros H. right. exists c, r. split; [ reflexivity | ].
  destruct (is_underscore c) eqn:Hu; [ reflexivity | ].
  unfold alias_tail in H.
  destruct r as [ | c1 [ | c2 r ] ]; rewrite Hu in H; cbn in H; discriminate.
Qed.

(** A tail that starts with an underscore, or is empty, starts exactly where
    the characters that are not underscores stop. *)
Lemma tail_at_span (s : string) (k : nat) :
  (k <= span not_underscore s)%nat ->
  (string_drop k s = EmptyString
   \/ exists c r, string_drop k s = String c r /\ is_underscore c = true) ->
  k = span not_underscore s.
Proof.
  intros Hle Htail.
  destruct (Nat.eq_dec k (span not_underscore s)) as [ | Hne ]; [ assumption | ].
  destruct (span_drop not_underscore s k) as (c & r & Hdrop & Hc); [ lia | ].
  unfold not_underscore in Hc. apply negb_true_iff in Hc.
  destruct Htail as [ H | (c' & r' & H & Hu) ]; rewrite Hdrop in H.
  - discriminate.
  - inversion H; subst. congruence.
Qed.

Lemma zone_match_group (zone : string) :
  forall n group1,
    (n <= span not_underscore zone)%nat ->
    zone_match n zone = Some group1 ->
    group1 = before_first_underscore zone.
Proof.
  induction n as [ | k IH ]; intros group1 Hle; cbn [zone_match]; [ discriminate | ].
  destruct (zone_tail (string_drop (S k) zone)) eqn:Htail.
  - intros H. injection H as <-. unfold before_first_underscore.
    assert (Heq : S k = span not_underscore zone)
      by (apply tail_at_span; [ exact Hle | now apply zone_tail_head ]).
    now rewrite <- Heq.
  - apply IH. lia.
Qed.

Lemma alias_match_group (alias : string) :
  forall n k group1,
    (k + n <= span not_underscore alias)%nat ->
    alias_match n k alias = Some group1 ->
    group1 = before_first_underscore alias.
Proof.
  induction n as [ | n IH ]; intros k group1 Hle; cbn [alias_match];
    destruct (alias_tail (string_drop k alias)) eqn:Htail;
    try discriminate;
    try (intros H; injection H as <-; unfold before_first_underscore;
         assert (Heq : k = span not_underscore alias)
           by (apply tail_at_span; [ lia | now apply alias_tail_head ]);
         now rewrite <- Heq).
  apply IH. lia.
Qed.

Lemma span_no_underscore (prefix tail : string) :
  no_underscore prefix ->
  (tail = EmptyString \/ exists rest, tail = String "_" rest) ->
  span not_underscore (prefix ++ tail)%string = String.length prefix.
Proof.
  intros Hno Htail. induction prefix as [ | c r IH ]; cbn.
  - destruct Htail as [ -> | [rest ->] ]; reflexivity.
  - destruct Hno as [Hc Hr]. unfold not_underscore at 1. unfold is_underscore.
    apply Ascii.eqb_neq in Hc. rewrite Hc. cbn. now rewrite IH.
Qed.

Lemma string_take_length (prefix tail : string) :
  string_take (String.length prefix) (prefix ++ tail)%string = prefix.
Proof.
  induction prefix as [ | c r IH ]; cbn.
  - now destruct tail.
  - now rewrite IH.
Qed.

Lemma before_first_underscore_prefix (prefix rest : string) :
  no_underscore prefix ->
  before_first_underscore (prefix ++ String "_" rest)%string = prefix.
Proof.
  intros Hno. unfold before_first_underscore.
  rewrite span_no_underscore; [ apply string_take_length | exact Hno | eauto ].
Qed.

Lemma before_first_underscore_whole (s : string) :
  no_underscore s -> before_first_underscore s = s.
Proof.
  intros Hno. unfold before_first_underscore.
  pose proof (span_no_underscore s EmptyString Hno (or_introl eq_refl)) as Hspan.
  pose proof (string_take_length s EmptyString) as Htake.
  assert (Happ : (s ++ "")%string = s)
    by (clear; induction s as [ | c r IH ]; cbn; [ reflexivity | now rewrite IH ]).
  rewrite Happ in Hspan, Htake. now rewrite Hspan.
Qed.

(** [extractServerFromZone] gives 'Unknown' for the empty zone and else the
    text before the first underscore, whatever follows it: the digits that
    the pattern asks for make no difference.  So a zone [server_rest] gives
    [server], a zone without underscore gives itself, and a zone that
    starts with an underscore gives the empty name. *)
Theorem extractServerFromZone_first_underscore :
  (forall zone,
      extractServerFromZone zone
      = if String.eqb zone "" then "Unknown" else before_first_underscore zone)
  /\ (forall server rest,
         no_underscore server -> server <> "" ->
         extractServerFromZone (server ++ "_" ++ rest)%string = server)
  /\ (forall zone,
         no_underscore zone -> zone <> "" -> extractServerFromZone zone = zone)
  /\ forall rest, extractServerFromZone (String "_" rest) = "".
Proof.
  assert (Hall : forall zone,
             extractServerFromZone zone
             = if String.eqb zone "" then "Unknown"
               else before_first_underscore zone).
  { intros zone. unfold extractServerFromZone.
    destruct (String.eqb zone ""); [ reflexivity | ].
    destruct (zone_match (span not_underscore zone) zone) as [ group1 | ] eqn:Hm;
      [ | reflexivity ].
    apply (zone_match_group zone _ _ (Nat.le_refl _) Hm). }
  split; [ exact Hall | ]. split; [ | split ].
  - intros server rest Hno Hne. rewrite Hall.
    destruct server as [ | c r ]; [ congruence | ].
    cbn [String.append String.eqb].
    apply (before_first_underscore_prefix (String c r) rest Hno).
  - intros zone Hno Hne. rewrite Hall.
    destruct zone as [ | c r ]; [ congruence | ].
    cbn [String.eqb]. now apply before_first_underscore_whole.
  - intros rest. rewrite Hall. reflexivity.
Qed.

Lemma extractServerFromZone_first_underscore_witness :
  extractServerFromZone "wamrpgp1_2_gpibox01_pg01" = "wamrpgp1"
  /\ extractServerFromZone "wamrpgp1" = "wamrpgp1".
Proof.
  split.
  - apply (proj1 (proj2 extractServerFromZone_first_underscore)
             "wamrpgp1" "2_gpibox01_pg01").
    + cbn. repeat split; discriminate.
    + discriminate.
  - apply (proj1 (proj2 (proj2 extractServerFromZone_first_underscore)) "wamrpgp1").
    + cbn. repeat split; discriminate.
    + discriminate.
Defined.

(** [extractStorageFromAlias] gives 'Unknown' for no alias and for the
    empty one, and else the text before the first underscore, whatever the
    suffix.  On an alias [host_port] with one underscore it is the host
    that the validator derives; on an alias with more underscores the
    validator keeps all but the last part. *)
Theorem extractStorageFromAlias_first_underscore :
  (forall alias,
      extractStorageFromAlias alias
      = match alias with
        | None => "Unknown"
        | Some text =>
            if String.eqb text "" then "Unknown" else before_first_underscore text
        end)
  /\ (forall storage rest,
         no_underscore storage -> storage <> "" ->
         extractStorageFromAlias (Some (storage ++ "_" ++ rest)%string) = storage)
  /\ (forall host port,
         no_underscore host -> no_underscore port -> host <> "" ->
         extractStorageFromAlias (Some (host ++ "_" ++ port)%string)
         = extractHostName (host ++ "_" ++ port)%string).
Proof.
  assert (Hall : forall alias,
             extractStorageFromAlias alias
             = match alias with
               | None => "Unknown"
               | Some text =>
                   if String.eqb text "" then "Unknown"
                   else before_first_underscore text
               end).
  { intros [ text | ]; [ | reflexivity ]. unfold extractStorageFromAlias.
    destruct (String.eqb text ""); [ reflexivity | ].
    destruct (span not_underscore text) as [ | n ] eqn:Hspan; [ reflexivity | ].
    destruct (alias_match n 1 text) as [ group1 | ] eqn:Hm; [ | reflexivity ].
    apply (alias_match_group text n 1 group1); [ lia | exact Hm ]. }
  assert (Hprefix : forall storage rest,
             no_underscore storage -> storage <> "" ->
             extractStorageFromAlias (Some (storage ++ "_" ++ rest)%string)
             = storage).
  { intros storage rest Hno Hne. rewrite Hall.
    destruct storage as [ | c r ]; [ congruence | ].
    cbn [String.append String.eqb].
    apply (before_first_underscore_prefix (String c r) rest Hno). }
  split; [ exact Hall | ]. split; [ exact Hprefix | ].
  intros host port Hhost Hport Hne. rewrite (Hprefix host port Hhost Hne).
  unfold extractHostName. symmetry. now apply replace_port_suffix_last.
Qed.

Lemma extractStorageFromAlias_first_underscore_witness :
  extractStorageFromAlias (Some "gpibox01_n1fc1") = "gpibox01"
  /\ extractStorageFromAlias (Some "gpibox01_n1fc1") = extractHostName "gpibox01_n1fc1".
Proof.
  split.
  - apply (proj1 (proj2 extractStorageFromAlias_first_underscore) "gpibox01" "n1fc1").
    + cbn. repeat split; discriminate.
    + discriminate.
  - apply (proj2 (proj2 extractStorageFromAlias_first_underscore) "gpibox01" "n1fc1").
    + cbn. repeat split; discriminate.
    + cbn. repeat split; discriminate.
    + discriminate.
Defined.

(** ** The map of servers *)

Section Assoc.
Variable V : Type.

Lemma assoc_get_set (m : list (string * V)) (key key' : string) (value : V) :
  assoc_get (assoc_set m key value) key'
  = if String.eqb key key' then Some value else assoc_get m key'.
Proof.
  induction m as [ | [k v] rest IH ]; cbn.
  - reflexivity.
  - destruct (String.eqb_spec k key) as [ -> | Hk ]; cbn.
    + destruct (String.eqb key key'); reflexivity.
    + rewrite IH. destruct (String.eqb_spec key key') as [ <- | Hk' ].
      * apply String.eqb_neq in Hk. now rewrite Hk.
      * reflexivity.
Qed.

Lemma assoc_get_None (m : list (string * V)) (key : string) :
  assoc_get m key = None <-> ~ In key (map fst m).
Proof.
  induction m as [ | [k v] rest IH ]; cbn.
  - tauto.
  - destruct (String.eqb_spec k key) as [ -> | Hk ].
    + split; [ discriminate | intros H; exfalso; auto ].
    + rewrite IH. tauto.
Qed.

Lemma assoc_set_keys (m : list (string * V)) (key : string) (value : V) :
  map fst (assoc_set m key value)
  = match assoc_get m key with
    | Some _ => map fst m
    | None => map fst m ++ [key]
    end.
Proof.
  induction m as [ | [k v] rest IH ]; cbn.
  - reflexivity.
  - destruct (String.eqb_spec k key) as [ -> | Hk ]; cbn.
    + reflexivity.
    + rewrite IH. now destruct (assoc_get rest key).
Qed.

Lemma assoc_set_keys_NoDup (m : list (string * V)) (key : string) (value : V) :
  NoDup (map fst m) -> NoDup (map fst (assoc_set m key value)).
Proof.
  intros H. rewrite assoc_set_keys.
  destruct (assoc_get m key) eqn:Hget; [ assumption | ].
  apply assoc_get_None in Hget.
  apply NoDup_app; [ assumption | repeat constructor; intros [] | ].
  intros k Hk [ <- | [] ]. contradiction.
Qed.

Lemma assoc_get_In (m : list (string * V)) (key : string) (value : V) :
  NoDup (map fst m) -> In (key, value) m -> assoc_get m key = Some value.
Proof.
  induction m as [ | [k v] rest IH ]; cbn; [ tauto | ].
  intros Hnd [ Heq | Hin ].
  - inversion Heq; subst. now rewrite String.eqb_refl.
  - inversion Hnd as [ | x xs Hx Hxs ]; subst.
    destruct (String.eqb_spec k key) as [ -> | Hk ].
    + exfalso. apply Hx. apply in_map_iff. now exists (key, value).
    + now apply IH.
Qed.

Lemma assoc_get_Some_In (m : list (string * V)) (key : string) (value : V) :
  assoc_get m key = Some value -> In (key, value) m.
Proof.
  induction m as [ | [k v] rest IH ]; cbn; [ discriminate | ].
  destruct (String.eqb_spec k key) as [ -> | Hk ].
  - intros H. inversion H. auto.
  - auto.
Qed.
End Assoc.

Lemma storage_step_get (groups : list (string * GroupedMapping))
  (entry : FabricData) (name : string) :
  group_or_new (assoc_get (storage_step groups entry) name) name
  = observe_group name (group_or_new (assoc_get groups name) name) entry.
Proof.
  unfold storage_step, observe_group, contributes.
  destruct (is_storage_wwn (Member_WWN entry)); cbn [andb]; [ | reflexivity ].
  set (target := extractServerFromZone (zone_or_empty entry)).
  destruct (assoc_get groups target) as [ group | ] eqn:Hget.
  - rewrite Hget, assoc_get_set.
    destruct (String.eqb_spec target name) as [ <- | Hne ]; [ | reflexivity ].
    now rewrite Hget.
  - rewrite assoc_get_set, String.eqb_refl, assoc_get_set.
    destruct (String.eqb_spec target name) as [ <- | Hne ].
    + now rewrite Hget.
    + rewrite assoc_get_set. apply String.eqb_neq in Hne. now rewrite Hne.
Qed.

Lemma storage_step_keys (groups : list (string * GroupedMapping))
  (entry : FabricData) (name : string) :
  In name (map fst (storage_step groups entry))
  <-> In name (map fst groups) \/ contributes name entry = true.
Proof.
  unfold storage_step, contributes.
  destruct (is_storage_wwn (Member_WWN entry)); cbn [andb];
    [ | split; [ auto | intros [ H | H ]; [ exact H | discriminate ] ] ].
  set (target := extractServerFromZone (zone_or_empty entry)).
  rewrite String.eqb_eq.
  destruct (assoc_get groups target) as [ group | ] eqn:Hget.
  - rewrite Hget, assoc_set_keys, Hget.
    split; [ auto | intros [ H | <- ]; [ exact H | ] ].
    apply assoc_get_Some_In in Hget. apply in_map_iff. now exists (target, group).
  - rewrite assoc_get_set, String.eqb_refl, !assoc_set_keys, Hget,
      assoc_get_set, String.eqb_refl.
    rewrite in_app_iff. cbn. intuition.
Qed.

Lemma storage_step_NoDup (groups : list (string * GroupedMapping))
  (entry : FabricData) :
  NoDup (map fst groups) -> NoDup (map fst (storage_step groups entry)).
Proof.
  intros H. unfold storage_step.
  destruct (is_storage_wwn (Member_WWN entry)); [ | exact H ].
  set (target := extractServerFromZone (zone_or_empty entry)).
  destruct (assoc_get groups target) as [ group | ] eqn:Hget.
  - rewrite Hget. now apply assoc_set_keys_NoDup.
  - rewrite assoc_get_set, String.eqb_refl.
    now apply assoc_set_keys_NoDup, assoc_set_keys_NoDup.
Qed.

Lemma grouped_storage_entries (rows : list FabricData) (name : string)
  (group : GroupedMapping) :
  In (name, group) (fold_left storage_step rows [])
  <-> (exists entry, In entry rows /\ contributes name entry = true)
      /\ group = group_of name rows.
Proof.
  assert (Hgen : forall groups,
             (NoDup (map fst groups) ->
              NoDup (map fst (fold_left storage_step rows groups)))
             /\ (In name (map fst (fold_left storage_step rows groups))
                 <-> In name (map fst groups)
                     \/ exists entry, In entry rows /\ contributes name entry = true)
             /\ group_or_new (assoc_get (fold_left storage_step rows groups) name) name
                = fold_left (observe_group name) rows
                    (group_or_new (assoc_get groups name) name)).
  { induction rows as [ | e rest IH ]; intros groups; cbn [fold_left].
    - split; [ auto | ]. split; [ | reflexivity ].
      split; [ auto | intros [ H | [entry [[] _]] ]; exact H ].
    - destruct (IH (storage_step groups e)) as (Hnd & Hkeys & Hget).
      split; [ intros H; now apply Hnd, storage_step_NoDup | ].
      split.
      + rewrite Hkeys, storage_step_keys. split.
        * intros [ [ H | H ] | [entry [Hin Hc]] ].
          -- now left.
          -- right. exists e. split; [ now left | exact H ].
          -- right. exists entry. split; [ now right | exact Hc ].
        * intros [ H | [entry [[ <- | Hin ] Hc]] ].
          -- left. now left.
          -- left. now right.
          -- right. now exists entry.
      + now rewrite Hget, storage_step_get. }
  destruct (Hgen []) as (Hnd & Hkeys & Hget).
  specialize (Hnd (NoDup_nil _)). cbn in Hkeys, Hget.
  fold (group_of name rows) in Hget.
  split.
  - intros Hin. split.
    + assert (Hk : In name (map fst (fold_left storage_step rows [])))
        by (apply in_map_iff; now exists (name, group)).
      apply Hkeys in Hk. destruct Hk as [ [] | Hk ]. exact Hk.
    + apply (assoc_get_In _ _ _ _ Hnd) in Hin. rewrite Hin in Hget. exact Hget.
  - intros [Hex ->].
    assert (Hk : In name (map fst (fold_left storage_step rows [])))
      by (apply Hkeys; now right).
    apply in_map_iff in Hk. destruct Hk as [[k v] [Hfst Hin]]. cbn in Hfst. subst k.
    pose proof (assoc_get_In _ _ _ _ Hnd Hin) as Hv. rewrite Hv in Hget.
    cbn in Hget. now subst v.
Qed.

(** The mappings are those of the servers of the storage rows. *)
Lemma groupedMappings_In (localeCompare : string -> string -> Z)
  (data : list FabricData) (m : GroupedMapping) :
  In m (groupedMappings localeCompare data)
  <-> exists name,
        (exists entry, In entry data /\ contributes name entry = true)
        /\ m = count_ports (group_of name data).
Proof.
  unfold groupedMappings. rewrite sort_In, in_map_iff. split.
  - intros [[name group] [<- Hin]]. apply grouped_storage_entries in Hin.
    destruct Hin as [Hex ->]. now exists name.
  - intros [name [Hex ->]]. exists (name, group_of name data).
    split; [ reflexivity | ]. now apply grouped_storage_entries.
Qed.

(** ** The group of a server *)

Lemma group_of_snoc (name : string) (rows : list FabricData) (entry : FabricData) :
  group_of name (rows ++ [entry]) = observe_group name (group_of name rows) entry.
Proof. unfold group_of. now rewrite fold_left_app. Qed.

Lemma count_rows_snoc (p : FabricData -> bool) (rows : list FabricData)
  (entry : FabricData) :
  count_rows p (rows ++ [entry]) = count_rows p rows + (if p entry then 1 else 0).
Proof.
  unfold count_rows, length_of. rewrite filter_app, length_app. cbn [filter].
  destruct (p entry); cbn [List.length]; lia.
Qed.

Lemma group_of_server (name : string) (rows : list FabricData) :
  server (group_of name rows) = name.
Proof.
  induction rows as [ | e rest IH ] using rev_ind; [ reflexivity | ].
  rewrite group_of_snoc. unfold observe_group.
  destruct (contributes name e); [ exact IH | exact IH ].
Qed.

Lemma group_of_wwns (name : string) (rows : list FabricData) :
  mapping_wwns (group_of name rows)
  = map storage_entry (filter (contributes name) rows).
Proof.
  induction rows as [ | e rest IH ] using rev_ind; [ reflexivity | ].
  rewrite group_of_snoc, filter_app, map_app. unfold observe_group. cbn [filter].
  destruct (contributes name e); cbn [map mapping_wwns update_group].
  - now rewrite IH.
  - now rewrite app_nil_r.
Qed.

Lemma group_of_health (name : string) (rows : list FabricData) :
  notLoggedInCount (group_of name rows) = count_rows (path_down name) rows
  /\ (health (group_of name rows) = health_ERROR
      <-> 0 < count_rows (path_down name) rows).
Proof.
  induction rows as [ | e rest [IHc IHh] ] using rev_ind.
  - cbn. split; [ reflexivity | split; [ discriminate | lia ] ].
  - rewrite group_of_snoc, count_rows_snoc. unfold observe_group, path_down at 2 4.
    assert (Hpos : 0 <= count_rows (path_down name) rest)
      by (unfold count_rows, length_of; lia).
    destruct (contributes name e); cbn [andb].
    + cbn [update_group notLoggedInCount health].
      destruct (entry_loggedIn e); cbn [negb].
      * split; [ lia | ]. rewrite IHh. split; lia.
      * split; [ lia | ]. split; [ lia | reflexivity ].
    + split; [ lia | ]. rewrite IHh. split; lia.
Qed.

(** In every mapping of [groupedMappings], the health is 'ERROR' exactly
    when [notLoggedInCount] is positive, which is when a storage row of the
    server is not logged in; [notLoggedInCount] is the number of those
    rows, and the health is 'OK' exactly when every entry of [wwns] is
    logged in. *)
Theorem groupedMappings_health (localeCompare : string -> string -> Z)
  (data : list FabricData) (m : GroupedMapping) :
  In m (groupedMappings localeCompare data) ->
  notLoggedInCount m = count_rows (path_down (server m)) data
  /\ (health m = health_ERROR <-> 0 < notLoggedInCount m)
  /\ (health m = health_OK
      <-> forall w, In w (mapping_wwns m) -> storage_isLoggedIn w = true).
Proof.
  intros Hm. apply groupedMappings_In in Hm. destruct Hm as [name [_ ->]].
  cbn [count_ports notLoggedInCount health server mapping_wwns].
  rewrite group_of_server, group_of_wwns.
  destruct (group_of_health name data) as [Hc Hh].
  split; [ exact Hc | ]. split; [ now rewrite Hc | ].
  assert (Hdown : 0 < count_rows (path_down name) data
                  <-> exists e, In e data /\ path_down name e = true).
  { unfold count_rows, length_of. split.
    - intros Hpos. destruct (filter (path_down name) data) as [ | e rest ] eqn:Hf;
        [ cbn in Hpos; lia | ].
      exists e. apply filter_In. rewrite Hf. now left.
    - intros [e [Hin Hp]]. assert (Hf : In e (filter (path_down name) data))
        by (apply filter_In; split; assumption).
      destruct (filter (path_down name) data); [ destruct Hf | cbn [List.length]; lia ]. }
  split.
  - intros Hok w Hw. apply in_map_iff in Hw. destruct Hw as [e [<- He]].
    apply filter_In in He. destruct He as [Hin Hc'].
    cbn [storage_entry storage_isLoggedIn].
    destruct (entry_loggedIn e) eqn:Hl; [ reflexivity | exfalso ].
    assert (Herr : health (group_of name data) = health_ERROR).
    { apply Hh, Hdown. exists e. split; [ exact Hin | ].
      unfold path_down. now rewrite Hc', Hl. }
    congruence.
  - intros Hall. destruct (health (group_of name data)) eqn:Hhealth; [ reflexivity | ].
    exfalso. destruct (proj1 Hdown (proj1 Hh eq_refl)) as [e [Hin Hp]].
    unfold path_down in Hp. apply andb_true_iff in Hp. destruct Hp as [Hc' Hl].
    assert (Hw : storage_isLoggedIn (storage_entry e) = true).
    { apply Hall. apply in_map. apply filter_In. split; assumption. }
    cbn in Hw. rewrite Hw in Hl. discriminate.
Qed.

Lemma groupedMappings_health_witness :
  exists m,
    In m (groupedMappings localeCompare_root
            [ {| Fabric := Some "FAB-A"; Zone_Configuration := None;
                 Zone_Configuration_Status := Some "";
                 Zone := Some "wamrpgp1_2_gpibox01_pg01"; Zone_Type := None;
                 Alias := Some "gpibox01_n1fc1"; Alias_Type := Some "";
                 Member_WWN := Some "50:05:07:68:0b:21:4f:d0";
                 Peer_Zone_Member_Type := None; Port_Role := None;
                 Logged_In := Some "No"; Vendor := Some "IBM";
                 Slot_Port := None |} ])
    /\ notLoggedInCount m = 1 /\ 0 < notLoggedInCount m.
Proof.
  match goal with
  | |- exists m, In m (groupedMappings _ ?l) /\ _ => set (data := l)
  end.
  assert (Hin : In (count_ports (group_of "wamrpgp1" data))
                  (groupedMappings localeCompare_root data))
    by (vm_compute; left; reflexivity).
  exists (count_ports (group_of "wamrpgp1" data)). split; [ exact Hin | ].
  destruct (groupedMappings_health localeCompare_root data _ Hin) as (Hc & Hh & _).
  split; [ rewrite Hc; reflexivity | ].
  apply Hh. reflexivity.
Defined.

Lemma groupedMappings_servers (localeCompare : string -> string -> Z)
  (data : list FabricData) :
  Permutation (map server (groupedMappings localeCompare data))
    (map fst (fold_left storage_step data []))
  /\ NoDup (map fst (fold_left storage_step data []))
  /\ forall name,
       In name (map fst (fold_left storage_step data []))
       <-> exists entry, In entry data /\ contributes name entry = true.
Proof.
  split; [ | split ].
  - unfold groupedMappings.
    rewrite (Permutation_map server (sort_Permutation _ _ _)), map_map.
    rewrite (map_ext_in _ fst); [ reflexivity | ].
    intros [name group] Hin. apply grouped_storage_entries in Hin.
    destruct Hin as [_ ->]. cbn. apply group_of_server.
  - assert (Hgen : forall rows groups,
               NoDup (map fst groups) ->
               NoDup (map fst (fold_left storage_step rows groups))).
    { induction rows as [ | e rest IH ]; intros groups H; cbn; [ exact H | ].
      now apply IH, storage_step_NoDup. }
    apply Hgen. constructor.
  - intros name. split.
    + intros Hin. apply in_map_iff in Hin. destruct Hin as [[k group] [Hk Hin]].
      cbn in Hk. subst k. now apply grouped_storage_entries in Hin.
    + intros Hex. apply in_map_iff. exists (name, group_of name data).
      split; [ reflexivity | ]. now apply grouped_storage_entries.
Qed.

Lemma sum_count_by_server (names : list string) (rows : list FabricData) :
  NoDup names ->
  (forall entry name, In entry rows -> contributes name entry = true -> In name names) ->
  sum_Z (map (fun k => count_rows (contributes k) rows) names)
  = count_rows (fun entry => is_storage_wwn (Member_WWN entry)) rows.
Proof.
  intros Hnd. induction rows as [ | entry rest IH ]; intros Hall.
  - clear. induction names as [ | k ks IHk ]; [ reflexivity | ].
    cbn [map]. rewrite sum_Z_cons, IHk. reflexivity.
  - rewrite count_rows_cons, <- IH
      by (intros e name He; apply Hall; now right).
    set (target := extractServerFromZone (zone_or_empty entry)).
    rewrite (map_ext _ (fun k =>
               (if String.eqb target k
                then (if is_storage_wwn (Member_WWN entry) then 1 else 0) else 0)
               + count_rows (contributes k) rest)).
    + rewrite sum_Z_map_add.
      destruct (is_storage_wwn (Member_WWN entry)) eqn:Hs.
      * rewrite sum_Z_indicator; [ reflexivity | exact Hnd | ].
        apply (Hall entry target); [ now left | ].
        unfold contributes. rewrite Hs. apply String.eqb_refl.
      * f_equal. clear. induction names as [ | k ks IHk ]; [ reflexivity | ].
        cbn [map]. rewrite sum_Z_cons, IHk. now destruct (String.eqb target k).
    + intros k. rewrite count_rows_cons. unfold contributes at 1. fold target.
      destruct (is_storage_wwn (Member_WWN entry)); cbn [andb];
        destruct (String.eqb target k); reflexivity.
Qed.

(** [groupedMappings] has one mapping per server of a storage row, a row
    whose WWN starts with '5'.  The [wwns] of a mapping are the WWN and the
    flag of each storage row of its server, in the order of the rows and
    with no row left out, so a row that is repeated is listed again; no
    mapping is without an entry, and the entries of all mappings together
    are as many as the storage rows. *)
Theorem groupedMappings_wwns (localeCompare : string -> string -> Z)
  (data : list FabricData) :
  let mappings := groupedMappings localeCompare data in
  NoDup (map server mappings)
  /\ (forall name,
         In name (map server mappings)
         <-> exists entry, In entry data /\ contributes name entry = true)
  /\ (forall m,
         In m mappings ->
         mapping_wwns m = map storage_entry (filter (contributes (server m)) data)
         /\ mapping_wwns m <> [])
  /\ sum_Z (map (fun m => length_of (mapping_wwns m)) mappings)
     = count_rows (fun entry => is_storage_wwn (Member_WWN entry)) data.
Proof.
  cbv zeta.
  destruct (groupedMappings_servers localeCompare data) as (Hperm & Hnd & Hkeys).
  assert (Hwwns : forall m,
             In m (groupedMappings localeCompare data) ->
             mapping_wwns m
             = map storage_entry (filter (contributes (server m)) data)
             /\ mapping_wwns m <> []).
  { intros m Hm. apply groupedMappings_In in Hm.
    destruct Hm as [name [[entry [Hin Hc]] ->]].
    cbn [count_ports mapping_wwns server].
    rewrite group_of_server, group_of_wwns. split; [ reflexivity | ].
    assert (Hf : In entry (filter (contributes name) data))
      by (apply filter_In; split; assumption).
    destruct (filter (contributes name) data); [ destruct Hf | discriminate ]. }
  split; [ apply (Permutation_NoDup (Permutation_sym Hperm) Hnd) | ].
  split.
  { intros name. rewrite <- Hkeys. split; apply Permutation_in;
      [ exact Hperm | exact (Permutation_sym Hperm) ]. }
  split; [ exact Hwwns | ].
  rewrite (map_ext_in _ (fun m => count_rows (contributes (server m)) data)).
  - rewrite <- (map_map server (fun k => count_rows (contributes k) data)).
    rewrite (sum_Z_Permutation _ _
               (Permutation_map (fun k => count_rows (contributes k) data) Hperm)).
    apply sum_count_by_server; [ exact Hnd | ].
    intros entry name Hin Hc. apply Hkeys. now exists entry.
  - intros m Hm. destruct (Hwwns m Hm) as [-> _].
    unfold count_rows, length_of. now rewrite length_map.
Qed.

(** ** The ports of a server *)

Lemma assoc_get_map (h : string -> bool) (l : list string) (key : string) :
  assoc_get (map (fun p => (p, h p)) l) key
  = if in_dec string_dec key l then Some (h key) else None.
Proof.
  induction l as [ | p rest IH ]; cbn [map assoc_get]; [ reflexivity | ].
  destruct (String.eqb_spec p key) as [ -> | Hne ].
  - destruct (in_dec string_dec key (key :: rest)) as [ _ | Hno ];
      [ reflexivity | exfalso; apply Hno; now left ].
  - rewrite IH.
    destruct (in_dec string_dec key rest) as [ Hin | Hno ];
      destruct (in_dec string_dec key (p :: rest)) as [ Hin' | Hno' ];
      try reflexivity.
    + exfalso. apply Hno'. now right.
    + exfalso. destruct Hin' as [ Heq | Hin' ]; [ congruence | contradiction ].
Qed.

Lemma assoc_set_map_present (h : string -> bool) (l : list string)
  (key : string) (value : bool) :
  NoDup l -> In key l ->
  assoc_set (map (fun p => (p, h p)) l) key value
  = map (fun p => (p, if String.eqb p key then value else h p)) l.
Proof.
  induction l as [ | p rest IH ]; intros Hnd Hin; [ destruct Hin | ].
  inversion Hnd as [ | x xs Hx Hxs ]; subst.
  cbn [map assoc_set].
  destruct (String.eqb_spec p key) as [ -> | Hne ].
  - f_equal. apply map_ext_in. intros q Hq.
    destruct (String.eqb_spec q key) as [ -> | _ ]; [ contradiction | reflexivity ].
  - f_equal. destruct Hin as [ Heq | Hin ]; [ congruence | ]. now apply IH.
Qed.

Lemma assoc_set_map_absent (h : string -> bool) (l : list string)
  (key : string) (value : bool) :
  ~ In key l ->
  assoc_set (map (fun p => (p, h p)) l) key value
  = map (fun p => (p, h p)) l ++ [(key, value)].
Proof.
  induction l as [ | p rest IH ]; intros Hno; [ reflexivity | ].
  cbn [map assoc_set app].
  destruct (String.eqb_spec p key) as [ -> | Hne ].
  - exfalso. apply Hno. now left.
  - f_equal. apply IH. intros Hin. apply Hno. now right.
Qed.

Lemma port_logged_in_snoc (name : string) (rows : list FabricData)
  (entry : FabricData) (port : string) :
  port_logged_in name (rows ++ [entry]) port
  = port_logged_in name rows port
    || (contributes name entry && strict_eq (Alias entry) (Some port)
        && entry_loggedIn entry).
Proof.
  unfold port_logged_in. rewrite existsb_app. cbn [existsb].
  now rewrite orb_false_r.
Qed.

(** The ports of a group are the aliases of its rows, each once, and the
    status of a port says whether one of its rows is logged in. *)
Lemma group_of_ports (name : string) (rows : list FabricData) :
  let g := group_of name rows in
  NoDup (ports g)
  /\ (forall port,
         In port (ports g)
         <-> port <> ""
             /\ exists entry,
                 In entry rows /\ contributes name entry = true
                 /\ Alias entry = Some port)
  /\ portsLoggedInStatus g
     = map (fun port => (port, port_logged_in name rows port)) (ports g).
Proof.
  cbv zeta. induction rows as [ | e rest (IHnd & IHin & IHst) ] using rev_ind.
  - cbn. split; [ constructor | ]. split; [ | reflexivity ].
    intros port. split; [ intros [] | intros [_ [entry [[] _]]] ].
  - rewrite group_of_snoc. unfold observe_group.
    set (g := group_of name rest) in *.
    assert (Hold : forall port,
               (port <> ""
                /\ exists entry,
                    In entry rest /\ contributes name entry = true
                    /\ Alias entry = Some port) ->
               port <> ""
               /\ exists entry,
                   In entry (rest ++ [e]) /\ contributes name entry = true
                   /\ Alias entry = Some port).
    { intros port [Hne (entry & Hin & Hrest)]. split; [ exact Hne | ].
      exists entry. split; [ apply in_or_app; now left | exact Hrest ]. }
    destruct (contributes name e) eqn:Hc.
    + cbn [update_group ports portsLoggedInStatus].
      destruct (truthy (Alias e)) eqn:Htruthy.
      * apply truthy_Some in Htruthy. destruct Htruthy as (p0 & Hp0 & Hp0ne).
        rewrite Hp0. cbn [ToString].
        split; [ now apply set_add_NoDup | ].
        split.
        { intros port. rewrite set_add_In, IHin. split.
          - intros [ H | -> ]; [ now apply Hold | ].
            split; [ exact Hp0ne | ]. exists e.
            split; [ apply in_or_app; right; now left | now split ].
          - intros [Hne (entry & Hin & Hce & Ha)].
            apply in_app_or in Hin. destruct Hin as [ Hin | [ <- | [] ] ].
            + left. split; [ exact Hne | ]. now exists entry.
            + right. congruence. }
        rewrite IHst, assoc_get_map. unfold set_add.
        destruct (in_dec string_dec p0 (ports g)) as [ Hin | Hno ].
        -- assert (Hhas : set_has (ports g) p0 = true) by now apply set_has_In.
           rewrite Hhas.
           destruct (port_logged_in name rest p0) eqn:Hpl.
           ++ apply map_ext_in. intros port Hport. f_equal.
              rewrite port_logged_in_snoc, Hc, Hp0. cbn [strict_eq andb].
              destruct (String.eqb_spec p0 port) as [ <- | _ ];
                [ now rewrite Hpl | now rewrite orb_false_r ].
           ++ rewrite (assoc_set_map_present _ _ _ _ IHnd Hin).
              apply map_ext_in. intros port Hport. f_equal.
              rewrite port_logged_in_snoc, Hc, Hp0. cbn [strict_eq andb].
              rewrite (String.eqb_sym p0 port).
              destruct (String.eqb_spec port p0) as [ -> | _ ];
                [ now rewrite Hpl | now rewrite orb_false_r ].
        -- assert (Hhas : set_has (ports g) p0 = false) by now apply set_has_not_In.
           rewrite Hhas, (assoc_set_map_absent _ _ _ _ Hno), map_app. cbn [map].
           f_equal.
           ++ apply map_ext_in. intros port Hport. f_equal.
              rewrite port_logged_in_snoc, Hc, Hp0. cbn [strict_eq andb].
              destruct (String.eqb_spec p0 port) as [ <- | _ ];
                [ contradiction | now rewrite orb_false_r ].
           ++ f_equal. f_equal.
              rewrite port_logged_in_snoc, Hc, Hp0. cbn [strict_eq andb].
              rewrite String.eqb_refl. cbn [andb].
              destruct (port_logged_in name rest p0) eqn:Hpl; [ exfalso | reflexivity ].
              apply Hno, IHin. split; [ exact Hp0ne | ].
              unfold port_logged_in in Hpl. apply existsb_exists in Hpl.
              destruct Hpl as (entry & Hin & Hp).
              apply andb_true_iff in Hp. destruct Hp as [Hp _].
              apply andb_true_iff in Hp. destruct Hp as [Hce Ha].
              exists entry. split; [ exact Hin | ]. split; [ exact Hce | ].
              now apply strict_eq_true in Ha.
      * split; [ exact IHnd | ]. split.
        { intros port. rewrite IHin. split; [ apply Hold | ].
          intros [Hne (entry & Hin & Hce & Ha)]. split; [ exact Hne | ].
          apply in_app_or in Hin. destruct Hin as [ Hin | [ <- | [] ] ].
          - now exists entry.
          - exfalso. rewrite Ha in Htruthy. cbn in Htruthy.
            apply negb_false_iff, String.eqb_eq in Htruthy. congruence. }
        rewrite IHst. apply map_ext_in. intros port Hport. f_equal.
        rewrite port_logged_in_snoc.
        destruct (strict_eq (Alias e) (Some port)) eqn:Ha;
          [ exfalso | now rewrite andb_false_r, orb_false_r ].
        apply strict_eq_true in Ha. apply IHin in Hport. destruct Hport as [Hne _].
        rewrite Ha in Htruthy. cbn in Htruthy.
        apply negb_false_iff, String.eqb_eq in Htruthy. congruence.
    + split; [ exact IHnd | ]. split.
      { intros port. rewrite IHin. split; [ apply Hold | ].
        intros [Hne (entry & Hin & Hce & Ha)]. split; [ exact Hne | ].
        apply in_app_or in Hin. destruct Hin as [ Hin | [ <- | [] ] ].
        - now exists entry.
        - congruence. }
      rewrite IHst. apply map_ext. intros port. f_equal.
      now rewrite port_logged_in_snoc, Hc, orb_false_r.
Qed.

Lemma logged_in_statuses (h : string -> bool) (l : list string) :
  List.length (filter (fun status : bool => status)
                 (map snd (map (fun p => (p, h p)) l)))
  = List.length (filter h l).
Proof.
  induction l as [ | p rest IH ]; [ reflexivity | ].
  cbn [map filter snd]. destruct (h p); cbn [List.length]; now rewrite IH.
Qed.

Lemma group_of_ports_within (name : string) (rows : list FabricData) :
  length_of (ports (group_of name rows)) <= count_rows (contributes name) rows.
Proof.
  destruct (group_of_ports name rows) as (Hnd & Hin & _).
  unfold count_rows, length_of. apply inj_le.
  rewrite <- (length_map (fun entry => ToString (Alias entry))
                (filter (contributes name) rows)).
  apply NoDup_incl_length; [ exact Hnd | ].
  intros port Hport. apply Hin in Hport.
  destruct Hport as [_ (entry & He & Hc & Ha)].
  apply in_map_iff. exists entry. split; [ now rewrite Ha | ].
  apply filter_In. now split.
Qed.

(** In every mapping of [groupedMappings], [ports] holds each alias of the
    storage rows of the server once, an empty or missing alias left out;
    [portsLoggedInStatus] has the ports for keys, in the same order, and
    gives a port the value true exactly when one of its rows is logged in;
    [totalPorts] is the number of ports and [loggedInPorts] the number of
    those that are logged in, so [loggedInPorts] never exceeds
    [totalPorts], which never exceeds the number of rows of the server. *)
Theorem groupedMappings_ports (localeCompare : string -> string -> Z)
  (data : list FabricData) (m : GroupedMapping) :
  In m (groupedMappings localeCompare data) ->
  NoDup (ports m)
  /\ (forall port,
         In port (ports m)
         <-> port <> ""
             /\ exists entry,
                 In entry data /\ contributes (server m) entry = true
                 /\ Alias entry = Some port)
  /\ portsLoggedInStatus m
     = map (fun port => (port, port_logged_in (server m) data port)) (ports m)
  /\ totalPorts m = length_of (ports m)
  /\ loggedInPorts m
     = length_of (filter (port_logged_in (server m) data) (ports m))
  /\ 0 <= loggedInPorts m <= totalPorts m
  /\ totalPorts m <= count_rows (contributes (server m)) data.
Proof.
  intros Hm. apply groupedMappings_In in Hm. destruct Hm as [name [_ ->]].
  cbn [count_ports ports portsLoggedInStatus totalPorts loggedInPorts server].
  rewrite group_of_server.
  destruct (group_of_ports name data) as (Hnd & Hin & Hst).
  split; [ exact Hnd | ]. split; [ exact Hin | ]. split; [ exact Hst | ].
  split; [ reflexivity | ].
  assert (Hcount :
            length_of (filter (fun status : bool => status)
                         (map snd (portsLoggedInStatus (group_of name data))))
            = length_of (filter (port_logged_in name data)
                           (ports (group_of name data)))).
  { rewrite Hst. unfold length_of. now rewrite logged_in_statuses. }
  split; [ exact Hcount | ]. split; [ | apply group_of_ports_within ].
  rewrite Hcount. unfold length_of.
  pose proof (filter_length_le (port_logged_in name data)
                (ports (group_of name data))).
  lia.
Qed.

Lemma groupedMappings_ports_witness :
  let data :=
    [ storage_row "FAB_A" "wamrpgp1_2_gpibox01_pg01" "gpibox01_n1fc1" "50:00:01" "No";
      storage_row "FAB_B" "wamrpgp1_2_gpibox01_pg01" "gpibox01_n1fc1" "50:00:01" "Yes";
      storage_row "FAB_A" "wamrpgp1_2_gpibox01_pg01" "gpibox01_n2fc1" "50:00:02" "No";
      storage_row "FAB_A" "wamrpgp1_2_gpibox01_pg01" "wamrpgp1_hba0" "10:00:01" "Yes" ] in
  let m := count_ports (group_of "wamrpgp1" data) in
  In m (groupedMappings localeCompare_root data)
  /\ ports m = [ "gpibox01_n1fc1"; "gpibox01_n2fc1" ]
  /\ portsLoggedInStatus m = [ ("gpibox01_n1fc1", true); ("gpibox01_n2fc1", false) ]
  /\ totalPorts m = 2 /\ loggedInPorts m = 1
  /\ 0 <= loggedInPorts m <= totalPorts m.
Proof.
  cbv zeta.
  match goal with |- In ?x (groupedMappings _ ?l) /\ _ => set (m := x); set (data := l) end.
  assert (Hin : In m (groupedMappings localeCompare_root data))
    by (vm_compute; left; reflexivity).
  split; [ exact Hin | ].
  split; [ vm_compute; reflexivity | ].
  split; [ vm_compute; reflexivity | ].
  split; [ vm_compute; reflexivity | ].
  split; [ vm_compute; reflexivity | ].
  exact (proj1 (proj2 (proj2 (proj2 (proj2 (proj2
           (groupedMappings_ports localeCompare_root data m Hin))))))).
Defined.

(** ** Rows that are not storage rows *)

Lemma storage_step_filter (rows : list FabricData) :
  forall groups,
    fold_left storage_step rows groups
    = fold_left storage_step
        (filter (fun entry => is_storage_wwn (Member_WWN entry)) rows) groups.
Proof.
  induction rows as [ | entry rest IH ]; intros groups; [ reflexivity | ].
  cbn [fold_left filter].
  destruct (is_storage_wwn (Member_WWN entry)) eqn:Hs.
  - cbn [fold_left]. apply IH.
  - unfold storage_step at 2. rewrite Hs. apply IH.
Qed.

(** [groupedMappings] reads the storage rows only: the rows whose WWN is
    missing, empty or does not start with '5' can be taken out of the data
    without changing the mappings, and there is no mapping at all exactly
    when the data has no storage row. *)
Theorem groupedMappings_storage_rows_only (localeCompare : string -> string -> Z)
  (data : list FabricData) :
  groupedMappings localeCompare data
  = groupedMappings localeCompare
      (filter (fun entry => is_storage_wwn (Member_WWN entry)) data)
  /\ (groupedMappings localeCompare data = []
      <-> forall entry,
            In entry data ->
            Member_WWN entry = None
            \/ exists text,
                 Member_WWN entry = Some text /\ startsWith text "5" = false).
Proof.
  split.
  - unfold groupedMappings. now rewrite storage_step_filter.
  - assert (Hno : forall entry,
               is_storage_wwn (Member_WWN entry) = false
               <-> Member_WWN entry = None
                   \/ exists text,
                        Member_WWN entry = Some text
                        /\ startsWith text "5" = false).
    { intros entry. unfold is_storage_wwn. destruct (Member_WWN entry) as [ text | ].
      - split.
        + intros H. right. exists text. split; [ reflexivity | ].
          apply andb_false_iff in H. destruct H as [ H | H ]; [ | exact H ].
          cbn in H. apply negb_false_iff, String.eqb_eq in H. now subst text.
        + intros [ H | (t & Ht & Hp) ]; [ discriminate | ].
          injection Ht as <-. rewrite Hp. apply andb_false_r.
      - split; [ now left | reflexivity ]. }
    split.
    + intros Hnil entry Hin. apply Hno.
      destruct (is_storage_wwn (Member_WWN entry)) eqn:Hs; [ exfalso | reflexivity ].
      set (name := extractServerFromZone (zone_or_empty entry)).
      assert (Hm : In (count_ports (group_of name data))
                     (groupedMappings localeCompare data)).
      { apply groupedMappings_In. exists name. split; [ | reflexivity ].
        exists entry. split; [ exact Hin | ].
        unfold contributes. rewrite Hs. apply String.eqb_refl. }
      rewrite Hnil in Hm. destruct Hm.
    + intros Hall.
      destruct (groupedMappings localeCompare data) as [ | m rest ] eqn:Hg;
        [ reflexivity | exfalso ].
      assert (Hm : In m (groupedMappings localeCompare data))
        by (rewrite Hg; now left).
      apply groupedMappings_In in Hm.
      destruct Hm as (name & (entry & Hin & Hc) & _).
      unfold contributes in Hc. apply andb_true_iff in Hc. destruct Hc as [Hs _].
      apply Hall, Hno in Hin. congruence.
Qed.

(** ** The statistics of the mappings *)

Lemma sum_Z_le (A : Type) (f g : A -> Z) (l : list A) :
  (forall x, In x l -> f x <= g x) ->
  sum_Z (map f l) <= sum_Z (map g l).
Proof.
  induction l as [ | x rest IH ]; intros H; [ cbn; lia | ].
  cbn [map]. rewrite !sum_Z_cons.
  assert (f x <= g x) by (apply H; now left).
  assert (sum_Z (map f rest) <= sum_Z (map g rest))
    by (apply IH; intros y Hy; apply H; now right).
  lia.
Qed.

Lemma sum_Z_ones (A : Type) (l : list A) :
  sum_Z (map (fun _ => 1) l) = length_of l.
Proof.
  unfold length_of. induction l as [ | x rest IH ]; [ reflexivity | ].
  cbn [map List.length]. rewrite sum_Z_cons, IH. lia.
Qed.

Lemma totalPaths_sum (mappings : list GroupedMapping) :
  forall start,
    fold_left (fun sum m => sum + totalPorts m) mappings start
    = start + sum_Z (map totalPorts mappings).
Proof.
  induction mappings as [ | m rest IH ]; intros start; [ cbn; lia | ].
  cbn [fold_left map]. rewrite IH, sum_Z_cons. lia.
Qed.

Lemma groupedMappings_rows_by_server (localeCompare : string -> string -> Z)
  (data : list FabricData) :
  sum_Z (map (fun m => count_rows (contributes (server m)) data)
           (groupedMappings localeCompare data))
  = count_rows (fun entry => is_storage_wwn (Member_WWN entry)) data.
Proof.
  destruct (groupedMappings_servers localeCompare data) as (Hperm & Hnd & Hkeys).
  rewrite <- (map_map server (fun k => count_rows (contributes k) data)).
  rewrite (sum_Z_Permutation _ _
             (Permutation_map (fun k => count_rows (contributes k) data) Hperm)).
  apply sum_count_by_server; [ exact Hnd | ].
  intros entry name Hin Hc. apply Hkeys. now exists entry.
Qed.

Lemma Health_cases (mappings : list GroupedMapping) :
  length_of (filter (fun m => Health_eqb (health m) health_OK) mappings)
  + length_of (filter (fun m => Health_eqb (health m) health_ERROR) mappings)
  = length_of mappings.
Proof.
  unfold length_of. induction mappings as [ | m rest IH ]; [ reflexivity | ].
  cbn [filter]. destruct (health m); cbn [Health_eqb List.length]; lia.
Qed.

(** The statistics over the mappings of [groupedMappings]: every server is
    counted as healthy or as unhealthy and never as both; the unhealthy
    servers are those with a storage row that is not logged in;
    [totalPaths] is the number of distinct ports summed over the servers;
    and neither the servers nor the paths are more than the storage rows
    of the data. *)
Theorem stats_of_groupedMappings (localeCompare : string -> string -> Z)
  (data : list FabricData) :
  let mappings := groupedMappings localeCompare data in
  let stats := mapping_stats mappings in
  let storage_rows :=
    count_rows (fun entry => is_storage_wwn (Member_WWN entry)) data in
  healthyServers stats + unhealthyServers stats = totalServers stats
  /\ unhealthyServers stats
     = length_of
         (filter (fun m => 0 <? count_rows (path_down (server m)) data) mappings)
  /\ totalPaths stats = sum_Z (map (fun m => length_of (ports m)) mappings)
  /\ 0 <= totalPaths stats <= storage_rows
  /\ 0 <= totalServers stats <= storage_rows.
Proof.
  cbv zeta.
  cbn [mapping_stats healthyServers unhealthyServers totalServers totalPaths].
  set (mappings := groupedMappings localeCompare data).
  assert (Hgroup : forall m,
             In m mappings ->
             exists name,
               (exists entry, In entry data /\ contributes name entry = true)
               /\ m = count_ports (group_of name data)).
  { intros m Hm. now apply groupedMappings_In in Hm. }
  split; [ apply Health_cases | ].
  split.
  { f_equal. apply filter_ext_in. intros m Hm.
    destruct (Hgroup m Hm) as (name & _ & ->).
    cbn [count_ports health server]. rewrite group_of_server.
    destruct (group_of_health name data) as [Hc Hh]. rewrite <- Hc.
    destruct (health (group_of name data)) eqn:Hhealth; cbn [Health_eqb]; symmetry.
    - apply Z.ltb_ge.
      destruct (Z_lt_le_dec 0 (notLoggedInCount (group_of name data)))
        as [ Hpos | Hle ]; [ | exact Hle ].
      rewrite Hc in Hpos. apply Hh in Hpos. congruence.
    - apply Z.ltb_lt. rewrite Hc. now apply Hh. }
  rewrite totalPaths_sum, Z.add_0_l.
  assert (Hports : map totalPorts mappings
                   = map (fun m => length_of (ports m)) mappings).
  { apply map_ext_in. intros m Hm. destruct (Hgroup m Hm) as (name & _ & ->).
    reflexivity. }
  rewrite Hports. split; [ reflexivity | ].
  rewrite <- (groupedMappings_rows_by_server localeCompare data). fold mappings.
  split.
  - split.
    + transitivity (sum_Z (map (fun _ : GroupedMapping => 0) mappings)).
      * clear. induction mappings as [ | m rest IH ]; [ cbn; lia | ].
        cbn [map]. rewrite sum_Z_cons. lia.
      * apply sum_Z_le. intros m _. unfold length_of. lia.
    + apply sum_Z_le. intros m Hm. destruct (Hgroup m Hm) as (name & _ & ->).
      cbn [count_ports ports server]. rewrite group_of_server.
      apply group_of_ports_within.
  - split; [ unfold length_of; lia | ].
    rewrite <- sum_Z_ones. apply sum_Z_le. intros m Hm.
    destruct (Hgroup m Hm) as (name & (entry & Hin & Hc) & ->).
    cbn [count_ports server]. rewrite group_of_server.
    assert (Hf : In entry (filter (contributes name) data))
      by (apply filter_In; now split).
    unfold count_rows, length_of.
    destruct (filter (contributes name) data); [ destruct Hf | cbn [List.length]; lia ].
Qed.
